(** * PDF_Content_Extractor: a shallow embedding of [pdf_content_extractor.py]

    The development follows the source file top-down:

    - Python [str] primitives used by the code ([strip], [lower], [split],
      [in], f-string rendering of integers);
    - the records the extractor builds ([PageRecord], [Question]);
    - the ambient world of an extraction run (availability flags, file
      system, document handles, saved image files, log) and a small
      state-and-exception monad over it;
    - [extract_with_pymupdf], [extract_with_pdfplumber],
      [parse_math_questions], [save_json_output], [process_pdf];
    - the constructor, with the [pathlib] paths it builds, and [main];
    - the properties of these functions.

    Python strings are modelled as [string]; a character is a code point
    below 256, on which [str.strip], [str.lower] and [in] are given with
    their exact Python meaning. *)

From Stdlib Require Import Strings.String Strings.Ascii ZArith Lia Bool.
From Stdlib Require Import DecimalString DecimalNat.
From stdpp Require Import base gmap strings list.

Open Scope string_scope.

(* ===================================================================== *)
(** ** Python string primitives *)
(* ===================================================================== *)

Module PyStr.

(** [str.isspace] on one code point below 256: TAB..CR, FS..US, SPACE,
    NEL (0x85) and NBSP (0xA0). These are the characters removed by
    [str.strip()] called without argument. *)
Definition is_space (c : ascii) : bool :=
  let k := nat_of_ascii c in
  (((9 <=? k) && (k <=? 13)) || ((28 <=? k) && (k <=? 32))
   || (k =? 133) || (k =? 160))%nat.

(** [str.lower] on one code point below 256: A..Z and the upper-case
    Latin-1 letters 0xC0..0xDE (without the multiplication sign 0xD7)
    move up by 32; everything else is unchanged. *)
Definition lower_char (c : ascii) : ascii :=
  let k := nat_of_ascii c in
  if (((65 <=? k) && (k <=? 90))
      || ((192 <=? k) && (k <=? 222) && negb (k =? 215)))%nat
  then ascii_of_nat (k + 32) else c.

Fixpoint lower (s : string) : string :=
  match s with
  | EmptyString => EmptyString
  | String c s' => String (lower_char c) (lower s')
  end.

(** Truthiness of a string: [if s:] / [if not s:]. *)
Definition truthy (s : string) : bool :=
  match s with EmptyString => false | String _ _ => true end.

Fixpoint lstrip (s : string) : string :=
  match s with
  | EmptyString => EmptyString
  | String c s' => if is_space c then lstrip s' else s
  end.

Fixpoint rstrip (s : string) : string :=
  match s with
  | EmptyString => EmptyString
  | String c s' =>
      match rstrip s' with
      | EmptyString => if is_space c then EmptyString else String c EmptyString
      | r => String c r
      end
  end.

(** [s.strip()] *)
Definition strip (s : string) : string := rstrip (lstrip s).

(** [s.split(sep)] for a one-character separator: never returns the
    empty list, keeps empty fields. *)
Fixpoint split (sep : ascii) (s : string) : list string :=
  match s with
  | EmptyString => [EmptyString]
  | String c s' =>
      if Ascii.eqb c sep then EmptyString :: split sep s'
      else match split sep s' with
           | h :: t => String c h :: t
           | [] => [String c EmptyString]
           end
  end.

Fixpoint startswith (p s : string) : bool :=
  match p, s with
  | EmptyString, _ => true
  | String _ _, EmptyString => false
  | String a p', String b s' => Ascii.eqb a b && startswith p' s'
  end.

(** [sub in s] *)
Fixpoint contains (sub s : string) : bool :=
  startswith sub s
  || match s with
     | EmptyString => false
     | String _ s' => contains sub s'
     end.

(** [s.endswith(suffix)] *)
Fixpoint endswith (suffix s : string) : bool :=
  String.eqb suffix s
  || match s with
     | EmptyString => false
     | String _ s' => endswith suffix s'
     end.

(** [str(n)] / [f"{n}"] for a non-negative integer. *)
Definition of_nat (n : nat) : string :=
  NilEmpty.string_of_uint (Nat.to_uint n).

Definition is_digit (c : ascii) : bool :=
  let k := nat_of_ascii c in ((48 <=? k) && (k <=? 57))%nat.

Fixpoint all_digits (s : string) : bool :=
  match s with
  | EmptyString => true
  | String c s' => is_digit c && all_digits s'
  end.

Definition newline : ascii := ascii_of_nat 10.

(** [sub] occurs in [s] at some position. *)
Definition occurs_in (sub s : string) : Prop :=
  exists pre post, s = pre ++ sub ++ post.

(** A string that is empty or begins with a character that [strip]
    keeps. *)
Definition head_kept (s : string) : Prop :=
  match s with
  | EmptyString => True
  | String c _ => is_space c = false
  end.

End PyStr.

(* ===================================================================== *)
(** ** pathlib paths *)
(* ===================================================================== *)

(** [pathlib.Path] on a POSIX system, as far as the code uses it:
    [Path(s)], [p / name], [str(p)] and the ancestors that
    [mkdir(parents=True)] makes. A path is its root and its components;
    [Path(s)] drops empty and ["."] components, so that ["results/"],
    ["./results"] and ["results"] are one path, and [str(Path(""))] is
    ["."]. *)
Module PurePath.

Definition slash : ascii := "/"%char.

Record t := { anchor : string; parts : list string }.

(** The root of a path string: ["/"], or ["//"] for exactly two leading
    slashes. *)
Definition anchor_of (s : string) : string :=
  match s with
  | String c1 (String c2 (String c3 _)) =>
      if Ascii.eqb c1 slash
      then if Ascii.eqb c2 slash
           then if Ascii.eqb c3 slash then "/" else "//"
           else "/"
      else ""
  | String c1 (String c2 EmptyString) =>
      if Ascii.eqb c1 slash
      then if Ascii.eqb c2 slash then "//" else "/"
      else ""
  | String c1 EmptyString => if Ascii.eqb c1 slash then "/" else ""
  | EmptyString => ""
  end.

(** A component that [Path(s)] keeps. *)
Definition kept (x : string) : bool :=
  negb (String.eqb x "") && negb (String.eqb x ".").

(** [Path(s)] *)
Definition of_string (s : string) : t :=
  {| anchor := anchor_of s;
     parts := List.filter kept (PyStr.split slash s) |}.

(** [str(p)] *)
Definition to_string (p : t) : string :=
  match anchor p, parts p with
  | EmptyString, [] => "."
  | a, ps => a ++ String.concat "/" ps
  end.

(** [p.joinpath(q)]: an absolute [q] replaces [p]. *)
Definition joinpath (p q : t) : t :=
  if PyStr.truthy (anchor q) then q
  else {| anchor := anchor p; parts := (parts p ++ parts q)%list |}.

(** [p / name] *)
Definition div (p : t) (name : string) : t := joinpath p (of_string name).

(** [p.parents], nearest first. *)
Definition parents (p : t) : list t :=
  map (fun k => {| anchor := anchor p; parts := take k (parts p) |})
      (rev (seq 0 (List.length (parts p)))).

(** A string that does not begin with the separator. *)
Definition head_free (s : string) : Prop :=
  match s with
  | EmptyString => True
  | String c _ => Ascii.eqb c slash = false
  end.

(** A plain name: one component, which [Path] keeps. *)
Definition plain (name : string) : Prop :=
  PyStr.split slash name = [name] /\ kept name = true.

(** What [str(p / name)] puts before a plain [name]. *)
Definition lead (ps : list string) : string :=
  match ps with
  | [] => ""
  | _ :: _ => String.concat "/" ps ++ "/"
  end.

Definition stem (p : t) : string := anchor p ++ lead (parts p).

End PurePath.

(* ===================================================================== *)
(** ** Records built by the extractor *)
(* ===================================================================== *)

(** One entry of [image_metadata] (geometry-only backend). The numbers are
    copied from the layout engine and never computed with. *)
Record ImageInfo := {
  x0 : Z; y0 : Z; x1 : Z; y1 : Z; width : Z; height : Z
}.

(** The [page_info] dict. The PyMuPDF backend builds it without the
    ["image_metadata"] key ([None] here). *)
Record PageRecord := {
  page_number : nat;
  text : string;
  images : list string;
  image_metadata : option (list ImageInfo);
  image_count : nat
}.

(** One element of [questions]: keys ["question"], ["images"],
    ["option_images"]. *)
Record Question := {
  q_question : string;
  q_images : string;
  q_option_images : list string
}.

(* ===================================================================== *)
(** ** The question segmenter, without its logging *)
(* ===================================================================== *)

Module Segmenter.
Import PyStr.

Definition keywords : list string :=
  ["question"; "what"; "which"; "find"; "solve"; "calculate"].

(** [any(keyword in line.lower() for keyword in [...])] *)
Definition is_trigger (line : string) : bool :=
  existsb (fun keyword => contains keyword (lower line)) keywords.

(** The local variables of the loop over [lines], with the [questions]
    list the method appends to. *)
Record Locals := {
  current_question : string;
  question_images : list string;
  option_images : list string;
  questions : list Question
}.

(** The dict appended at both flush points. *)
Definition emit (st : Locals) : Question :=
  {| q_question := strip (current_question st);
     q_images := match question_images st with
                 | i :: _ => i
                 | [] => ""
                 end;
     q_option_images := option_images st |}.

(** [if current_question: questions.append({...})] *)
Definition flush (st : Locals) : list Question :=
  if truthy (current_question st)
  then (questions st ++ [emit st])%list
  else questions st.

(** Body of [for line in lines]. *)
Definition line_step (page_images : list string) (st : Locals)
    (raw : string) : Locals :=
  let line := strip raw in
  if negb (truthy line) then st
  else if is_trigger line then
    {| current_question := line;
       question_images :=
         match page_images with [] => [] | _ => take 1 page_images end;
       option_images :=
         if (1 <? List.length page_images)%nat then drop 1 page_images else [];
       questions := flush st |}
  else if truthy (current_question st) then
    {| current_question := current_question st ++ " " ++ line;
       question_images := question_images st;
       option_images := option_images st;
       questions := questions st |}
  else st.

(** Body of [for page in page_data]: returns the new [questions]. *)
Definition page_step (qs : list Question) (page : PageRecord)
    : list Question :=
  let lines := split newline (text page) in
  let st0 := {| current_question := "";
                question_images := [];
                option_images := [];
                questions := qs |} in
  flush (fold_left (line_step (images page)) lines st0).

(** The value returned by [parse_math_questions]. *)
Definition segment (page_data : list PageRecord) : list Question :=
  fold_left page_step page_data [].

(** The Questions one page contributes. *)
Definition page_questions (page : PageRecord) : list Question :=
  page_step [] page.

(** No trigger keyword occurs in the line, whatever the case of its
    letters. *)
Definition no_keyword (line : string) : Prop :=
  forall keyword, In keyword keywords ->
    ~ occurs_in keyword (lower line).

(** Invariant of the line loop: the open question does not begin with
    a blank, and no Question emitted so far has an empty text. *)
Record locals_ok (st : Locals) : Prop := {
  ok_head : head_kept (current_question st);
  ok_questions : Forall (fun q => q_question q <> "") (questions st)
}.

End Segmenter.

(* ===================================================================== *)
(** ** The world of an extraction run *)
(* ===================================================================== *)

(** What PyMuPDF ([fitz]) shows of a document. Every library call the
    source makes may raise; the outcome of each call is part of the
    document's description. *)
Module Fitz.

(** [pix.n] (components per pixel, alpha included), [pix.alpha] (0/1). *)
Record Pixmap := { n : Z; alpha : Z }.

(** [fitz.Pixmap(fitz.csRGB, pix)]: same alpha, three colour channels. *)
Definition to_csRGB (pix : Pixmap) : Pixmap :=
  {| n := 3 + alpha pix; alpha := alpha pix |}.

(** One entry of [page.get_images(full=True)]: [img[0]] is the xref;
    [pixmap] is what [fitz.Pixmap(doc, xref)] decodes ([None]: raises),
    [to_rgb_ok] and [save_ok] tell whether the colourspace conversion
    and [pix.save] succeed for it. [pix.save] opens its output file
    before it encodes: [save_leaves_file] tells whether a save that
    raises has created the file by then (an encoder error) or not (the
    file could not be opened). *)
Record Image := {
  xref : Z;
  pixmap : option Pixmap;
  to_rgb_ok : bool;
  save_ok : bool;
  save_leaves_file : bool
}.

(** [doc.load_page(i)], [page.get_text()], [page.get_images(full=True)];
    [None] / [false]: the call raises. *)
Record Page := {
  load_ok : bool;
  get_text : option string;
  get_images : option (list Image)
}.

Inductive Format := PNG | PNM | PSD | PS | JPEG.

(** [pix.save(filename)] picks the output format from the file name's
    extension and raises on an unknown one. *)
Definition format_of (filename : string) : option Format :=
  if PyStr.endswith ".png" filename then Some PNG
  else if PyStr.endswith ".pnm" filename || PyStr.endswith ".pgm" filename
          || PyStr.endswith ".ppm" filename || PyStr.endswith ".pbm" filename
          || PyStr.endswith ".pam" filename then Some PNM
  else if PyStr.endswith ".psd" filename then Some PSD
  else if PyStr.endswith ".ps" filename then Some PS
  else if PyStr.endswith ".jpg" filename || PyStr.endswith ".jpeg" filename
  then Some JPEG
  else None.

End Fitz.

(** What pdfplumber shows of a document. *)
Module Plumber.

(** [page.extract_text()] raises ([None]), returns [None] ([Some None])
    or a string; [page.images] raises ([None]) or is a list of dicts. *)
Record Page := {
  extract_text : option (option string);
  images : option (list (gmap string Z))
}.

End Plumber.

(** A file of the file system, as each library parses it ([None]: the
    library's [open] raises on it). *)
Record PdfFile := {
  fitz_view : option (list Fitz.Page);
  plumber_view : option (list Plumber.Page)
}.

(** What a method of the extractor reads but never changes: the import
    flags of the module, the file system as the method finds it (what
    each path string names), the [str] of [self.output_dir], and whether
    a JSON file of a given path can be written. *)
Record Env := {
  PYMUPDF_AVAILABLE : bool;
  PDFPLUMBER_AVAILABLE : bool;
  fs : gmap string PdfFile;
  output_dir : string;
  json_writable : string -> bool
}.

Record SavedImage := {
  sv_path : string;
  sv_pixmap : Fitz.Pixmap;
  sv_format : Fitz.Format
}.

Inductive Level := INFO | WARNING | ERROR.

Inductive JsonData :=
| JQuestions (qs : list Question)
| JPages (ps : list PageRecord).

(** What a run changes: document handles acquired and released so far,
    image files written, files created by a [pix.save] that then raised
    (left empty or incomplete on the disk), JSON files written, log
    records, standard output. *)
Record World := {
  opened : nat;
  released : nat;
  saved : list SavedImage;
  leftovers : list string;
  json_files : list (string * JsonData);
  log : list (Level * string);
  stdout : list string
}.

Definition world0 : World :=
  {| opened := 0; released := 0; saved := []; leftovers := [];
     json_files := []; log := []; stdout := [] |}.

(** Handles acquired and not released. *)
Definition open_handles (w : World) : nat := opened w - released w.

Inductive ExnClass :=
| ImportError | FileNotFoundError | ValueError | OSError | LibraryError.

Record exn := Exn { exn_class : ExnClass; exn_msg : string }.

Inductive result (A : Type) :=
| Ok (a : A)
| Raise (e : exn).
Arguments Ok {A} a.
Arguments Raise {A} e.

(** Computations that change the world and return or raise. *)
Definition M (A : Type) : Type := World -> World * result A.

Definition ret {A} (a : A) : M A := fun w => (w, Ok a).
Definition raise {A} (e : exn) : M A := fun w => (w, Raise e).
Definition bind {A B} (m : M A) (k : A -> M B) : M B :=
  fun w => match m w with
           | (w', Ok a) => k a w'
           | (w', Raise e) => (w', Raise e)
           end.
(** [try: m except Exception as e: h e] *)
Definition try_except {A} (m : M A) (h : exn -> M A) : M A :=
  fun w => match m w with
           | (w', Ok a) => (w', Ok a)
           | (w', Raise e) => h e w'
           end.

Notation "'let*' x ':=' m 'in' k" := (bind m (fun x => k))
  (at level 10, x name, m at level 100, k at level 200).

(** [try: m finally: f], for an [f] that does not raise. *)
Definition finally {A} (m : M A) (f : M unit) : M A :=
  fun w => match m w with
           | (w', r) => (fst (f w'), r)
           end.

(** [for x in xs: acc = body acc x], leaving the loop when the body
    raises. *)
Fixpoint for_each {A S} (xs : list A) (body : S -> A -> M S) (acc : S)
    : M S :=
  match xs with
  | [] => ret acc
  | x :: xs' => let* acc' := body acc x in for_each xs' body acc'
  end.

(** [enumerate(xs)] *)
Fixpoint enumerate_from {A} (k : nat) (xs : list A) : list (nat * A) :=
  match xs with
  | [] => []
  | x :: xs' => (k, x) :: enumerate_from (S k) xs'
  end.
Definition enumerate {A} (xs : list A) : list (nat * A) :=
  enumerate_from 0 xs.

(** [str(e)] as the source prints it. *)
Definition str_exn (e : exn) : string := exn_msg e.

(** [str(Path(d) / name)]; the code keeps its directories as [Path]
    objects, of which [d] is the [str]. *)
Definition path_join (d name : string) : string :=
  PurePath.to_string (PurePath.div (PurePath.of_string d) name).
Arguments path_join : simpl never.

(* ===================================================================== *)
(** ** class PDFContentExtractor *)
(* ===================================================================== *)

(** The methods take the extractor as [self]; of the object only
    [self.output_dir] matters to them. [__init__], the creation of the
    output directories and the opening of the log file come with [main],
    in [Cli] below; the logger is the [log] of the world. *)
Section PDFContentExtractor.

Variable self : Env.

(** [self.images_dir = self.output_dir / "images"] *)
Definition images_dir : string := path_join (output_dir self) "images".

(** *** World primitives *)

Definition logger (lvl : Level) (msg : string) : M unit :=
  fun w => ({| opened := opened w; released := released w;
               saved := saved w; leftovers := leftovers w;
               json_files := json_files w;
               log := (log w ++ [(lvl, msg)])%list; stdout := stdout w |}, Ok tt).

Definition print (msg : string) : M unit :=
  fun w => ({| opened := opened w; released := released w;
               saved := saved w; leftovers := leftovers w;
               json_files := json_files w;
               log := log w; stdout := (stdout w ++ [msg])%list |}, Ok tt).

Definition acquire_handle : M unit :=
  fun w => ({| opened := S (opened w); released := released w;
               saved := saved w; leftovers := leftovers w;
               json_files := json_files w;
               log := log w; stdout := stdout w |}, Ok tt).

Definition release_handle : M unit :=
  fun w => ({| opened := opened w; released := S (released w);
               saved := saved w; leftovers := leftovers w;
               json_files := json_files w;
               log := log w; stdout := stdout w |}, Ok tt).

Definition write_image (f : SavedImage) : M unit :=
  fun w => ({| opened := opened w; released := released w;
               saved := (saved w ++ [f])%list; leftovers := leftovers w;
               json_files := json_files w;
               log := log w; stdout := stdout w |}, Ok tt).

(** A file created and left behind by a save that raises. *)
Definition leave_file (path : string) : M unit :=
  fun w => ({| opened := opened w; released := released w;
               saved := saved w;
               leftovers := (leftovers w ++ [path])%list;
               json_files := json_files w;
               log := log w; stdout := stdout w |}, Ok tt).

Definition write_json (path : string) (data : JsonData) : M unit :=
  fun w => ({| opened := opened w; released := released w;
               saved := saved w; leftovers := leftovers w;
               json_files := (json_files w ++ [(path, data)])%list;
               log := log w; stdout := stdout w |}, Ok tt).

Definition library_error {A} (what : string) : M A :=
  raise (Exn LibraryError what).

(** [os.path.exists(path)] *)
Definition os_path_exists (path : string) : bool :=
  match fs self !! path with Some _ => true | None => false end.

(** *** The fitz calls of [extract_with_pymupdf] *)

(** [fitz.open(pdf_path)]: acquires a handle when it succeeds. *)
Definition fitz_open (pdf_path : string) : M (list Fitz.Page) :=
  match fs self !! pdf_path with
  | Some f =>
      match fitz_view f with
      | Some doc => let* _ := acquire_handle in ret doc
      | None => library_error "cannot open document"
      end
  | None => library_error "no such file"
  end.

(** [doc.close()] *)
Definition doc_close : M unit := release_handle.

(** [doc.load_page(page_num)] *)
Definition load_page (doc : list Fitz.Page) (page_num : nat)
    : M Fitz.Page :=
  match doc !! page_num with
  | Some page => if Fitz.load_ok page then ret page
                 else library_error "cannot load page"
  | None => library_error "page not in document"
  end.

Definition page_get_text (page : Fitz.Page) : M string :=
  match Fitz.get_text page with
  | Some t => ret t
  | None => library_error "cannot extract text"
  end.

Definition page_get_images (page : Fitz.Page) : M (list Fitz.Image) :=
  match Fitz.get_images page with
  | Some l => ret l
  | None => library_error "cannot list images"
  end.

(** [fitz.Pixmap(doc, xref)] *)
Definition Pixmap_of_xref (img : Fitz.Image) : M Fitz.Pixmap :=
  match Fitz.pixmap img with
  | Some pix => ret pix
  | None => library_error "cannot decode image"
  end.

(** [fitz.Pixmap(fitz.csRGB, pix)] *)
Definition Pixmap_csRGB (img : Fitz.Image) (pix : Fitz.Pixmap)
    : M Fitz.Pixmap :=
  if Fitz.to_rgb_ok img then ret (Fitz.to_csRGB pix)
  else library_error "cannot convert colourspace".

(** [pix.save(filename)]: an unknown extension is refused before any
    file is opened; a save that raises later may have created the file
    already, and nothing removes it. *)
Definition pix_save (img : Fitz.Image) (pix : Fitz.Pixmap)
    (filename : string) : M unit :=
  match Fitz.format_of filename with
  | Some fmt =>
      if Fitz.save_ok img
      then write_image {| sv_path := filename; sv_pixmap := pix;
                          sv_format := fmt |}
      else if Fitz.save_leaves_file img
      then let* _ := leave_file filename in
           library_error "cannot write image"
      else library_error "cannot write image"
  | None => library_error "unknown output format"
  end.

(** *** extract_with_pymupdf *)

(** [f"page_{page_num + 1}_image_{img_index + 1}.png"] *)
Definition image_name (page_num img_index : nat) : string :=
  "page_" ++ PyStr.of_nat (page_num + 1) ++ "_image_"
  ++ PyStr.of_nat (img_index + 1) ++ ".png".

(** The [try] block inside the image loop: returns the saved path. *)
Definition materialize (page_num img_index : nat) (img : Fitz.Image)
    : M string :=
  let* pix := Pixmap_of_xref img in
  let* pix := (if (Fitz.n pix - Fitz.alpha pix >? 3)%Z
               then Pixmap_csRGB img pix else ret pix) in
  let image_name := image_name page_num img_index in
  let image_path := path_join images_dir image_name in
  let* _ := pix_save img pix image_path in
  let* _ := logger INFO ("Saved image: " ++ image_name) in
  ret image_path.

(** Body of [for img_index, img in enumerate(image_list)]. *)
Definition image_body (page_num : nat) (page_images : list string)
    (it : nat * Fitz.Image) : M (list string) :=
  let '(img_index, img) := it in
  try_except
    (let* image_path := materialize page_num img_index img in
     ret (page_images ++ [image_path])%list)
    (fun e =>
       let* _ := logger WARNING
         ("Failed to extract image " ++ PyStr.of_nat img_index
          ++ " from page " ++ PyStr.of_nat (page_num + 1) ++ ": "
          ++ str_exn e) in
       ret page_images).

(** Body of [for page_num in range(len(doc))]. *)
Definition fitz_page_body (doc : list Fitz.Page)
    (page_data : list PageRecord) (page_num : nat)
    : M (list PageRecord) :=
  let* page := load_page doc page_num in
  let* text := page_get_text page in
  let* image_list := page_get_images page in
  let* page_images :=
    for_each (enumerate image_list) (image_body page_num) [] in
  let page_info :=
    {| page_number := page_num + 1;
       text := PyStr.strip text;
       images := page_images;
       image_metadata := None;
       image_count := List.length page_images |} in
  ret (page_data ++ [page_info])%list.

Definition extract_with_pymupdf (pdf_path : string)
    : M (list PageRecord) :=
  if negb (PYMUPDF_AVAILABLE self) then
    raise (Exn ImportError
      "PyMuPDF is not available. Install with: pip install PyMuPDF")
  else
    let* _ := logger INFO
      ("Extracting content from " ++ pdf_path ++ " using PyMuPDF") in
    try_except
      (let* doc := fitz_open pdf_path in
       let* page_data :=
         for_each (seq 0 (List.length doc)) (fitz_page_body doc) [] in
       let* _ := doc_close in
       let* _ := logger INFO
         ("Successfully extracted content from "
          ++ PyStr.of_nat (List.length page_data) ++ " pages") in
       ret page_data)
      (fun e =>
         let* _ := logger ERROR
           ("Error extracting with PyMuPDF: " ++ str_exn e) in
         raise e).

(** *** extract_with_pdfplumber *)

(** [pdfplumber.open(pdf_path)]: acquires a handle when it succeeds. *)
Definition pdfplumber_open (pdf_path : string) : M (list Plumber.Page) :=
  match fs self !! pdf_path with
  | Some f =>
      match plumber_view f with
      | Some pdf => let* _ := acquire_handle in ret pdf
      | None => library_error "cannot open document"
      end
  | None => library_error "no such file"
  end.

(** [with pdfplumber.open(pdf_path) as pdf: body]: the handle is
    released when the block is left, by return or by exception. *)
Definition with_pdfplumber_open {A} (pdf_path : string)
    (body : list Plumber.Page -> M A) : M A :=
  let* pdf := pdfplumber_open pdf_path in
  finally (body pdf) release_handle.

(** [img.get(key, 0)] *)
Definition dict_get (img : gmap string Z) (key : string) : Z :=
  default 0%Z (img !! key).

Definition image_info (img : gmap string Z) : ImageInfo :=
  {| x0 := dict_get img "x0"; y0 := dict_get img "y0";
     x1 := dict_get img "x1"; y1 := dict_get img "y1";
     width := dict_get img "width"; height := dict_get img "height" |}.

(** Body of [for img_index, img in enumerate(images)]. *)
Definition plumber_image_body (page_images : list ImageInfo)
    (it : nat * gmap string Z) : M (list ImageInfo) :=
  let '(img_index, img) := it in
  ret (page_images ++ [image_info img])%list.

(** Body of [for page_num, page in enumerate(pdf.pages)]. *)
Definition plumber_page_body (page_data : list PageRecord)
    (it : nat * Plumber.Page) : M (list PageRecord) :=
  let '(page_num, page) := it in
  let* text :=
    match Plumber.extract_text page with
    | Some (Some t) => ret (if PyStr.truthy t then t else "")
    | Some None => ret ""
    | None => library_error "cannot extract text"
    end in
  let* images :=
    match Plumber.images page with
    | Some l => ret l
    | None => library_error "cannot list images"
    end in
  let* page_images := for_each (enumerate images) plumber_image_body [] in
  let page_info :=
    {| page_number := page_num + 1;
       text := PyStr.strip text;
       images := [];
       image_metadata := Some page_images;
       image_count := List.length page_images |} in
  ret (page_data ++ [page_info])%list.

Definition extract_with_pdfplumber (pdf_path : string)
    : M (list PageRecord) :=
  if negb (PDFPLUMBER_AVAILABLE self) then
    raise (Exn ImportError
      "pdfplumber is not available. Install with: pip install pdfplumber")
  else
    let* _ := logger INFO
      ("Extracting content from " ++ pdf_path ++ " using pdfplumber") in
    try_except
      (with_pdfplumber_open pdf_path (fun pdf =>
         let* page_data := for_each (enumerate pdf) plumber_page_body [] in
         let* _ := logger INFO
           ("Successfully extracted content from "
            ++ PyStr.of_nat (List.length page_data) ++ " pages") in
         ret page_data))
      (fun e =>
         let* _ := logger ERROR
           ("Error extracting with pdfplumber: " ++ str_exn e) in
         raise e).

(** *** parse_math_questions *)

Definition parse_math_questions (page_data : list PageRecord)
    : M (list Question) :=
  let questions := Segmenter.segment page_data in
  let* _ := logger INFO
    ("Parsed " ++ PyStr.of_nat (List.length questions)
     ++ " questions from the PDF") in
  ret questions.

(** *** save_json_output *)

Definition save_json_output (data : JsonData) (filename : string)
    : M unit :=
  let output_path := path_join (output_dir self) filename in
  try_except
    (let* _ := (if json_writable self output_path
                then write_json output_path data
                else raise (Exn OSError "cannot write file")) in
     let* _ := logger INFO ("Saved JSON output to: " ++ output_path) in
     print ("JSON output saved to: " ++ output_path))
    (fun e =>
       let* _ := logger ERROR
         ("Error saving JSON output: " ++ str_exn e) in
       raise e).

(** *** process_pdf *)

Definition process_pdf (pdf_path method : string) : M (list Question) :=
  if negb (os_path_exists pdf_path) then
    raise (Exn FileNotFoundError ("PDF file not found: " ++ pdf_path))
  else
    let* _ := logger INFO ("Starting PDF processing: " ++ pdf_path) in
    let* page_data :=
      (if String.eqb (PyStr.lower method) "pymupdf"
       then extract_with_pymupdf pdf_path
       else if String.eqb (PyStr.lower method) "pdfplumber"
       then extract_with_pdfplumber pdf_path
       else raise (Exn ValueError
                     ("Unknown extraction method: " ++ method))) in
    let* questions := parse_math_questions page_data in
    let* _ := save_json_output (JQuestions questions) "questions.json" in
    let* _ := save_json_output (JPages page_data) "raw_pages.json" in
    ret questions.

End PDFContentExtractor.

(* ===================================================================== *)
(** ** Concrete pages and documents *)
(* ===================================================================== *)

Definition nl : string := String PyStr.newline "".

(** ["\n".join(lines)] *)
Definition join_lines (lines : list string) : string := String.concat nl lines.

Definition page_of (number : nat) (lines : list string)
    (pool : list string) : PageRecord :=
  {| page_number := number; text := join_lines lines; images := pool;
     image_metadata := None; image_count := List.length pool |}.

(** Single page, lines ["Find the pattern."] and ["Continue: A B C ?"],
    image pool [[img1; img2]]. *)
Definition pattern_page (img1 img2 : string) : PageRecord :=
  page_of 1 ["Find the pattern."; "Continue: A B C ?"] [img1; img2].

(** A page of plain prose. *)
Definition prose_page : PageRecord :=
  page_of 1 ["Answers are on the last sheet."; "Good luck!"]
    ["out/images/page_1_image_1.png"].

(* ===================================================================== *)
(** ** What a run leaves behind, described without the monad *)
(* ===================================================================== *)

(** [w'] is [w] after some log records and the image files [new]: no
    handle was acquired or released, no JSON file was written and
    nothing was printed. The files that failed saves leave behind are
    told by [writes] below. *)
Definition saves_only (w w' : World) (new : list SavedImage) : Prop :=
  opened w' = opened w /\ released w' = released w /\
  saved w' = (saved w ++ new)%list /\
  json_files w' = json_files w /\ stdout w' = stdout w.

(** [w'] is [w] after some log records, the image files [new] and the
    files [left] that failed saves left behind. *)
Definition writes (w w' : World) (new : list SavedImage)
    (left : list string) : Prop :=
  saves_only w w' new /\ leftovers w' = (leftovers w ++ left)%list.

Module Raster.

(** The pixmap that reaches [pix.save]: converted to RGB when it has
    more than three colour channels besides alpha. *)
Definition converted (img : Fitz.Image) (pix : Fitz.Pixmap)
    : option Fitz.Pixmap :=
  if (Fitz.n pix - Fitz.alpha pix >? 3)%Z
  then (if Fitz.to_rgb_ok img then Some (Fitz.to_csRGB pix) else None)
  else Some pix.

(** The pixmap written for an image, when decoding, conversion and
    saving all succeed. *)
Definition materialized (img : Fitz.Image) : option Fitz.Pixmap :=
  match Fitz.pixmap img with
  | Some pix =>
      match converted img pix with
      | Some pix' => if Fitz.save_ok img then Some pix' else None
      | None => None
      end
  | None => None
  end.

(** A written image: 0-based page index, 0-based image index, pixmap. *)
Definition Slot : Type := nat * nat * Fitz.Pixmap.

Definition slot_key (s : Slot) : nat * nat := (s.1.1, s.1.2).

Definition key_path (self : Env) (k : nat * nat) : string :=
  path_join (images_dir self) (image_name k.1 k.2).

Definition slot_path (self : Env) (s : Slot) : string :=
  key_path self (slot_key s).

Definition slot_save (self : Env) (s : Slot) : SavedImage :=
  {| sv_path := slot_path self s; sv_pixmap := s.2;
     sv_format := Fitz.PNG |}.

Definition slot_of (page_num : nat) (it : nat * Fitz.Image)
    : option Slot :=
  match materialized it.2 with
  | Some pix => Some (page_num, it.1, pix)
  | None => None
  end.

(** The images of one page that get written, in order; [k] is the index
    of the first image of [imgs]. *)
Definition page_slots (page_num k : nat) (imgs : list Fitz.Image)
    : list Slot :=
  omap (slot_of page_num) (enumerate_from k imgs).

(** A page on which none of the three page-level calls raises. *)
Definition readable (page : Fitz.Page) : bool :=
  Fitz.load_ok page
  && match Fitz.get_text page with Some _ => true | None => false end
  && match Fitz.get_images page with Some _ => true | None => false end.

Definition page_images (page : Fitz.Page) : list Fitz.Image :=
  default [] (Fitz.get_images page).

Definition page_record (self : Env) (page_num : nat) (page : Fitz.Page)
    : PageRecord :=
  let paths :=
    map (slot_path self) (page_slots page_num 0 (page_images page)) in
  {| page_number := page_num + 1;
     text := PyStr.strip (default "" (Fitz.get_text page));
     images := paths;
     image_metadata := None;
     image_count := List.length paths |}.

(** Records and written images of the pages [pages], the first of which
    has index [k]. *)
Definition doc_records (self : Env) (k : nat) (pages : list Fitz.Page)
    : list PageRecord :=
  map (fun it => page_record self it.1 it.2) (enumerate_from k pages).

Definition doc_slots (k : nat) (pages : list Fitz.Page) : list Slot :=
  concat (map (fun it => page_slots it.1 0 (page_images it.2))
              (enumerate_from k pages)).


(** The image reaches [pix.save], which raises after it has created
    the file. *)
Definition left_behind (img : Fitz.Image) : bool :=
  match Fitz.pixmap img with
  | Some pix =>
      match converted img pix with
      | Some _ => negb (Fitz.save_ok img) && Fitz.save_leaves_file img
      | None => false
      end
  | None => false
  end.

Definition left_of (page_num : nat) (it : nat * Fitz.Image)
    : option (nat * nat) :=
  if left_behind it.2 then Some (page_num, it.1) else None.

(** The images of one page that leave a file behind, by 0-based page
    and image index; [k] is the index of the first image of [imgs]. *)
Definition page_lefts (page_num k : nat) (imgs : list Fitz.Image)
    : list (nat * nat) :=
  omap (left_of page_num) (enumerate_from k imgs).

Definition doc_lefts (k : nat) (pages : list Fitz.Page)
    : list (nat * nat) :=
  concat (map (fun it => page_lefts it.1 0 (page_images it.2))
              (enumerate_from k pages)).

(** The pages the page loop goes through completely: those before the
    first page that cannot be read. *)
Fixpoint reached (pages : list Fitz.Page) : list Fitz.Page :=
  match pages with
  | [] => []
  | page :: pages' => if readable page then page :: reached pages' else []
  end.

(** [sv] is the file written for an image of [doc]: the image at
    0-based index [img_index] of the page of 0-based index [page_num],
    named with both indices plus one, holding the decoded pixmap
    (converted when it has more than three colour channels), as PNG. *)
Definition written_for (self : Env) (doc : list Fitz.Page)
    (sv : SavedImage) : Prop :=
  exists page_num img_index page imgs img pix,
    doc !! page_num = Some page /\
    Fitz.get_images page = Some imgs /\
    imgs !! img_index = Some img /\
    Fitz.pixmap img = Some pix /\
    sv_path sv
    = path_join (images_dir self)
        ("page_" ++ PyStr.of_nat (page_num + 1) ++ "_image_"
         ++ PyStr.of_nat (img_index + 1) ++ ".png") /\
    sv_pixmap sv
    = (if (Fitz.n pix - Fitz.alpha pix >? 3)%Z
       then Fitz.to_csRGB pix else pix) /\
    sv_format sv = Fitz.PNG.

(** [p] is the path of a file left behind for an image of [doc]: the
    name of the image at 0-based index [img_index] of the page of 0-based
    index [page_num], whose save raised after creating the file. *)
Definition left_for (self : Env) (doc : list Fitz.Page) (p : string)
    : Prop :=
  exists page_num img_index page imgs img,
    doc !! page_num = Some page /\
    Fitz.get_images page = Some imgs /\
    imgs !! img_index = Some img /\
    Fitz.save_ok img = false /\ Fitz.save_leaves_file img = true /\
    p = path_join (images_dir self)
          ("page_" ++ PyStr.of_nat (page_num + 1) ++ "_image_"
           ++ PyStr.of_nat (img_index + 1) ++ ".png").

End Raster.

Module Geometry.

(** A page on which neither page-level call raises. *)
Definition readable (page : Plumber.Page) : bool :=
  match Plumber.extract_text page with Some _ => true | None => false end
  && match Plumber.images page with Some _ => true | None => false end.

Definition page_text (page : Plumber.Page) : string :=
  match Plumber.extract_text page with
  | Some (Some t) => t
  | _ => ""
  end.

Definition page_boxes (page : Plumber.Page) : list (gmap string Z) :=
  default [] (Plumber.images page).

Definition page_record (page_num : nat) (page : Plumber.Page)
    : PageRecord :=
  {| page_number := page_num + 1;
     text := PyStr.strip (page_text page);
     images := [];
     image_metadata := Some (map image_info (page_boxes page));
     image_count := List.length (page_boxes page) |}.

Definition doc_records (k : nat) (pages : list Plumber.Page)
    : list PageRecord :=
  map (fun it => page_record it.1 it.2) (enumerate_from k pages).

End Geometry.

(** *** Documents of a sample file system *)

Definition rgb : Fitz.Pixmap := {| Fitz.n := 3; Fitz.alpha := 0 |}.
Definition cmyk_alpha : Fitz.Pixmap := {| Fitz.n := 5; Fitz.alpha := 1 |}.

Definition good_image (pix : Fitz.Pixmap) : Fitz.Image :=
  {| Fitz.xref := 7; Fitz.pixmap := Some pix;
     Fitz.to_rgb_ok := true; Fitz.save_ok := true;
     Fitz.save_leaves_file := false |}.

(** An image whose stream cannot be decoded. *)
Definition corrupt_image : Fitz.Image :=
  {| Fitz.xref := 8; Fitz.pixmap := None;
     Fitz.to_rgb_ok := true; Fitz.save_ok := true;
     Fitz.save_leaves_file := false |}.

Definition fitz_page (t : string) (imgs : list Fitz.Image) : Fitz.Page :=
  {| Fitz.load_ok := true; Fitz.get_text := Some t;
     Fitz.get_images := Some imgs |}.

(** A page that loads but whose text extraction raises. *)
Definition damaged_page : Fitz.Page :=
  {| Fitz.load_ok := true; Fitz.get_text := None;
     Fitz.get_images := Some [] |}.

Definition plumber_page (t : string) (boxes : list (gmap string Z))
    : Plumber.Page :=
  {| Plumber.extract_text := Some (Some t); Plumber.images := Some boxes |}.

Definition box (l : list (string * Z)) : gmap string Z := list_to_map l.

(** Two pages; the first shows a CMYK image with alpha and a corrupt
    image. *)
Definition paper_file : PdfFile :=
  {| fitz_view :=
       Some [fitz_page " What is the next figure? "
               [good_image cmyk_alpha; corrupt_image; good_image rgb];
             fitz_page "Answers overleaf." []];
     plumber_view :=
       Some [plumber_page " What is the next figure? "
               [box [("x0", 10); ("y0", 20); ("x1", 110); ("y1", 80);
                     ("width", 100); ("height", 60)]%Z];
             plumber_page "Answers overleaf." []] |}.

(** One page; reading it raises in both libraries. *)
Definition damaged_file : PdfFile :=
  {| fitz_view := Some [damaged_page];
     plumber_view :=
       Some [{| Plumber.extract_text := None;
                Plumber.images := Some [] |}] |}.

Definition sample_env : Env :=
  {| PYMUPDF_AVAILABLE := true;
     PDFPLUMBER_AVAILABLE := true;
     fs := {[ "paper.pdf" := paper_file; "damaged.pdf" := damaged_file ]};
     output_dir := "extracted_content";
     json_writable := fun _ => true |}.

(* ===================================================================== *)
(** ** Segmentation read as a grouping of lines *)
(* ===================================================================== *)

Module Grouping.
Import PyStr Segmenter.

(** A string that [strip] leaves as it is. *)
Definition trimmed (s : string) : Prop := head_kept s /\ rstrip s = s.

(** The lines the loop acts on: each line of the text stripped, the
    blank ones left out. *)
Definition visible_lines (t : string) : list string :=
  List.filter truthy (map strip (split newline t)).

(** A trigger line followed by lines that are not. *)
Definition is_group (g : list string) : Prop :=
  exists t body,
    g = t :: body /\ is_trigger t = true /\
    Forall (fun l => is_trigger l = false) body.

(** The Question made of one group of lines of a page with image pool
    [pool]. *)
Definition question_of (pool : list string) (g : list string) : Question :=
  {| q_question := String.concat " " g;
     q_images := match pool with i :: _ => i | [] => "" end;
     q_option_images := drop 1 pool |}.

(** The lines before the first trigger line, and the groups after it. *)
Fixpoint groups (ls : list string) : list string * list (list string) :=
  match ls with
  | [] => ([], [])
  | l :: ls' =>
      let '(lead, gs) := groups ls' in
      if is_trigger l then ([], (l :: lead) :: gs) else (l :: lead, gs)
  end.

(** What the line loop knows while a question is open. *)
Definition locals_track (pool : list string) (st : Locals) : Prop :=
  truthy (current_question st) = true ->
  trimmed (current_question st) /\
  question_images st = match pool with [] => [] | _ => take 1 pool end /\
  option_images st
  = (if (1 <? List.length pool)%nat then drop 1 pool else []).

End Grouping.

Module Lines.
Import PyStr.

(** [c in s] for a single character. *)
Fixpoint has_char (c : ascii) (s : string) : bool :=
  match s with
  | EmptyString => false
  | String d s' => Ascii.eqb d c || has_char c s'
  end.

(** A text without line break, with nothing for [strip] to remove. *)
Definition single_line (s : string) : Prop :=
  has_char newline s = false /\ strip s = s.

End Lines.

(* ===================================================================== *)
(** ** The steps of [process_pdf] *)
(* ===================================================================== *)

Module Pipeline.

(** The extraction call [process_pdf] makes for a method string. *)
Definition dispatch (self : Env) (pdf_path method : string)
    : M (list PageRecord) :=
  if String.eqb (PyStr.lower method) "pymupdf"
  then extract_with_pymupdf self pdf_path
  else if String.eqb (PyStr.lower method) "pdfplumber"
  then extract_with_pdfplumber self pdf_path
  else raise (Exn ValueError ("Unknown extraction method: " ++ method)).

(** What [process_pdf] does with the pages once extracted. *)
Definition finish (self : Env) (page_data : list PageRecord)
    : M (list Question) :=
  let* questions := parse_math_questions page_data in
  let* _ := save_json_output self (JQuestions questions) "questions.json" in
  let* _ := save_json_output self (JPages page_data) "raw_pages.json" in
  ret questions.

Definition questions_json (self : Env) : string :=
  path_join (output_dir self) "questions.json".

Definition raw_pages_json (self : Env) : string :=
  path_join (output_dir self) "raw_pages.json".

(** The method string selects a backend. *)
Definition recognized (method : string) : Prop :=
  PyStr.lower method = "pymupdf" \/ PyStr.lower method = "pdfplumber".

End Pipeline.

(** An image whose save raises after the file has been created. *)
Definition unsaved_image : Fitz.Image :=
  {| Fitz.xref := 9; Fitz.pixmap := Some rgb;
     Fitz.to_rgb_ok := true; Fitz.save_ok := false;
     Fitz.save_leaves_file := true |}.

(** One page with two images; the save of the first one fails. *)
Definition smudged_file : PdfFile :=
  {| fitz_view :=
       Some [fitz_page "Find the area."
               [unsaved_image; good_image cmyk_alpha]];
     plumber_view := None |}.

Definition press_env : Env :=
  {| PYMUPDF_AVAILABLE := true;
     PDFPLUMBER_AVAILABLE := false;
     fs := {[ "smudged.pdf" := smudged_file ]};
     output_dir := "out";
     json_writable := fun _ => true |}.

(** A document whose second page cannot be read, after a page with one
    image. *)
Definition torn_doc_good : list Fitz.Page :=
  [fitz_page "Find x." [good_image rgb]].

Definition torn_file : PdfFile :=
  {| fitz_view := Some (torn_doc_good ++ damaged_page :: [])%list;
     plumber_view := None |}.

(** A machine on which "torn.pdf" exists and the JSON file of the
    questions cannot be written. *)
Definition torn_env : Env :=
  {| PYMUPDF_AVAILABLE := true;
     PDFPLUMBER_AVAILABLE := true;
     fs := {[ "torn.pdf" := torn_file; "paper.pdf" := paper_file ]};
     output_dir := "out";
     json_writable := fun p => negb (String.eqb p "out/questions.json") |}.

(* ===================================================================== *)
(** ** Construction of the extractor and the command line *)
(* ===================================================================== *)

(** The construction of an extractor and [main] also act on the
    directories and the log file; these are kept beside the world of a
    run. The constructor keeps [Path(output_dir)]; the extractor holds
    its [str]. *)
Module Cli.

(** What the machine decides: whether Pillow is importable, whether
    [Path(p).mkdir(parents=True, exist_ok=True)] succeeds on [p], whether
    [logging.FileHandler(p)] can open [p]; which file a path string
    names, written as the operating system resolves it (as
    [os.path.realpath] does), so that two spellings of one file resolve
    alike; and what the libraries make of the log file when asked to
    open it as a document. *)
Record Host := {
  PILLOW_AVAILABLE : bool;
  mkdir_ok : string -> bool;
  log_file_ok : string -> bool;
  resolve : string -> string;
  log_entry : PdfFile
}.

(** The world, the directories made so far and the log files opened so
    far, in order. *)
Record Shell := {
  world : World;
  made_dirs : list string;
  log_files : list string
}.

Definition SM (A : Type) : Type := Shell -> Shell * result A.

Definition sret {A} (a : A) : SM A := fun s => (s, Ok a).
Definition sraise {A} (e : exn) : SM A := fun s => (s, Raise e).
Definition sbind {A B} (m : SM A) (k : A -> SM B) : SM B :=
  fun s => match m s with
           | (s', Ok a) => k a s'
           | (s', Raise e) => (s', Raise e)
           end.
(** [try: m except Exception as e: h e] *)
Definition stry {A} (m : SM A) (h : exn -> SM A) : SM A :=
  fun s => match m s with
           | (s', Ok a) => (s', Ok a)
           | (s', Raise e) => h e s'
           end.

(** A computation on the world, run inside the shell. *)
Definition lift {A} (m : M A) : SM A :=
  fun s => match m (world s) with
           | (w', r) =>
               ({| world := w'; made_dirs := made_dirs s;
                   log_files := log_files s |}, r)
           end.

Notation "'let+' x ':=' m 'in' k" := (sbind m (fun x => k))
  (at level 10, x name, m at level 100, k at level 200).

(** [OSError] and its subclasses. *)
Definition is_OSError (c : ExnClass) : bool :=
  match c with
  | OSError | FileNotFoundError => true
  | _ => false
  end.

(** [p.mkdir(parents=True, exist_ok=True)] *)
Definition mkdir (host : Host) (p : string) : SM unit :=
  fun s =>
    if mkdir_ok host p
    then ({| world := world s; made_dirs := (made_dirs s ++ [p])%list;
             log_files := log_files s |}, Ok tt)
    else (s, Raise (Exn OSError "cannot create directory")).

(** [logging.FileHandler(log_file)] *)
Definition FileHandler (host : Host) (p : string) : SM unit :=
  fun s =>
    if log_file_ok host p
    then ({| world := world s; made_dirs := made_dirs s;
             log_files := (log_files s ++ [p])%list |}, Ok tt)
    else (s, Raise (Exn OSError "cannot open log file")).

(** *** The file system during the run *)

(** A directory: no library opens it as a document. *)
Definition directory : PdfFile :=
  {| fitz_view := None; plumber_view := None |}.

(** The directories that exist once [mkdir(parents=True)] has returned
    for the path of string [d]: the path and its ancestors. *)
Definition with_parents (d : string) : list string :=
  d :: map PurePath.to_string (PurePath.parents (PurePath.of_string d)).

(** The file system at a point of the run, by resolved path: what the
    file system [before] the run held, the directories made and the log
    files opened so far. *)
Definition files (host : Host) (before : gmap string PdfFile)
    (dirs logs : list string) : gmap string PdfFile :=
  foldr (fun d m => <[resolve host d := directory]> m)
    (foldr (fun l m => <[resolve host l := log_entry host]> m) before logs)
    (flat_map with_parents dirs).

(** What a method that hands [path] to the operating system finds
    there. *)
Definition seen (host : Host) (fsys : gmap string PdfFile)
    (path : string) : gmap string PdfFile :=
  match fsys !! resolve host path with
  | Some f => {[ path := f ]}
  | None => ∅
  end.

(** The extractor [self] at the time one of its methods is called on
    [path]: the file system is the one of that time. *)
Definition at_call (host : Host) (self : Env) (s : Shell)
    (path : string) : Env :=
  {| PYMUPDF_AVAILABLE := PYMUPDF_AVAILABLE self;
     PDFPLUMBER_AVAILABLE := PDFPLUMBER_AVAILABLE self;
     fs := seen host (files host (fs self) (made_dirs s) (log_files s))
             path;
     output_dir := output_dir self;
     json_writable := json_writable self |}.

(** [self.method(path, ...)], run inside the shell. *)
Definition call {A} (host : Host) (self : Env) (path : string)
    (m : Env -> M A) : SM A :=
  fun s => lift (m (at_call host self s path)) s.

(** *** The constructor *)

(** The extractor whose [self.output_dir] has the string [d]. The file
    system a method finds is the one of the time it is called
    ([at_call]). *)
Definition with_output_dir (amb : Env) (d : string) : Env :=
  {| PYMUPDF_AVAILABLE := PYMUPDF_AVAILABLE amb;
     PDFPLUMBER_AVAILABLE := PDFPLUMBER_AVAILABLE amb;
     fs := fs amb;
     output_dir := d;
     json_writable := json_writable amb |}.

Definition _create_directories (host : Host) (self : Env) : SM unit :=
  stry
    (let+ _ := mkdir host (output_dir self) in
     let+ _ := mkdir host (images_dir self) in
     lift (print ("Created output directories: " ++ output_dir self)))
    (fun e =>
       if is_OSError (exn_class e)
       then sraise (Exn OSError
                      ("Failed to create directories: " ++ str_exn e))
       else sraise e).

(** The log file is opened when the handler list is built; where log
    records go afterwards is not modelled (the world has one log). *)
Definition _setup_logging (host : Host) (self : Env) : SM unit :=
  let log_file := path_join (output_dir self) "extraction.log" in
  FileHandler host log_file.

(** [PDFContentExtractor(output_dir)]: [self.output_dir] is
    [Path(output_dir)]; returns the new object. *)
Definition __init__ (host : Host) (amb : Env) (output_dir : string)
    : SM Env :=
  let self :=
    with_output_dir amb
      (PurePath.to_string (PurePath.of_string output_dir)) in
  let+ _ := _create_directories host self in
  let+ _ := _setup_logging host self in
  sret self.

(** *** The command line *)

(** The namespace [parser.parse_args()] returns. *)
Record Args := {
  pdf_path : string;
  method : string;
  output : string;
  verbose : bool
}.

(** [main()] from [args = parser.parse_args()] on; the value is the
    exit code the script passes to [exit]. *)
Definition main (host : Host) (amb : Env) (args : Args) : SM nat :=
  if String.eqb (method args) "pymupdf" && negb (PYMUPDF_AVAILABLE amb)
  then
    let+ _ := lift (print
      "Error: PyMuPDF is not installed. Install with: pip install PyMuPDF")
    in sret 1
  else if String.eqb (method args) "pdfplumber"
          && negb (PDFPLUMBER_AVAILABLE amb)
  then
    let+ _ := lift (print
      "Error: pdfplumber is not installed. Install with: pip install pdfplumber")
    in sret 1
  else
    let+ _ :=
      (if negb (PILLOW_AVAILABLE host)
       then lift (print
         "Warning: Pillow is not installed. Image processing may be limited.")
       else sret tt) in
    stry
      (let+ extractor := __init__ host amb (output args) in
       let+ questions :=
         call host extractor (pdf_path args)
           (fun self => process_pdf self (pdf_path args) (method args)) in
       let+ _ := lift (print (nl ++ "Extraction completed successfully!")) in
       let+ _ := lift (print ("- Total questions found: "
                              ++ PyStr.of_nat (List.length questions))) in
       let+ _ := lift (print ("- Output directory: " ++ output args)) in
       let+ _ := lift (print ("- Method used: " ++ method args)) in
       sret 0)
      (fun e =>
         let+ _ := lift (print ("Error: " ++ str_exn e)) in
         sret 1).

Definition shell0 : Shell :=
  {| world := world0; made_dirs := []; log_files := [] |}.

(** A machine on which everything can be created, every path string is
    its own resolved form, and the log file is no document. *)
Definition easy_host : Host :=
  {| PILLOW_AVAILABLE := true;
     mkdir_ok := fun _ => true;
     log_file_ok := fun _ => true;
     resolve := fun p => p;
     log_entry := directory |}.

(** A machine on which no directory can be created. *)
Definition readonly_host : Host :=
  {| PILLOW_AVAILABLE := false;
     mkdir_ok := fun _ => false;
     log_file_ok := fun _ => true;
     resolve := fun p => p;
     log_entry := directory |}.

Definition paper_args (m : string) : Args :=
  {| pdf_path := "paper.pdf"; method := m; output := "results";
     verbose := false |}.

End Cli.

Module CliSteps.
Import Cli.

(** [s'] is [s] but for lines printed on the standard output. *)
Definition quiet (s s' : Shell) : Prop :=
  made_dirs s' = made_dirs s /\ log_files s' = log_files s /\
  opened (world s') = opened (world s) /\
  released (world s') = released (world s) /\
  saved (world s') = saved (world s) /\
  json_files (world s') = json_files (world s) /\
  log (world s') = log (world s) /\
  leftovers (world s') = leftovers (world s).

(** The [try] block of [main]. *)
Definition main_try (host : Host) (amb : Env) (args : Args) : SM nat :=
  let+ extractor := __init__ host amb (output args) in
  let+ questions :=
    call host extractor (pdf_path args)
      (fun self => process_pdf self (pdf_path args) (method args)) in
  let+ _ := lift (print (nl ++ "Extraction completed successfully!")) in
  let+ _ := lift (print ("- Total questions found: "
                         ++ PyStr.of_nat (List.length questions))) in
  let+ _ := lift (print ("- Output directory: " ++ output args)) in
  let+ _ := lift (print ("- Method used: " ++ method args)) in
  sret 0.

(** The [except] block of [main]. *)
Definition main_except (e : exn) : SM nat :=
  let+ _ := lift (print ("Error: " ++ str_exn e)) in
  sret 1.

(** The library the method asks for cannot be imported. *)
Definition library_missing (amb : Env) (args : Args) : bool :=
  (String.eqb (method args) "pymupdf" && negb (PYMUPDF_AVAILABLE amb))
  || (String.eqb (method args) "pdfplumber"
      && negb (PDFPLUMBER_AVAILABLE amb)).

(** [str(Path(d))], [str(Path(d) / "images")] and
    [str(Path(d) / "extraction.log")]. *)
Definition dir_of (d : string) : string :=
  PurePath.to_string (PurePath.of_string d).

Definition images_of (d : string) : string :=
  PurePath.to_string (PurePath.div (PurePath.of_string d) "images").

Definition log_of (d : string) : string :=
  PurePath.to_string
    (PurePath.div (PurePath.of_string d) "extraction.log").

(** [str(Path(d) / name)] *)
Definition file_of (d name : string) : string :=
  PurePath.to_string (PurePath.div (PurePath.of_string d) name).

(** The directories and the log file of an extractor can be created. *)
Definition can_set_up (host : Host) (d : string) : bool :=
  mkdir_ok host (dir_of d) && mkdir_ok host (images_of d)
  && log_file_ok host (log_of d).

(** [os.path.exists(path)] once an extractor for the output directory
    [d] has been constructed from the shell [s]. *)
Definition exists_after_set_up (host : Host) (amb : Env) (d : string)
    (s : Shell) (path : string) : bool :=
  match files host (fs amb)
          (made_dirs s ++ [dir_of d; images_of d])%list
          (log_files s ++ [log_of d])%list
        !! resolve host path with
  | Some _ => true
  | None => false
  end.

End CliSteps.

(** A machine without PyMuPDF. *)
Definition bare_env : Env :=
  {| PYMUPDF_AVAILABLE := false;
     PDFPLUMBER_AVAILABLE := true;
     fs := {[ "paper.pdf" := paper_file ]};
     output_dir := "extracted_content";
     json_writable := fun _ => true |}.

(* ===================================================================== *)
(** ** Properties of the string primitives *)
(* ===================================================================== *)

Module PyStrFacts.
Import PyStr.

Lemma truthy_true (s : string) : truthy s = true <-> s <> "".
Proof. destruct s; simpl; split; congruence. Qed.

Lemma lstrip_head_kept (s : string) : head_kept (lstrip s).
Proof.
  induction s as [|c s IH]; simpl; [exact I|].
  destruct (is_space c) eqn:E; [exact IH | simpl; exact E].
Qed.

Lemma rstrip_cons_kept (c : ascii) (s : string) :
  is_space c = false -> exists r, rstrip (String c s) = String c r.
Proof.
  intros E. simpl. destruct (rstrip s) as [|d r].
  - rewrite E. eauto.
  - eauto.
Qed.

Lemma rstrip_head_kept (s : string) : head_kept s -> head_kept (rstrip s).
Proof.
  destruct s as [|c s]; simpl; [trivial|].
  intros E. destruct (rstrip s); [rewrite E|]; simpl; exact E.
Qed.

Lemma strip_head_kept (s : string) : head_kept (strip s).
Proof. apply rstrip_head_kept, lstrip_head_kept. Qed.

(** [strip] leaves a string alone when it begins with a kept character
    and is itself the result of a [strip] followed by kept text; for the
    segmenter it is enough that the result is not empty. *)
Lemma strip_nonempty (s : string) :
  head_kept s -> s <> "" -> strip s <> "".
Proof.
  destruct s as [|c s]; [congruence|]. simpl. intros E _.
  unfold strip. simpl lstrip. rewrite E.
  destruct (rstrip_cons_kept c s E) as [r ->]. discriminate.
Qed.

Lemma head_kept_app (s t : string) :
  head_kept s -> s <> "" -> head_kept (s ++ t).
Proof. destruct s; simpl; [congruence | trivial]. Qed.

(** *** Substrings *)

Lemma contains_tail (k : string) (c : ascii) (s : string) :
  contains k s = true -> contains k (String c s) = true.
Proof. intros H. simpl. rewrite H. apply orb_true_r. Qed.

Lemma startswith_lower_rstrip (k s : string) :
  startswith k (lower (rstrip s)) = true ->
  startswith k (lower s) = true.
Proof.
  revert k. induction s as [|c s IH]; intros k; [trivial|].
  destruct k as [|a k]; [reflexivity|]. simpl.
  destruct (rstrip s) as [|d r] eqn:R.
  - destruct (is_space c); simpl; [discriminate|].
    intros H. apply andb_true_iff in H as [-> H]. simpl.
    apply (IH k). destruct k; [reflexivity | discriminate].
  - simpl. intros H. apply andb_true_iff in H as [-> H]. simpl.
    apply IH, H.
Qed.

Lemma contains_lower_rstrip (k s : string) :
  contains k (lower (rstrip s)) = true -> contains k (lower s) = true.
Proof.
  induction s as [|c s IH]; [trivial|].
  intros H.
  assert (Hk : k = "" \/ k <> "") by (destruct k; [left|right]; congruence).
  destruct Hk as [-> | Hk]; [reflexivity|].
  simpl in H |- *. destruct (rstrip s) as [|d r] eqn:R.
  - destruct (is_space c) eqn:E.
    + simpl in H. destruct k; [congruence|]. simpl in H. discriminate.
    + apply orb_true_iff in H as [H|H].
      * apply orb_true_iff. left.
        change (String (lower_char c) (lower s))
          with (lower (String c s)).
        apply startswith_lower_rstrip. simpl rstrip. rewrite R, E. exact H.
      * simpl in H. destruct k; [congruence|]. simpl in H. discriminate.
  - apply orb_true_iff in H as [H|H]; apply orb_true_iff.
    + left. change (String (lower_char c) (lower s))
          with (lower (String c s)).
      apply startswith_lower_rstrip. simpl rstrip. rewrite R. exact H.
    + right. apply IH. exact H.
Qed.

Lemma contains_lower_lstrip (k s : string) :
  contains k (lower (lstrip s)) = true -> contains k (lower s) = true.
Proof.
  induction s as [|c s IH]; [trivial|]. simpl lstrip.
  destruct (is_space c); [|trivial].
  intros H. simpl lower. apply contains_tail, IH, H.
Qed.

(** A keyword found in the stripped, lower-cased line is found in the
    lower-cased line. *)
Lemma contains_lower_strip (k s : string) :
  contains k (lower (strip s)) = true -> contains k (lower s) = true.
Proof.
  intros H. apply contains_lower_lstrip, contains_lower_rstrip, H.
Qed.

(** *** Suffixes and concatenation *)

Lemma append_nil (s : string) : "" ++ s = s.
Proof. reflexivity. Qed.

Lemma append_cons (c : ascii) (a b : string) :
  String c a ++ b = String c (a ++ b).
Proof. reflexivity. Qed.

Lemma append_assoc (a b c : string) : (a ++ b) ++ c = a ++ (b ++ c).
Proof.
  induction a as [|x a IH]; [reflexivity|].
  by rewrite !append_cons, IH.
Qed.

Lemma endswith_app (suffix s : string) :
  endswith suffix (s ++ suffix) = true.
Proof.
  induction s as [|c s IH].
  - rewrite append_nil. destruct suffix; simpl; [reflexivity|].
    rewrite Ascii.eqb_refl, String.eqb_refl. reflexivity.
  - rewrite append_cons. simpl. rewrite IH. apply orb_true_r.
Qed.

(** *** Decimal rendering of integers *)

Lemma of_nat_inj (a b : nat) : of_nat a = of_nat b -> a = b.
Proof.
  unfold of_nat. intros H.
  apply (f_equal NilEmpty.uint_of_string) in H.
  rewrite !NilEmpty.usu in H. injection H as H.
  rewrite <- (DecimalNat.Unsigned.of_to a), <- (DecimalNat.Unsigned.of_to b).
  by rewrite H.
Qed.

Lemma all_digits_of_nat (a : nat) : all_digits (of_nat a) = true.
Proof.
  unfold of_nat. induction (Nat.to_uint a); simpl; auto.
Qed.

(** A run of digits followed by a non-digit is read back in one way. *)
Lemma digits_then_stop (a : string) : forall b c r c' r',
  all_digits a = true -> all_digits b = true ->
  is_digit c = false -> is_digit c' = false ->
  a ++ String c r = b ++ String c' r' ->
  a = b /\ String c r = String c' r'.
Proof.
  induction a as [|x a IH]; intros b c r c' r' Ha Hb Hc Hc' E.
  - destruct b as [|y b]; rewrite ?append_nil, ?append_cons in E.
    + split; [reflexivity | exact E].
    + injection E as -> _. simpl in Hb.
      apply andb_true_iff in Hb as [Hy _]. congruence.
  - destruct b as [|y b]; rewrite ?append_nil, ?append_cons in E.
    + injection E as -> _. simpl in Ha.
      apply andb_true_iff in Ha as [Hx _]. congruence.
    + injection E as -> E. simpl in Ha, Hb.
      apply andb_true_iff in Ha as [_ Ha].
      apply andb_true_iff in Hb as [_ Hb].
      destruct (IH b c r c' r' Ha Hb Hc Hc' E) as [-> E'].
      split; [reflexivity | exact E'].
Qed.

(** *** The primitives against their declarative reading *)

Lemma startswith_spec (p : string) : forall s,
  startswith p s = true <-> exists post, s = p ++ post.
Proof.
  induction p as [|a p IH]; intros s.
  - split; [intros _; by exists s | reflexivity].
  - destruct s as [|b s]; simpl.
    + split; [discriminate | intros (post & H); discriminate].
    + rewrite andb_true_iff, Ascii.eqb_eq, IH. split.
      * intros (-> & post & ->). by exists post.
      * intros (post & H). rewrite append_cons in H.
        injection H as -> ->. split; [reflexivity | by exists post].
Qed.

Lemma contains_spec (sub s : string) :
  contains sub s = true <-> occurs_in sub s.
Proof.
  unfold occurs_in. induction s as [|c s IH].
  - simpl. rewrite orb_false_r, startswith_spec. split.
    + intros (post & H). by exists "", post.
    + intros (pre & post & H). destruct pre; [|discriminate].
      by exists post.
  - simpl. rewrite orb_true_iff, startswith_spec, IH. split.
    + intros [(post & H) | (pre & post & H)].
      * by exists "", post.
      * exists (String c pre), post. by rewrite append_cons, <- H.
    + intros (pre & post & H). destruct pre as [|d pre].
      * left. by exists post.
      * right. rewrite append_cons in H. injection H as _ H.
        by exists pre, post.
Qed.

Lemma split_nonempty (sep : ascii) (s : string) :
  exists h t, split sep s = h :: t.
Proof.
  destruct s as [|c s]; simpl; [by eexists _, _|].
  destruct (Ascii.eqb c sep); [by eexists _, _|].
  destruct (split sep s); by eexists _, _.
Qed.

(** Joining the lines of a text with the separator gives the text back. *)
Lemma join_split (sep : ascii) (s : string) :
  String.concat (String sep "") (split sep s) = s.
Proof.
  induction s as [|c s IH]; [reflexivity|]. simpl split.
  destruct (split_nonempty sep s) as (h & t & E). rewrite E in IH |- *.
  destruct (Ascii.eqb_spec c sep) as [->|_].
  - change (String.concat (String sep "") ("" :: h :: t))
      with ("" ++ String sep "" ++ String.concat (String sep "") (h :: t)).
    by rewrite IH.
  - destruct t as [|x t].
    + simpl in IH |- *. by rewrite IH.
    + change (String.concat (String sep "") (String c h :: x :: t))
        with (String c h ++ String sep ""
              ++ String.concat (String sep "") (x :: t)).
      change (String.concat (String sep "") (h :: x :: t))
        with (h ++ String sep "" ++ String.concat (String sep "") (x :: t))
        in IH.
      by rewrite append_cons, IH.
Qed.

End PyStrFacts.

(* ===================================================================== *)
(** ** Properties of the segmenter *)
(* ===================================================================== *)

Module SegmenterFacts.
Import PyStr PyStrFacts Segmenter.

(** The [questions] list only grows at its end: running the line loop
    from a longer list gives the same run with the longer prefix. *)
Lemma line_step_questions_prefix imgs raw cq qi oi qs :
  line_step imgs
    {| current_question := cq; question_images := qi;
       option_images := oi; questions := qs |} raw
  = let st := line_step imgs
                {| current_question := cq; question_images := qi;
                   option_images := oi; questions := [] |} raw in
    {| current_question := current_question st;
       question_images := question_images st;
       option_images := option_images st;
       questions := (qs ++ questions st)%list |}.
Proof.
  unfold line_step, flush; simpl.
  destruct (truthy (strip raw)); simpl; [|by rewrite app_nil_r].
  destruct (is_trigger (strip raw)); simpl.
  - destruct (truthy cq); simpl; by rewrite ?app_nil_r.
  - destruct (truthy cq); simpl; by rewrite app_nil_r.
Qed.

Lemma fold_line_step_questions_prefix imgs lines : forall cq qi oi qs,
  fold_left (line_step imgs) lines
    {| current_question := cq; question_images := qi;
       option_images := oi; questions := qs |}
  = let st := fold_left (line_step imgs) lines
                {| current_question := cq; question_images := qi;
                   option_images := oi; questions := [] |} in
    {| current_question := current_question st;
       question_images := question_images st;
       option_images := option_images st;
       questions := (qs ++ questions st)%list |}.
Proof.
  induction lines as [|raw lines IH]; intros cq qi oi qs; simpl.
  - by rewrite app_nil_r.
  - rewrite line_step_questions_prefix. cbv zeta.
    set (st := line_step imgs _ raw).
    rewrite IH. cbv zeta.
    destruct st as [cq' qi' oi' qs']. simpl.
    rewrite (IH cq' qi' oi' qs'). cbv zeta. simpl.
    by rewrite app_assoc.
Qed.

(** Each page appends its own Questions to those of the pages before. *)
Lemma page_step_app (qs : list Question) (page : PageRecord) :
  page_step qs page = (qs ++ page_questions page)%list.
Proof.
  unfold page_questions, page_step.
  rewrite fold_line_step_questions_prefix. cbv zeta.
  unfold flush. simpl.
  destruct (truthy _); [by rewrite app_assoc | done].
Qed.

Lemma fold_page_step_app (pages : list PageRecord) : forall qs,
  fold_left page_step pages qs
  = (qs ++ concat (map page_questions pages))%list.
Proof.
  induction pages as [|p pages IH]; intros qs; simpl.
  - by rewrite app_nil_r.
  - rewrite IH, page_step_app. by rewrite app_assoc.
Qed.

Lemma segment_concat (pages : list PageRecord) :
  segment pages = concat (map page_questions pages).
Proof. unfold segment. by rewrite fold_page_step_app. Qed.

Lemma segment_app (a b : list PageRecord) :
  segment (a ++ b) = (segment a ++ segment b)%list.
Proof. by rewrite !segment_concat, map_app, concat_app. Qed.

(** *** Lines without trigger keyword *)

Lemma no_keyword_not_trigger (raw : string) :
  no_keyword raw -> is_trigger (strip raw) = false.
Proof.
  intros H. unfold is_trigger.
  destruct (existsb _ keywords) eqn:E; [|reflexivity].
  apply existsb_exists in E as (k & Hin & Hk).
  apply contains_lower_strip, contains_spec in Hk. destruct (H k Hin Hk).
Qed.

Lemma line_step_idle imgs qi oi qs raw :
  is_trigger (strip raw) = false ->
  line_step imgs
    {| current_question := ""; question_images := qi;
       option_images := oi; questions := qs |} raw
  = {| current_question := ""; question_images := qi;
       option_images := oi; questions := qs |}.
Proof.
  intros H. unfold line_step. rewrite H. simpl.
  by destruct (truthy (strip raw)).
Qed.

Lemma fold_line_step_idle imgs qi oi qs lines :
  (forall raw, In raw lines -> is_trigger (strip raw) = false) ->
  fold_left (line_step imgs) lines
    {| current_question := ""; question_images := qi;
       option_images := oi; questions := qs |}
  = {| current_question := ""; question_images := qi;
       option_images := oi; questions := qs |}.
Proof.
  induction lines as [|raw lines IH]; intros H; simpl; [reflexivity|].
  rewrite line_step_idle by (apply H; left; reflexivity).
  apply IH. intros r Hr. apply H. right. exact Hr.
Qed.

(** *** The accumulator never holds blank text *)

Lemma flush_ok (st : Locals) :
  locals_ok st -> Forall (fun q => q_question q <> "") (flush st).
Proof.
  intros [Hh Hq]. unfold flush.
  destruct (truthy (current_question st)) eqn:T; [|exact Hq].
  apply Forall_app. split; [exact Hq|].
  constructor; [|constructor]. simpl.
  apply strip_nonempty; [exact Hh | by apply truthy_true].
Qed.

Lemma line_step_ok imgs st raw :
  locals_ok st -> locals_ok (line_step imgs st raw).
Proof.
  intros Hst. unfold line_step.
  destruct (truthy (strip raw)) eqn:T; simpl; [|exact Hst].
  destruct (is_trigger (strip raw)).
  - split; simpl; [apply strip_head_kept | by apply flush_ok].
  - destruct (truthy (current_question st)) eqn:C; [|exact Hst].
    destruct Hst as [Hh Hq]. split; simpl; [|exact Hq].
    apply head_kept_app; [exact Hh | by apply truthy_true].
Qed.

Lemma fold_line_step_ok imgs lines : forall st,
  locals_ok st -> locals_ok (fold_left (line_step imgs) lines st).
Proof.
  induction lines as [|raw lines IH]; intros st H; simpl; [exact H|].
  apply IH, line_step_ok, H.
Qed.

Lemma page_questions_nonempty (page : PageRecord) :
  Forall (fun q => q_question q <> "") (page_questions page).
Proof.
  unfold page_questions, page_step.
  apply flush_ok, fold_line_step_ok.
  split; simpl; [exact I | constructor].
Qed.

End SegmenterFacts.

(* ===================================================================== *)
(** ** Properties of the monad and of the world primitives *)
(* ===================================================================== *)

Module WorldFacts.

Lemma saves_only_refl (w : World) : saves_only w w [].
Proof. unfold saves_only. by rewrite app_nil_r. Qed.

Lemma saves_only_trans (w1 w2 w3 : World) (a b : list SavedImage) :
  saves_only w1 w2 a -> saves_only w2 w3 b ->
  saves_only w1 w3 (a ++ b).
Proof.
  unfold saves_only. intros (?&?&Ha&?&?) (?&?&Hb&?&?).
  repeat split; try congruence.
  by rewrite Hb, Ha, app_assoc.
Qed.

Lemma writes_refl (w : World) : writes w w [] [].
Proof. split; [apply saves_only_refl | by rewrite app_nil_r]. Qed.

Lemma writes_trans (w1 w2 w3 : World) (a b : list SavedImage)
    (l m : list string) :
  writes w1 w2 a l -> writes w2 w3 b m ->
  writes w1 w3 (a ++ b) (l ++ m).
Proof.
  intros [Ha Hl] [Hb Hm]. split; [by eapply saves_only_trans|].
  by rewrite Hm, Hl, app_assoc.
Qed.

Lemma logger_spec (lvl : Level) (msg : string) (w : World) :
  exists w', logger lvl msg w = (w', Ok tt) /\ saves_only w w' [].
Proof.
  eexists. split; [reflexivity|].
  unfold saves_only; simpl. by rewrite app_nil_r.
Qed.

Lemma logger_leftovers (lvl : Level) (msg : string) (w : World) :
  leftovers (fst (logger lvl msg w)) = leftovers w.
Proof. reflexivity. Qed.

Lemma acquire_handle_spec (w : World) :
  exists w', acquire_handle w = (w', Ok tt) /\
    opened w' = S (opened w) /\ released w' = released w /\
    saved w' = saved w /\ json_files w' = json_files w /\
    stdout w' = stdout w /\ leftovers w' = leftovers w.
Proof. eexists. split; [reflexivity|]. by simpl. Qed.

Lemma release_handle_spec (w : World) :
  exists w', release_handle w = (w', Ok tt) /\
    opened w' = opened w /\ released w' = S (released w) /\
    saved w' = saved w /\ json_files w' = json_files w /\
    stdout w' = stdout w /\ leftovers w' = leftovers w.
Proof. eexists. split; [reflexivity|]. by simpl. Qed.

(** Closes goals that chain the field equations of successive worlds. *)
Ltac world_chain :=
  unfold writes, saves_only in *;
  repeat match goal with
         | H : _ /\ _ |- _ => destruct H
         end;
  rewrite ?app_nil_r in *;
  repeat split; congruence.

Lemma bind_unfold {A B} (m : M A) (k : A -> M B) (w : World) :
  bind m k w = match m w with
               | (w', Ok a) => k a w'
               | (w', Raise e) => (w', Raise e)
               end.
Proof. reflexivity. Qed.

Lemma for_each_cons {A S} (x : A) (xs : list A) (body : S -> A -> M S)
    (acc : S) (w : World) :
  for_each (x :: xs) body acc w
  = match body acc x w with
    | (w', Ok acc') => for_each xs body acc' w'
    | (w', Raise e) => (w', Raise e)
    end.
Proof. reflexivity. Qed.

End WorldFacts.

(* ===================================================================== *)
(** ** Properties of paths *)
(* ===================================================================== *)

Module PathFacts.
Import PyStr PyStrFacts Lines PurePath.

Lemma has_char_append (c : ascii) (a b : string) :
  has_char c (a ++ b) = has_char c a || has_char c b.
Proof.
  induction a as [|d a IH]; [reflexivity|].
  rewrite append_cons. simpl. by rewrite IH, orb_assoc.
Qed.

Lemma split_no_sep (sep : ascii) (s : string) :
  has_char sep s = false -> split sep s = [s].
Proof.
  induction s as [|c s IH]; [reflexivity|]. simpl.
  intros [Hc Hs]%orb_false_iff. rewrite Hc, (IH Hs). reflexivity.
Qed.

Lemma plain_intro (name : string) :
  has_char slash name = false -> kept name = true -> plain name.
Proof. intros Hs Hk. split; [by apply split_no_sep | exact Hk]. Qed.

Lemma plain_head (name : string) :
  plain name -> anchor_of name = "".
Proof.
  intros [Hs _].
  destruct name as [|c1 r]; [reflexivity|].
  assert (Hc : Ascii.eqb c1 slash = false).
  { simpl in Hs. destruct (Ascii.eqb c1 slash); [|reflexivity].
    injection Hs as Hs _. discriminate. }
  destruct r as [|c2 [|c3 r]]; simpl; by rewrite Hc.
Qed.

Lemma of_string_plain (name : string) :
  plain name -> of_string name = {| anchor := ""; parts := [name] |}.
Proof.
  intros Hn. unfold of_string. rewrite (plain_head _ Hn).
  destruct Hn as [-> Hk]. simpl. by rewrite Hk.
Qed.

Lemma concat_snoc (ps : list string) (name : string) :
  String.concat "/" (ps ++ [name]) = lead ps ++ name.
Proof.
  induction ps as [|x ps IH]; [by rewrite append_nil|].
  destruct ps as [|y ps].
  - unfold lead. simpl. by rewrite append_assoc.
  - change (String.concat "/" ((x :: y :: ps) ++ [name]))
      with (x ++ "/" ++ String.concat "/" ((y :: ps) ++ [name])).
    rewrite IH. unfold lead.
    change (String.concat "/" (x :: y :: ps))
      with (x ++ "/" ++ String.concat "/" (y :: ps)).
    by rewrite !append_assoc.
Qed.

(** Joining a plain name puts it last, after the separator. *)
Lemma to_string_div_plain (p : t) (name : string) :
  plain name -> to_string (div p name) = stem p ++ name.
Proof.
  intros Hn. unfold div. rewrite (of_string_plain _ Hn).
  unfold joinpath, to_string, stem. cbn [truthy anchor parts].
  rewrite append_assoc, <- concat_snoc.
  destruct (anchor p) as [|a s], (parts p) as [|x ps]; reflexivity.
Qed.

Lemma path_join_plain (d name : string) :
  plain name -> path_join d name = stem (of_string d) ++ name.
Proof. apply to_string_div_plain. Qed.

Lemma all_digits_no_slash (s : string) :
  all_digits s = true -> has_char slash s = false.
Proof.
  induction s as [|c s IH]; [reflexivity|]. simpl.
  intros [Hc Hs]%andb_true_iff. rewrite (IH Hs), orb_false_r.
  destruct (Ascii.eqb_spec c slash) as [->|]; [discriminate | reflexivity].
Qed.

Lemma image_name_plain (page_num img_index : nat) :
  plain (image_name page_num img_index).
Proof.
  apply plain_intro; [|reflexivity].
  unfold image_name. rewrite !has_char_append.
  rewrite !(all_digits_no_slash (of_nat _)) by apply all_digits_of_nat.
  reflexivity.
Qed.

End PathFacts.

(* ===================================================================== *)
(** ** Properties of the rasterizing backend *)
(* ===================================================================== *)

Module RasterFacts.
Import PyStrFacts WorldFacts Raster PathFacts.

(** The name built for an image always selects the PNG encoder. *)
Lemma format_of_image_path (d : string) (page_num img_index : nat) :
  Fitz.format_of (path_join d (image_name page_num img_index))
  = Some Fitz.PNG.
Proof.
  rewrite path_join_plain by apply image_name_plain.
  unfold Fitz.format_of, image_name.
  rewrite <- !append_assoc. by rewrite endswith_app.
Qed.

(** The [try] block of the image loop: it writes one file and returns
    its path when the image materializes, and raises when it does not,
    leaving a file behind when the save had created it. *)
Lemma materialize_spec (self : Env) (page_num i : nat)
    (img : Fitz.Image) (w : World) :
  match materialized img with
  | Some pix =>
      exists w',
        materialize self page_num i img w
        = (w', Ok (slot_path self (page_num, i, pix))) /\
        writes w w' [slot_save self (page_num, i, pix)]
          (map (key_path self) (option_list (left_of page_num (i, img))))
  | None =>
      exists w' e,
        materialize self page_num i img w = (w', Raise e) /\
        writes w w' []
          (map (key_path self) (option_list (left_of page_num (i, img))))
  end.
Proof.
  unfold materialized, left_of, left_behind, converted, materialize,
    Pixmap_of_xref, Pixmap_csRGB, pix_save.
  rewrite format_of_image_path.
  change ((i, img).2) with img. change ((i, img).1) with i.
  destruct (Fitz.pixmap img) as [pix|];
    [|eexists _, _; split; [reflexivity | apply writes_refl]].
  cbv beta iota delta [bind ret].
  destruct (Fitz.n pix - Fitz.alpha pix >? 3)%Z;
    [destruct (Fitz.to_rgb_ok img);
       [|eexists _, _; split; [reflexivity | apply writes_refl]]|];
    (destruct (Fitz.save_ok img);
       [eexists; split; [reflexivity|]
       |destruct (Fitz.save_leaves_file img);
          eexists _, _; (split; [reflexivity|])]);
    unfold writes, saves_only, key_path; simpl;
    rewrite ?app_nil_r; done.
Qed.

Lemma page_slots_cons (page_num k : nat) (img : Fitz.Image)
    (imgs : list Fitz.Image) :
  page_slots page_num k (img :: imgs)
  = (option_list (slot_of page_num (k, img))
     ++ page_slots page_num (S k) imgs)%list.
Proof.
  unfold page_slots. simpl.
  by destruct (slot_of page_num (k, img)).
Qed.

(** One turn of the image loop never raises. *)
Lemma image_body_spec (self : Env) (page_num i : nat)
    (img : Fitz.Image) (acc : list string) (w : World) :
  exists w',
    image_body self page_num acc (i, img) w
    = (w', Ok (acc ++ map (slot_path self)
                       (option_list (slot_of page_num (i, img))))%list)
    /\ writes w w'
         (map (slot_save self) (option_list (slot_of page_num (i, img))))
         (map (key_path self) (option_list (left_of page_num (i, img)))).
Proof.
  unfold image_body, try_except, bind, slot_of.
  change ((i, img).2) with img. change ((i, img).1) with i.
  pose proof (materialize_spec self page_num i img w) as H.
  destruct (materialized img) as [pix|].
  - destruct H as (w' & -> & Hw). exists w'. split; [reflexivity | exact Hw].
  - destruct H as (w1 & e & -> & Hw). cbv beta iota.
    destruct (logger_spec WARNING
      ("Failed to extract image " ++ PyStr.of_nat i
       ++ " from page " ++ PyStr.of_nat (page_num + 1) ++ ": "
       ++ str_exn e) w1) as (w2 & E2 & H2).
    pose proof (logger_leftovers WARNING
      ("Failed to extract image " ++ PyStr.of_nat i
       ++ " from page " ++ PyStr.of_nat (page_num + 1) ++ ": "
       ++ str_exn e) w1) as L2.
    rewrite E2 in L2 |- *. simpl in L2.
    exists w2. split.
    + unfold ret. simpl. by rewrite app_nil_r.
    + destruct Hw as [Hw Hl]. split; [|by rewrite L2].
      simpl. change (@nil SavedImage) with ([] ++ @nil SavedImage)%list.
      by eapply saves_only_trans.
Qed.

(** The image loop of a page always completes; it returns the paths of
    the images that materialize and writes exactly their files. *)
Lemma page_lefts_cons (page_num k : nat) (img : Fitz.Image)
    (imgs : list Fitz.Image) :
  page_lefts page_num k (img :: imgs)
  = (option_list (left_of page_num (k, img))
     ++ page_lefts page_num (S k) imgs)%list.
Proof.
  unfold page_lefts. simpl.
  by destruct (left_of page_num (k, img)).
Qed.

Lemma image_loop_spec (self : Env) (page_num : nat)
    (imgs : list Fitz.Image) : forall (k : nat) (acc : list string) w,
  exists w',
    for_each (enumerate_from k imgs) (image_body self page_num) acc w
    = (w', Ok (acc ++ map (slot_path self)
                       (page_slots page_num k imgs))%list)
    /\ writes w w' (map (slot_save self) (page_slots page_num k imgs))
         (map (key_path self) (page_lefts page_num k imgs)).
Proof.
  induction imgs as [|img imgs IH]; intros k acc w.
  - exists w. split; [|apply writes_refl].
    simpl. unfold ret. by rewrite app_nil_r.
  - simpl enumerate_from. rewrite for_each_cons.
    destruct (image_body_spec self page_num k img acc w)
      as (w1 & -> & H1).
    destruct (IH (S k) (acc ++ map (slot_path self)
                     (option_list (slot_of page_num (k, img))))%list w1)
      as (w2 & -> & H2).
    exists w2. rewrite page_slots_cons, page_lefts_cons, !map_app. split.
    + by rewrite app_assoc.
    + eapply writes_trans; eassumption.
Qed.

(** One turn of the page loop: a readable page gives its record and
    the files of its images; an unreadable one raises before anything
    is written for it. *)
Lemma fitz_page_body_spec (self : Env) (doc : list Fitz.Page)
    (page_num : nat) (page : Fitz.Page) (acc : list PageRecord) w :
  doc !! page_num = Some page ->
  if readable page then
    exists w',
      fitz_page_body self doc acc page_num w
      = (w', Ok (acc ++ [page_record self page_num page])%list) /\
      writes w w'
        (map (slot_save self) (page_slots page_num 0 (page_images page)))
        (map (key_path self) (page_lefts page_num 0 (page_images page)))
  else exists e, fitz_page_body self doc acc page_num w = (w, Raise e).
Proof.
  intros Hpage. unfold fitz_page_body, load_page. rewrite Hpage.
  destruct page as [lo gt gi].
  unfold readable, page_record, page_images. simpl.
  destruct lo; [|eexists; reflexivity].
  destruct gt as [t|]; [|eexists; reflexivity].
  destruct gi as [l|]; [|eexists; reflexivity].
  simpl.
  cbv beta iota delta [bind ret page_get_text page_get_images
                       Fitz.get_text Fitz.get_images].
  unfold enumerate.
  destruct (image_loop_spec self page_num l 0 [] w) as (w' & -> & Hw).
  exists w'. split; [reflexivity | exact Hw].
Qed.

Lemma doc_slots_cons (k : nat) (page : Fitz.Page)
    (pages : list Fitz.Page) :
  doc_slots k (page :: pages)
  = (page_slots k 0 (page_images page) ++ doc_slots (S k) pages)%list.
Proof. reflexivity. Qed.

(** The page loop over the pages [pages] that follow [pre] in the
    document: it returns all their records when all are readable and
    raises otherwise; in both cases the files written are files of
    materialized images of these pages, in order. *)
Lemma fitz_page_loop_spec (self : Env) (pages : list Fitz.Page) :
  forall (pre : list Fitz.Page) (acc : list PageRecord) (w : World),
  exists w' new,
    saves_only w w' (map (slot_save self) new) /\
    new `sublist_of` doc_slots (List.length pre) pages /\
    ((forallb readable pages = true /\
      new = doc_slots (List.length pre) pages /\
      for_each (seq (List.length pre) (List.length pages))
        (fitz_page_body self (pre ++ pages)) acc w
      = (w', Ok (acc ++ doc_records self (List.length pre) pages)%list))
     \/
     (forallb readable pages = false /\
      exists e,
        for_each (seq (List.length pre) (List.length pages))
          (fitz_page_body self (pre ++ pages)) acc w
        = (w', Raise e))).
Proof.
  induction pages as [|page pages IH]; intros pre acc w.
  - exists w, []. split; [apply saves_only_refl|].
    split; [constructor|]. left. repeat split.
    simpl. unfold ret. by rewrite app_nil_r.
  - simpl List.length. simpl seq. rewrite for_each_cons.
    assert (Hpage : (pre ++ page :: pages)%list !! List.length pre
                    = Some page).
    { by rewrite list_lookup_middle. }
    pose proof (fitz_page_body_spec self _ _ _ acc w Hpage) as Hbody.
    simpl forallb. rewrite doc_slots_cons.
    destruct (readable page).
    + destruct Hbody as (w1 & -> & H1).
      specialize (IH (pre ++ [page])%list
                     (acc ++ [page_record self (List.length pre) page])%list
                     w1).
      rewrite length_app, Nat.add_1_r, <- app_assoc in IH. simpl in IH.
      destruct IH as (w2 & new & H2 & Hsub & Hcases).
      exists w2, (page_slots (List.length pre) 0 (page_images page) ++ new)%list.
      split; [rewrite map_app; eapply saves_only_trans;
              [apply H1 | exact H2]|].
      split; [by apply sublist_app|].
      destruct Hcases as [(Hall & -> & ->) | (Hall & e & ->)].
      * left. repeat split; [exact Hall|].
        unfold doc_records. simpl. by rewrite <- app_assoc.
      * right. split; [exact Hall | by exists e].
    + destruct Hbody as (e & ->).
      exists w, []. split; [apply saves_only_refl|].
      split; [apply sublist_nil_l|].
      right. split; [reflexivity | by exists e].
Qed.

(** The whole call on a document that opens: one handle is acquired;
    it is released when every page is readable, and the call returns
    the records of all pages; otherwise the call raises. *)
Lemma extract_with_pymupdf_opened (self : Env) (pdf_path : string)
    (f : PdfFile) (doc : list Fitz.Page) (w : World) :
  PYMUPDF_AVAILABLE self = true ->
  fs self !! pdf_path = Some f ->
  fitz_view f = Some doc ->
  exists w' new,
    saved w' = (saved w ++ map (slot_save self) new)%list /\
    new `sublist_of` doc_slots 0 doc /\
    opened w' = S (opened w) /\
    json_files w' = json_files w /\ stdout w' = stdout w /\
    ((forallb readable doc = true /\
      new = doc_slots 0 doc /\
      released w' = S (released w) /\
      extract_with_pymupdf self pdf_path w
      = (w', Ok (doc_records self 0 doc)))
     \/
     (forallb readable doc = false /\
      released w' = released w /\
      exists e, extract_with_pymupdf self pdf_path w = (w', Raise e))).
Proof.
  intros Havail Hfs Hview.
  remember (extract_with_pymupdf self pdf_path w) as out eqn:Eout.
  unfold extract_with_pymupdf in Eout. rewrite Havail in Eout.
  change (negb true) with false in Eout. cbv iota in Eout.
  rewrite bind_unfold in Eout.
  destruct (logger_spec INFO
    ("Extracting content from " ++ pdf_path ++ " using PyMuPDF") w)
    as (w0 & E0 & H0).
  rewrite E0 in Eout.
  unfold try_except, fitz_open in Eout. rewrite Hfs, Hview in Eout.
  rewrite !bind_unfold in Eout.
  destruct (acquire_handle_spec w0) as (w1 & E1 & H1).
  rewrite E1 in Eout. cbv beta iota delta [ret] in Eout.
  rewrite bind_unfold in Eout.
  destruct (fitz_page_loop_spec self doc [] [] w1)
    as (w2 & new & H2 & Hsub & Hcases).
  simpl in Hsub, Hcases.
  destruct Hcases as [(Hall & -> & E2) | (Hall & e & E2)];
    rewrite E2 in Eout.
  - unfold doc_close in Eout. rewrite bind_unfold in Eout.
    destruct (release_handle_spec w2) as (w3 & E3 & H3).
    rewrite E3 in Eout. cbv beta iota in Eout.
    rewrite bind_unfold in Eout.
    destruct (logger_spec INFO
      ("Successfully extracted content from "
       ++ PyStr.of_nat (List.length (doc_records self 0 doc)) ++ " pages")
      w3) as (w4 & E4 & H4).
    rewrite E4 in Eout. cbv beta iota in Eout. subst out.
    exists w4, (doc_slots 0 doc).
    split; [world_chain|]. split; [exact Hsub|].
    split; [world_chain|]. split; [world_chain|]. split; [world_chain|].
    left. split; [exact Hall|]. split; [reflexivity|].
    split; [world_chain | reflexivity].
  - rewrite bind_unfold in Eout.
    destruct (logger_spec ERROR
      ("Error extracting with PyMuPDF: " ++ str_exn e) w2)
      as (w3 & E3 & H3).
    rewrite E3 in Eout. cbv beta iota delta [raise] in Eout. subst out.
    exists w3, new.
    split; [world_chain|]. split; [exact Hsub|].
    split; [world_chain|]. split; [world_chain|]. split; [world_chain|].
    right. split; [exact Hall|]. split; [world_chain|].
    by exists e.
Qed.

(** The call when no document gets opened: it raises, and no handle is
    acquired and no file written. *)
Lemma extract_with_pymupdf_not_opened (self : Env) (pdf_path : string)
    (w : World) :
  PYMUPDF_AVAILABLE self = false \/
  (fs self !! pdf_path ≫= fitz_view) = None ->
  exists w' e,
    extract_with_pymupdf self pdf_path w = (w', Raise e) /\
    saves_only w w' [].
Proof.
  intros H.
  remember (extract_with_pymupdf self pdf_path w) as out eqn:Eout.
  unfold extract_with_pymupdf in Eout.
  destruct (PYMUPDF_AVAILABLE self) eqn:Havail.
  - destruct H as [H|H]; [discriminate|].
    change (negb true) with false in Eout. cbv iota in Eout.
    rewrite bind_unfold in Eout.
    destruct (logger_spec INFO
      ("Extracting content from " ++ pdf_path ++ " using PyMuPDF") w)
      as (w0 & E0 & H0).
    rewrite E0 in Eout. unfold try_except in Eout.
    assert (E : exists e, fitz_open self pdf_path w0 = (w0, Raise e)).
    { unfold fitz_open.
      destruct (fs self !! pdf_path) as [f|]; simpl in H;
        [rewrite H|]; eexists; reflexivity. }
    destruct E as (e & E).
    rewrite bind_unfold, E, bind_unfold in Eout.
    destruct (logger_spec ERROR
      ("Error extracting with PyMuPDF: " ++ str_exn e) w0)
      as (w1 & E1 & H1).
    rewrite E1 in Eout. cbv beta iota delta [raise] in Eout. subst out.
    exists w1, e. split; [reflexivity | world_chain].
  - subst out. eexists _, _. split; [reflexivity | apply saves_only_refl].
Qed.

(** Either a document gets opened or none does. *)
Lemma fitz_opened_or_not (self : Env) (pdf_path : string) :
  (exists f doc, PYMUPDF_AVAILABLE self = true /\
                 fs self !! pdf_path = Some f /\ fitz_view f = Some doc)
  \/ (PYMUPDF_AVAILABLE self = false \/
      (fs self !! pdf_path ≫= fitz_view) = None).
Proof.
  destruct (PYMUPDF_AVAILABLE self); [|by right; left].
  destruct (fs self !! pdf_path) as [f|] eqn:Hfs; [|by right; right].
  destruct (fitz_view f) as [doc|] eqn:Hview.
  - left. by exists f, doc.
  - right; right. simpl. exact Hview.
Qed.

(** A call that returns has opened a document whose pages are all
    readable, and returns their records. *)
Lemma extract_with_pymupdf_ok_inv (self : Env) (pdf_path : string)
    (w w' : World) (recs : list PageRecord) :
  extract_with_pymupdf self pdf_path w = (w', Ok recs) ->
  exists f doc,
    PYMUPDF_AVAILABLE self = true /\
    fs self !! pdf_path = Some f /\ fitz_view f = Some doc /\
    forallb readable doc = true /\ recs = doc_records self 0 doc.
Proof.
  intros E.
  destruct (fitz_opened_or_not self pdf_path)
    as [(f & doc & Ha & Hfs & Hv) | Hno].
  - destruct (extract_with_pymupdf_opened self pdf_path f doc w Ha Hfs Hv)
      as (w1 & new & _ & _ & _ & _ & _ & [(Hall & _ & _ & E1) | (_ & _ & e & E1)]);
      rewrite E1 in E; [|discriminate].
    injection E as _ <-. by exists f, doc.
  - destruct (extract_with_pymupdf_not_opened self pdf_path w Hno)
      as (w1 & e & E1 & _).
    rewrite E1 in E. discriminate.
Qed.

Lemma fitz_doc_records_length (self : Env) (pages : list Fitz.Page) :
  forall k, List.length (doc_records self k pages) = List.length pages.
Proof.
  unfold doc_records.
  induction pages as [|p pages IH]; intros k; simpl; [reflexivity|].
  by rewrite IH.
Qed.

Lemma fitz_doc_records_numbers (self : Env) (pages : list Fitz.Page) :
  forall k,
    map page_number (doc_records self k pages)
    = seq (k + 1) (List.length pages).
Proof.
  unfold doc_records.
  induction pages as [|p pages IH]; intros k; simpl; [reflexivity|].
  rewrite IH. reflexivity.
Qed.

Lemma fitz_unreadable_page (pages : list Fitz.Page) :
  forallb readable pages = false ->
  exists page, In page pages /\ readable page = false.
Proof.
  induction pages as [|p pages IH]; simpl; [discriminate|].
  destruct (readable p) eqn:R; simpl.
  - intros H. destruct (IH H) as (q & Hq & Rq). exists q. by split; [right|].
  - intros _. exists p. by split; [left|].
Qed.

(** When a page of an opened document cannot be read, the handle
    acquired by the call is still open when the error leaves it. *)
Lemma extract_with_pymupdf_leaks (self : Env) (pdf_path : string)
    (f : PdfFile) (doc : list Fitz.Page) (w : World) :
  PYMUPDF_AVAILABLE self = true ->
  fs self !! pdf_path = Some f ->
  fitz_view f = Some doc ->
  forallb readable doc = false ->
  exists w' e,
    extract_with_pymupdf self pdf_path w = (w', Raise e) /\
    opened w' = S (opened w) /\ released w' = released w.
Proof.
  intros Ha Hfs Hv Hbad.
  destruct (extract_with_pymupdf_opened self pdf_path f doc w Ha Hfs Hv)
    as (w' & new & _ & _ & Ho & _ & _ &
        [(Hall & _) | (_ & Hr & e & E)]); [congruence|].
  by exists w', e.
Qed.

(** *** Which images get written *)

Lemma materialized_inv (img : Fitz.Image) (p : Fitz.Pixmap) :
  materialized img = Some p ->
  exists pix,
    Fitz.pixmap img = Some pix /\
    p = (if (Fitz.n pix - Fitz.alpha pix >? 3)%Z
         then Fitz.to_csRGB pix else pix).
Proof.
  unfold materialized, converted.
  destruct (Fitz.pixmap img) as [pix|]; [|discriminate].
  destruct (Fitz.n pix - Fitz.alpha pix >? 3)%Z eqn:C;
    [destruct (Fitz.to_rgb_ok img); [|discriminate]|];
    (destruct (Fitz.save_ok img); [|discriminate]);
    intros [= <-]; exists pix; by rewrite C.
Qed.

(** What is handed to the encoder has at most three colour channels. *)
Lemma written_channels (pix : Fitz.Pixmap) :
  let p := if (Fitz.n pix - Fitz.alpha pix >? 3)%Z
           then Fitz.to_csRGB pix else pix in
  (Fitz.n p - Fitz.alpha p <= 3)%Z.
Proof.
  simpl. destruct (Z.gtb_spec (Fitz.n pix - Fitz.alpha pix) 3); simpl; lia.
Qed.


Lemma page_slots_elem (page_num : nat) (imgs : list Fitz.Image) :
  forall (k : nat) (s : Slot),
    s ∈ page_slots page_num k imgs ->
    exists j img,
      imgs !! j = Some img /\ slot_key s = (page_num, k + j) /\
      materialized img = Some s.2.
Proof.
  induction imgs as [|img imgs IH]; intros k s H.
  - by apply elem_of_nil in H.
  - rewrite page_slots_cons in H. apply elem_of_app in H as [H|H].
    + unfold slot_of in H. simpl in H.
      destruct (materialized img) as [pix|] eqn:Hm; simpl in H;
        [|by apply elem_of_nil in H].
      apply list_elem_of_singleton in H as ->.
      exists 0, img. unfold slot_key. simpl.
      by rewrite Nat.add_0_r.
    + apply IH in H as (j & img' & Hj & Hs & Hm).
      exists (S j), img'. rewrite Hs. simpl.
      split; [exact Hj|]. split; [f_equal; lia | exact Hm].
Qed.

Lemma doc_slots_elem (pages : list Fitz.Page) :
  forall (k : nat) (s : Slot),
    s ∈ doc_slots k pages ->
    exists i page,
      pages !! i = Some page /\
      s ∈ page_slots (k + i) 0 (page_images page).
Proof.
  induction pages as [|page pages IH]; intros k s H.
  - by apply elem_of_nil in H.
  - rewrite doc_slots_cons in H. apply elem_of_app in H as [H|H].
    + exists 0, page. by rewrite Nat.add_0_r.
    + apply IH in H as (i & page' & Hi & Hs).
      exists (S i), page'. simpl. split; [exact Hi|].
      by replace (k + S i) with (S k + i) by lia.
Qed.

(** Every slot of a document is the file of one of its images. *)
Lemma doc_slot_written_for (self : Env) (doc : list Fitz.Page)
    (s : Slot) :
  s ∈ doc_slots 0 doc -> written_for self doc (slot_save self s).
Proof.
  intros H.
  apply doc_slots_elem in H as (i & page & Hi & H). simpl in H.
  apply page_slots_elem in H as (j & img & Hj & Hk & Hm). simpl in Hk.
  apply materialized_inv in Hm as (pix & Hp & Hs).
  exists i, j, page, (page_images page), img, pix.
  split; [exact Hi|]. split.
  { unfold page_images in *.
    destruct (Fitz.get_images page); [reflexivity | discriminate]. }
  split; [exact Hj|]. split; [exact Hp|].
  unfold slot_save, slot_path, key_path. rewrite Hk. simpl.
  by split; [|split].
Qed.

(** *** Names do not collide *)

Lemma image_name_inj (a b a' b' : nat) :
  image_name a b = image_name a' b' -> a = a' /\ b = b'.
Proof.
  unfold image_name. intros H.
  apply (inj (String.append "page_")) in H.
  change ("_image_" ++ PyStr.of_nat (b + 1) ++ ".png")
    with (String "_" ("image_" ++ PyStr.of_nat (b + 1) ++ ".png")) in H.
  change ("_image_" ++ PyStr.of_nat (b' + 1) ++ ".png")
    with (String "_" ("image_" ++ PyStr.of_nat (b' + 1) ++ ".png")) in H.
  apply digits_then_stop in H as [Ha H];
    [|apply all_digits_of_nat|apply all_digits_of_nat
     |reflexivity|reflexivity].
  injection H as H. rewrite !append_nil in H.
  apply digits_then_stop in H as [Hb _];
    [|apply all_digits_of_nat|apply all_digits_of_nat
     |reflexivity|reflexivity].
  apply of_nat_inj in Ha, Hb. lia.
Qed.

Lemma key_path_inj (self : Env) (k k' : nat * nat) :
  key_path self k = key_path self k' -> k = k'.
Proof.
  destruct k as [a b], k' as [a' b']. unfold key_path. simpl.
  rewrite !path_join_plain by apply image_name_plain.
  intros H.
  apply (inj (String.append _)) in H.
  apply image_name_inj in H as [-> ->]. reflexivity.
Qed.

Lemma NoDup_map_inj {A B} (g : A -> B) (l : list A) :
  (forall x y, g x = g y -> x = y) -> NoDup l -> NoDup (map g l).
Proof.
  intros Hg. induction l as [|x l IH]; simpl; [constructor|].
  intros [Hx Hl]%NoDup_cons. apply NoDup_cons. split; [|by apply IH].
  intros Hin. apply list_elem_of_In, in_map_iff in Hin as (y & Hy & Hin).
  apply Hg in Hy as ->. by apply Hx, list_elem_of_In.
Qed.

Lemma sublist_map {A B} (g : A -> B) (l1 l2 : list A) :
  l1 `sublist_of` l2 -> map g l1 `sublist_of` map g l2.
Proof. induction 1; simpl; by constructor. Qed.

Lemma page_slots_keys (page_num : nat) (imgs : list Fitz.Image) :
  forall k, NoDup (map slot_key (page_slots page_num k imgs)).
Proof.
  induction imgs as [|img imgs IH]; intros k; [constructor|].
  rewrite page_slots_cons, map_app. apply NoDup_app.
  split; [|split; [|apply IH]].
  - destruct (slot_of page_num (k, img)); simpl;
      [apply NoDup_singleton | constructor].
  - intros key H1 H2.
    apply list_elem_of_In, in_map_iff in H1 as (s1 & <- & H1).
    apply list_elem_of_In, in_map_iff in H2 as (s2 & E & H2).
    unfold slot_of in H1. simpl in H1.
    destruct (materialized img); simpl in H1; [|done].
    destruct H1 as [<-|[]].
    apply list_elem_of_In, page_slots_elem in H2 as (j & _ & _ & Hk & _).
    rewrite E in Hk. unfold slot_key in Hk. simpl in Hk.
    injection Hk. lia.
Qed.

Lemma doc_slots_keys (pages : list Fitz.Page) :
  forall k, NoDup (map slot_key (doc_slots k pages)).
Proof.
  induction pages as [|page pages IH]; intros k; [constructor|].
  rewrite doc_slots_cons, map_app. apply NoDup_app.
  split; [apply page_slots_keys|]. split; [|apply IH].
  intros key H1 H2.
  apply list_elem_of_In, in_map_iff in H1 as (s1 & <- & H1).
  apply list_elem_of_In, in_map_iff in H2 as (s2 & E & H2).
  apply list_elem_of_In, page_slots_elem in H1 as (j1 & _ & _ & K1 & _).
  apply list_elem_of_In, doc_slots_elem in H2 as (i & p2 & _ & H2).
  apply page_slots_elem in H2 as (j2 & _ & _ & K2 & _).
  rewrite E, K1 in K2. injection K2. lia.
Qed.

(** The files written by a run have pairwise distinct paths. *)
Lemma written_paths_NoDup (self : Env) (doc : list Fitz.Page)
    (new : list Slot) :
  new `sublist_of` doc_slots 0 doc ->
  NoDup (map sv_path (map (slot_save self) new)).
Proof.
  intros Hsub. rewrite map_map. simpl.
  change (fun x => slot_path self x)
    with (fun x => key_path self (slot_key x)).
  rewrite <- (map_map slot_key (key_path self)).
  apply NoDup_map_inj; [apply key_path_inj|].
  eapply sublist_NoDup; [apply (doc_slots_keys doc 0)|].
  by apply sublist_map.
Qed.


(** *** The pages a run goes through, and what it leaves behind *)

Lemma doc_lefts_cons (k : nat) (page : Fitz.Page)
    (pages : list Fitz.Page) :
  doc_lefts k (page :: pages)
  = (page_lefts k 0 (page_images page) ++ doc_lefts (S k) pages)%list.
Proof. reflexivity. Qed.

Lemma reached_all (pages : list Fitz.Page) :
  forallb readable pages = true -> reached pages = pages.
Proof.
  induction pages as [|p pages IH]; simpl; [reflexivity|].
  destruct (readable p); simpl; [|discriminate].
  intros H. by rewrite IH.
Qed.

Lemma reached_stops (good : list Fitz.Page) (bad : Fitz.Page)
    (post : list Fitz.Page) :
  forallb readable good = true -> readable bad = false ->
  reached (good ++ bad :: post) = good.
Proof.
  intros Hg Hb. induction good as [|g good IH]; simpl.
  - by rewrite Hb.
  - simpl in Hg. apply andb_true_iff in Hg as [-> Hg]. by rewrite IH.
Qed.

Lemma reached_lookup (pages : list Fitz.Page) :
  forall (i : nat) (page : Fitz.Page),
    pages !! i = Some page ->
    forallb readable (take (S i) pages) = true ->
    reached pages !! i = Some page.
Proof.
  induction pages as [|p pages IH]; intros i page Hi Hr; [done|].
  simpl in Hr. apply andb_true_iff in Hr as [Hp Hr].
  simpl. rewrite Hp. destruct i as [|i]; [exact Hi|].
  simpl in Hi |- *. by apply IH.
Qed.

Lemma reached_lookup_inv (pages : list Fitz.Page) :
  forall (i : nat) (page : Fitz.Page),
    reached pages !! i = Some page -> pages !! i = Some page.
Proof.
  induction pages as [|p pages IH]; intros i page Hi; [done|].
  simpl in Hi. destruct (readable p); [|done].
  destruct i as [|i]; [exact Hi|]. simpl in Hi |- *. by apply IH.
Qed.

(** The page loop over the pages [pages] that follow [pre]: whether it
    completes or stops, it has written the files of the pages it went
    through, and left behind those of their failed saves. *)
Lemma fitz_page_loop_run (self : Env) (pages : list Fitz.Page) :
  forall (pre : list Fitz.Page) (acc : list PageRecord) (w : World),
  exists w' r,
    for_each (seq (List.length pre) (List.length pages))
      (fitz_page_body self (pre ++ pages)) acc w = (w', r) /\
    writes w w'
      (map (slot_save self) (doc_slots (List.length pre) (reached pages)))
      (map (key_path self) (doc_lefts (List.length pre) (reached pages))).
Proof.
  induction pages as [|page pages IH]; intros pre acc w.
  - exists w, (Ok acc). split; [reflexivity | apply writes_refl].
  - simpl List.length. simpl seq. rewrite for_each_cons.
    assert (Hpage : (pre ++ page :: pages)%list !! List.length pre
                    = Some page).
    { by rewrite list_lookup_middle. }
    pose proof (fitz_page_body_spec self _ _ _ acc w Hpage) as Hbody.
    simpl reached.
    destruct (readable page).
    + destruct Hbody as (w1 & -> & H1).
      specialize (IH (pre ++ [page])%list
                     (acc ++ [page_record self (List.length pre) page])%list
                     w1).
      rewrite length_app, Nat.add_1_r, <- app_assoc in IH. simpl in IH.
      destruct IH as (w2 & r & -> & H2).
      exists w2, r. split; [reflexivity|].
      rewrite doc_slots_cons, doc_lefts_cons, !map_app.
      eapply writes_trans; eassumption.
    + destruct Hbody as (e & ->).
      exists w, (Raise e). split; [reflexivity | apply writes_refl].
Qed.

(** The whole call on a document that opens. *)
Lemma extract_with_pymupdf_run (self : Env) (pdf_path : string)
    (f : PdfFile) (doc : list Fitz.Page) (w : World) :
  PYMUPDF_AVAILABLE self = true ->
  fs self !! pdf_path = Some f ->
  fitz_view f = Some doc ->
  saved (fst (extract_with_pymupdf self pdf_path w))
  = (saved w ++ map (slot_save self) (doc_slots 0 (reached doc)))%list /\
  leftovers (fst (extract_with_pymupdf self pdf_path w))
  = (leftovers w ++ map (key_path self) (doc_lefts 0 (reached doc)))%list.
Proof.
  intros Havail Hfs Hview.
  remember (extract_with_pymupdf self pdf_path w) as out eqn:Eout.
  unfold extract_with_pymupdf in Eout. rewrite Havail in Eout.
  change (negb true) with false in Eout. cbv iota in Eout.
  rewrite bind_unfold in Eout.
  destruct (logger_spec INFO
    ("Extracting content from " ++ pdf_path ++ " using PyMuPDF") w)
    as (w0 & E0 & H0).
  pose proof (logger_leftovers INFO
    ("Extracting content from " ++ pdf_path ++ " using PyMuPDF") w) as L0.
  rewrite E0 in Eout, L0. simpl in L0.
  unfold try_except, fitz_open in Eout. rewrite Hfs, Hview in Eout.
  rewrite !bind_unfold in Eout.
  destruct (acquire_handle_spec w0) as (w1 & E1 & H1).
  rewrite E1 in Eout. cbv beta iota delta [ret] in Eout.
  rewrite bind_unfold in Eout.
  destruct (fitz_page_loop_run self doc [] [] w1)
    as (w2 & r & E2 & H2).
  simpl in E2, H2. rewrite E2 in Eout.
  destruct r as [page_data|e].
  - unfold doc_close in Eout. rewrite bind_unfold in Eout.
    destruct (release_handle_spec w2) as (w3 & E3 & H3).
    rewrite E3 in Eout. cbv beta iota in Eout.
    rewrite bind_unfold in Eout.
    destruct (logger_spec INFO
      ("Successfully extracted content from "
       ++ PyStr.of_nat (List.length page_data) ++ " pages")
      w3) as (w4 & E4 & H4).
    pose proof (logger_leftovers INFO
      ("Successfully extracted content from "
       ++ PyStr.of_nat (List.length page_data) ++ " pages") w3) as L4.
    rewrite E4 in Eout, L4. simpl in L4.
    cbv beta iota in Eout. subst out.
    unfold fst. split; world_chain.
  - rewrite bind_unfold in Eout.
    destruct (logger_spec ERROR
      ("Error extracting with PyMuPDF: " ++ str_exn e) w2)
      as (w3 & E3 & H3).
    pose proof (logger_leftovers ERROR
      ("Error extracting with PyMuPDF: " ++ str_exn e) w2) as L3.
    rewrite E3 in Eout, L3. simpl in L3.
    cbv beta iota delta [raise] in Eout. subst out.
    unfold fst. split; world_chain.
Qed.

(** The call when no document gets opened leaves nothing behind. *)
Lemma extract_with_pymupdf_not_opened_leftovers (self : Env)
    (pdf_path : string) (w : World) :
  PYMUPDF_AVAILABLE self = false \/
  (fs self !! pdf_path ≫= fitz_view) = None ->
  leftovers (fst (extract_with_pymupdf self pdf_path w)) = leftovers w.
Proof.
  intros H. unfold extract_with_pymupdf.
  destruct (PYMUPDF_AVAILABLE self) eqn:Havail; [|reflexivity].
  destruct H as [H|H]; [discriminate|].
  change (negb true) with false. cbv iota.
  unfold try_except, fitz_open, bind.
  destruct (fs self !! pdf_path) as [f|]; simpl in H;
    [rewrite H|]; reflexivity.
Qed.

(** *** Every image that materializes has its slot *)

Lemma page_slots_intro (page_num : nat) (imgs : list Fitz.Image) :
  forall (k j : nat) (img : Fitz.Image) (pix : Fitz.Pixmap),
    imgs !! j = Some img -> materialized img = Some pix ->
    (page_num, k + j, pix) ∈ page_slots page_num k imgs.
Proof.
  induction imgs as [|img0 imgs IH]; intros k j img pix Hj Hm; [done|].
  rewrite page_slots_cons. apply elem_of_app.
  destruct j as [|j].
  - left. injection Hj as ->. unfold slot_of. simpl. rewrite Hm. simpl.
    rewrite Nat.add_0_r. apply list_elem_of_singleton. reflexivity.
  - right. simpl in Hj.
    replace (k + S j) with (S k + j) by lia. by eapply IH.
Qed.

Lemma doc_slots_intro (pages : list Fitz.Page) :
  forall (k i : nat) (page : Fitz.Page) (j : nat) (img : Fitz.Image)
         (pix : Fitz.Pixmap),
    pages !! i = Some page -> page_images page !! j = Some img ->
    materialized img = Some pix ->
    (k + i, j, pix) ∈ doc_slots k pages.
Proof.
  induction pages as [|p pages IH]; intros k i page j img pix Hi Hj Hm;
    [done|].
  rewrite doc_slots_cons. apply elem_of_app.
  destruct i as [|i].
  - left. injection Hi as ->. rewrite Nat.add_0_r.
    by apply (page_slots_intro k (page_images page) 0 j img pix).
  - right. simpl in Hi.
    replace (k + S i) with (S k + i) by lia. by eapply IH.
Qed.

Lemma materialized_intro (img : Fitz.Image) (pix : Fitz.Pixmap) :
  Fitz.pixmap img = Some pix ->
  ((Fitz.n pix - Fitz.alpha pix >? 3)%Z = true ->
   Fitz.to_rgb_ok img = true) ->
  Fitz.save_ok img = true ->
  materialized img
  = Some (if (Fitz.n pix - Fitz.alpha pix >? 3)%Z
          then Fitz.to_csRGB pix else pix).
Proof.
  intros Hp Hc Hs. unfold materialized, converted. rewrite Hp, Hs.
  destruct (Fitz.n pix - Fitz.alpha pix >? 3)%Z; [|reflexivity].
  by rewrite Hc.
Qed.

Lemma doc_slots_reached (pages : list Fitz.Page) :
  forall k, doc_slots k (reached pages) `sublist_of` doc_slots k pages.
Proof.
  induction pages as [|p pages IH]; intros k; [constructor|].
  simpl reached. destruct (readable p); [|apply sublist_nil_l].
  rewrite !doc_slots_cons. apply sublist_app; [reflexivity | apply IH].
Qed.

(** *** The files left behind *)

Lemma left_behind_inv (img : Fitz.Image) :
  left_behind img = true ->
  Fitz.save_ok img = false /\ Fitz.save_leaves_file img = true.
Proof.
  unfold left_behind, converted.
  destruct (Fitz.pixmap img) as [pix|]; [|discriminate].
  destruct (Fitz.n pix - Fitz.alpha pix >? 3)%Z;
    [destruct (Fitz.to_rgb_ok img); [|discriminate]|];
    destruct (Fitz.save_ok img), (Fitz.save_leaves_file img);
    try discriminate; by split.
Qed.

Lemma materialized_not_left (img : Fitz.Image) (pix : Fitz.Pixmap) :
  materialized img = Some pix -> left_behind img = false.
Proof.
  unfold materialized, left_behind.
  destruct (Fitz.pixmap img) as [p|]; [|discriminate].
  destruct (converted img p); [|discriminate].
  by destruct (Fitz.save_ok img).
Qed.

Lemma page_lefts_elem (page_num : nat) (imgs : list Fitz.Image) :
  forall (k : nat) (key : nat * nat),
    key ∈ page_lefts page_num k imgs ->
    exists j img,
      imgs !! j = Some img /\ key = (page_num, k + j) /\
      left_behind img = true.
Proof.
  induction imgs as [|img imgs IH]; intros k key H.
  - by apply elem_of_nil in H.
  - rewrite page_lefts_cons in H. apply elem_of_app in H as [H|H].
    + unfold left_of in H. simpl in H.
      destruct (left_behind img) eqn:Hl; simpl in H;
        [|by apply elem_of_nil in H].
      apply list_elem_of_singleton in H as ->.
      exists 0, img. by rewrite Nat.add_0_r.
    + apply IH in H as (j & img' & Hj & -> & Hl).
      exists (S j), img'. split; [exact Hj|].
      split; [f_equal; lia | exact Hl].
Qed.

Lemma doc_lefts_elem (pages : list Fitz.Page) :
  forall (k : nat) (key : nat * nat),
    key ∈ doc_lefts k pages ->
    exists i page,
      pages !! i = Some page /\
      key ∈ page_lefts (k + i) 0 (page_images page).
Proof.
  induction pages as [|page pages IH]; intros k key H.
  - by apply elem_of_nil in H.
  - rewrite doc_lefts_cons in H. apply elem_of_app in H as [H|H].
    + exists 0, page. by rewrite Nat.add_0_r.
    + apply IH in H as (i & page' & Hi & Hs).
      exists (S i), page'. simpl. split; [exact Hi|].
      by replace (k + S i) with (S k + i) by lia.
Qed.

Lemma doc_lefts_reached (pages : list Fitz.Page) :
  forall k, doc_lefts k (reached pages) `sublist_of` doc_lefts k pages.
Proof.
  induction pages as [|p pages IH]; intros k; [constructor|].
  simpl reached. destruct (readable p); [|apply sublist_nil_l].
  rewrite !doc_lefts_cons. apply sublist_app; [reflexivity | apply IH].
Qed.

(** Every file left behind bears the name of an image of the document
    whose save raised. *)
Lemma doc_left_for (self : Env) (doc : list Fitz.Page)
    (key : nat * nat) :
  key ∈ doc_lefts 0 doc -> left_for self doc (key_path self key).
Proof.
  intros H.
  apply doc_lefts_elem in H as (i & page & Hi & H). simpl in H.
  apply page_lefts_elem in H as (j & img & Hj & -> & Hl). simpl.
  apply left_behind_inv in Hl as [Hs Hf].
  exists i, j, page, (page_images page), img.
  split; [exact Hi|]. split.
  { unfold page_images in *.
    destruct (Fitz.get_images page); [reflexivity | discriminate]. }
  by repeat split.
Qed.

Lemma page_lefts_NoDup (page_num : nat) (imgs : list Fitz.Image) :
  forall k, NoDup (page_lefts page_num k imgs).
Proof.
  induction imgs as [|img imgs IH]; intros k; [constructor|].
  rewrite page_lefts_cons. apply NoDup_app.
  split; [|split; [|apply IH]].
  - destruct (left_of page_num (k, img)); simpl;
      [apply NoDup_singleton | constructor].
  - intros key H1 H2.
    unfold left_of in H1. simpl in H1.
    destruct (left_behind img); simpl in H1; [|by apply elem_of_nil in H1].
    apply list_elem_of_singleton in H1 as ->.
    apply page_lefts_elem in H2 as (j & _ & _ & Hk & _).
    injection Hk. lia.
Qed.

Lemma doc_lefts_NoDup (pages : list Fitz.Page) :
  forall k, NoDup (doc_lefts k pages).
Proof.
  induction pages as [|page pages IH]; intros k; [constructor|].
  rewrite doc_lefts_cons. apply NoDup_app.
  split; [apply page_lefts_NoDup|]. split; [|apply IH].
  intros key H1 H2.
  apply page_lefts_elem in H1 as (j1 & _ & _ & K1 & _).
  apply doc_lefts_elem in H2 as (i & p2 & _ & H2).
  apply page_lefts_elem in H2 as (j2 & _ & _ & K2 & _).
  rewrite K1 in K2. injection K2. lia.
Qed.

(** No image both is written and leaves a file behind. *)
Lemma slots_lefts_disjoint (pages : list Fitz.Page) (k : nat)
    (s : Slot) (key : nat * nat) :
  s ∈ doc_slots k pages -> key ∈ doc_lefts k pages -> slot_key s <> key.
Proof.
  intros Hs Hk E.
  apply doc_slots_elem in Hs as (i & page & Hi & Hs).
  apply page_slots_elem in Hs as (j & img & Hj & Ks & Hm).
  apply doc_lefts_elem in Hk as (i' & page' & Hi' & Hk).
  apply page_lefts_elem in Hk as (j' & img' & Hj' & Kk & Hl).
  rewrite Ks, Kk in E. simpl in E. injection E as Ei Ej.
  assert (i = i') as <- by lia. assert (j = j') as <- by lia.
  rewrite Hi in Hi'. injection Hi' as <-.
  rewrite Hj in Hj'. injection Hj' as <-.
  apply materialized_not_left in Hm. congruence.
Qed.

(** The files a run creates, written or left behind, have pairwise
    distinct paths. *)
Lemma created_paths_NoDup (self : Env) (pages : list Fitz.Page) :
  NoDup (map sv_path (map (slot_save self) (doc_slots 0 pages))
         ++ map (key_path self) (doc_lefts 0 pages)).
Proof.
  rewrite map_map. simpl.
  change (fun x => slot_path self x)
    with (fun x => key_path self (slot_key x)).
  rewrite <- (map_map slot_key (key_path self)), <- map_app.
  apply NoDup_map_inj; [apply key_path_inj|].
  apply NoDup_app. split; [apply doc_slots_keys|].
  split; [|apply doc_lefts_NoDup].
  intros key H1 H2.
  apply list_elem_of_In, in_map_iff in H1 as (s & <- & H1).
  apply list_elem_of_In in H1.
  by apply (slots_lefts_disjoint pages 0 s (slot_key s)).
Qed.

End RasterFacts.

(* ===================================================================== *)
(** ** Properties of the geometry-only backend *)
(* ===================================================================== *)

Module GeometryFacts.
Import PyStrFacts WorldFacts Geometry.

Lemma plumber_image_loop_spec (imgs : list (gmap string Z)) :
  forall (k : nat) (acc : list ImageInfo) (w : World),
    for_each (enumerate_from k imgs) plumber_image_body acc w
    = (w, Ok (acc ++ map image_info imgs)%list).
Proof.
  induction imgs as [|img imgs IH]; intros k acc w.
  - simpl. unfold ret. by rewrite app_nil_r.
  - simpl enumerate_from. rewrite for_each_cons.
    unfold plumber_image_body at 1. unfold ret at 1.
    rewrite IH. simpl. by rewrite <- app_assoc.
Qed.

Lemma or_empty (t : string) : (if PyStr.truthy t then t else "") = t.
Proof. by destruct t. Qed.

(** One turn of the page loop; the world is not touched. *)
Lemma plumber_page_body_spec (page_num : nat) (page : Plumber.Page)
    (acc : list PageRecord) (w : World) :
  if readable page then
    plumber_page_body acc (page_num, page) w
    = (w, Ok (acc ++ [page_record page_num page])%list)
  else exists e, plumber_page_body acc (page_num, page) w = (w, Raise e).
Proof.
  destruct page as [et im].
  unfold readable, plumber_page_body, page_record, page_text, page_boxes.
  simpl.
  destruct et as [[t|]|]; [| |eexists; reflexivity];
    (destruct im as [l|]; [|eexists; reflexivity]); simpl;
    cbv beta iota delta [bind ret]; unfold enumerate;
    rewrite plumber_image_loop_spec; simpl;
    rewrite ?or_empty, length_map; reflexivity.
Qed.

Lemma plumber_page_loop_spec (pages : list Plumber.Page) :
  forall (k : nat) (acc : list PageRecord) (w : World),
    if forallb readable pages then
      for_each (enumerate_from k pages) plumber_page_body acc w
      = (w, Ok (acc ++ doc_records k pages)%list)
    else
      exists e,
        for_each (enumerate_from k pages) plumber_page_body acc w
        = (w, Raise e).
Proof.
  induction pages as [|page pages IH]; intros k acc w.
  - simpl. unfold ret. by rewrite app_nil_r.
  - simpl enumerate_from. rewrite for_each_cons. simpl forallb.
    pose proof (plumber_page_body_spec k page acc w) as Hbody.
    destruct (readable page); simpl andb.
    + rewrite Hbody.
      specialize (IH (S k) (acc ++ [page_record k page])%list w).
      destruct (forallb readable pages).
      * rewrite IH. unfold doc_records. simpl. by rewrite <- app_assoc.
      * exact IH.
    + destruct Hbody as (e & ->). by exists e.
Qed.

(** The whole call on a document that opens: the handle acquired is
    released on both exits. *)
Lemma extract_with_pdfplumber_opened (self : Env) (pdf_path : string)
    (f : PdfFile) (pdf : list Plumber.Page) (w : World) :
  PDFPLUMBER_AVAILABLE self = true ->
  fs self !! pdf_path = Some f ->
  plumber_view f = Some pdf ->
  exists w',
    opened w' = S (opened w) /\ released w' = S (released w) /\
    saved w' = saved w /\
    json_files w' = json_files w /\ stdout w' = stdout w /\
    ((forallb readable pdf = true /\
      extract_with_pdfplumber self pdf_path w
      = (w', Ok (doc_records 0 pdf)))
     \/
     (forallb readable pdf = false /\
      exists e, extract_with_pdfplumber self pdf_path w = (w', Raise e))).
Proof.
  intros Havail Hfs Hview.
  remember (extract_with_pdfplumber self pdf_path w) as out eqn:Eout.
  unfold extract_with_pdfplumber in Eout. rewrite Havail in Eout.
  change (negb true) with false in Eout. cbv iota in Eout.
  rewrite bind_unfold in Eout.
  destruct (logger_spec INFO
    ("Extracting content from " ++ pdf_path ++ " using pdfplumber") w)
    as (w0 & E0 & H0).
  rewrite E0 in Eout.
  unfold try_except, with_pdfplumber_open, pdfplumber_open in Eout.
  rewrite Hfs, Hview in Eout.
  rewrite !bind_unfold in Eout.
  destruct (acquire_handle_spec w0) as (w1 & E1 & H1).
  rewrite E1 in Eout. cbv beta iota delta [ret finally] in Eout.
  rewrite bind_unfold in Eout. unfold enumerate in Eout.
  pose proof (plumber_page_loop_spec pdf 0 [] w1) as Hloop.
  destruct (forallb readable pdf).
  - rewrite Hloop in Eout. cbv beta iota in Eout.
    rewrite bind_unfold in Eout.
    destruct (logger_spec INFO
      ("Successfully extracted content from "
       ++ PyStr.of_nat (List.length ([] ++ doc_records 0 pdf)%list)
       ++ " pages") w1) as (w2 & E2 & H2).
    rewrite E2 in Eout. cbv beta iota in Eout.
    destruct (release_handle_spec w2) as (w3 & E3 & H3).
    rewrite E3 in Eout. simpl in Eout. subst out.
    exists w3.
    split; [world_chain|]. split; [world_chain|]. split; [world_chain|].
    split; [world_chain|]. split; [world_chain|].
    left. split; reflexivity.
  - destruct Hloop as (e & Hloop).
    rewrite Hloop in Eout. cbv beta iota in Eout.
    destruct (release_handle_spec w1) as (w2 & E2 & H2).
    rewrite E2 in Eout. simpl fst in Eout. cbv beta iota in Eout.
    rewrite bind_unfold in Eout.
    destruct (logger_spec ERROR
      ("Error extracting with pdfplumber: " ++ str_exn e) w2)
      as (w3 & E3 & H3).
    rewrite E3 in Eout. cbv beta iota delta [raise] in Eout. subst out.
    exists w3.
    split; [world_chain|]. split; [world_chain|]. split; [world_chain|].
    split; [world_chain|]. split; [world_chain|].
    right. split; [reflexivity | by exists e].
Qed.

(** The call when no document gets opened. *)
Lemma extract_with_pdfplumber_not_opened (self : Env)
    (pdf_path : string) (w : World) :
  PDFPLUMBER_AVAILABLE self = false \/
  (fs self !! pdf_path ≫= plumber_view) = None ->
  exists w' e,
    extract_with_pdfplumber self pdf_path w = (w', Raise e) /\
    saves_only w w' [].
Proof.
  intros H.
  remember (extract_with_pdfplumber self pdf_path w) as out eqn:Eout.
  unfold extract_with_pdfplumber in Eout.
  destruct (PDFPLUMBER_AVAILABLE self) eqn:Havail.
  - destruct H as [H|H]; [discriminate|].
    change (negb true) with false in Eout. cbv iota in Eout.
    rewrite bind_unfold in Eout.
    destruct (logger_spec INFO
      ("Extracting content from " ++ pdf_path ++ " using pdfplumber") w)
      as (w0 & E0 & H0).
    rewrite E0 in Eout. unfold try_except, with_pdfplumber_open in Eout.
    assert (E : exists e, pdfplumber_open self pdf_path w0 = (w0, Raise e)).
    { unfold pdfplumber_open.
      destruct (fs self !! pdf_path) as [f|]; simpl in H;
        [rewrite H|]; eexists; reflexivity. }
    destruct E as (e & E).
    rewrite bind_unfold, E, bind_unfold in Eout.
    destruct (logger_spec ERROR
      ("Error extracting with pdfplumber: " ++ str_exn e) w0)
      as (w1 & E1 & H1).
    rewrite E1 in Eout. cbv beta iota delta [raise] in Eout. subst out.
    exists w1, e. split; [reflexivity | world_chain].
  - subst out. eexists _, _. split; [reflexivity | apply saves_only_refl].
Qed.

(** The call never leaves a file behind. *)
Lemma extract_with_pdfplumber_leftovers (self : Env) (pdf_path : string)
    (w : World) :
  leftovers (fst (extract_with_pdfplumber self pdf_path w)) = leftovers w.
Proof.
  unfold extract_with_pdfplumber.
  destruct (PDFPLUMBER_AVAILABLE self); [|reflexivity].
  change (negb true) with false. cbv iota.
  rewrite bind_unfold.
  destruct (logger_spec INFO
    ("Extracting content from " ++ pdf_path ++ " using pdfplumber") w)
    as (w0 & E0 & H0).
  pose proof (logger_leftovers INFO
    ("Extracting content from " ++ pdf_path ++ " using pdfplumber") w)
    as L0.
  rewrite E0 in L0 |- *. simpl in L0. rewrite <- L0.
  unfold try_except, with_pdfplumber_open, pdfplumber_open.
  destruct (fs self !! pdf_path) as [f|]; [|reflexivity].
  destruct (plumber_view f) as [pdf|]; [|reflexivity].
  rewrite !bind_unfold. cbv beta iota delta [acquire_handle ret finally].
  unfold enumerate. rewrite bind_unfold.
  pose proof (plumber_page_loop_spec pdf 0 []) as Hloop.
  destruct (forallb readable pdf).
  - rewrite Hloop. reflexivity.
  - edestruct Hloop as (e & ->). reflexivity.
Qed.

Lemma plumber_opened_or_not (self : Env) (pdf_path : string) :
  (exists f pdf, PDFPLUMBER_AVAILABLE self = true /\
                 fs self !! pdf_path = Some f /\
                 plumber_view f = Some pdf)
  \/ (PDFPLUMBER_AVAILABLE self = false \/
      (fs self !! pdf_path ≫= plumber_view) = None).
Proof.
  destruct (PDFPLUMBER_AVAILABLE self); [|by right; left].
  destruct (fs self !! pdf_path) as [f|] eqn:Hfs; [|by right; right].
  destruct (plumber_view f) as [pdf|] eqn:Hview.
  - left. by exists f, pdf.
  - right; right. simpl. exact Hview.
Qed.

Lemma extract_with_pdfplumber_ok_inv (self : Env) (pdf_path : string)
    (w w' : World) (recs : list PageRecord) :
  extract_with_pdfplumber self pdf_path w = (w', Ok recs) ->
  exists f pdf,
    PDFPLUMBER_AVAILABLE self = true /\
    fs self !! pdf_path = Some f /\ plumber_view f = Some pdf /\
    forallb readable pdf = true /\ recs = doc_records 0 pdf.
Proof.
  intros E.
  destruct (plumber_opened_or_not self pdf_path)
    as [(f & pdf & Ha & Hfs & Hv) | Hno].
  - destruct (extract_with_pdfplumber_opened self pdf_path f pdf w
                Ha Hfs Hv)
      as (w1 & _ & _ & _ & _ & _ & [(Hall & E1) | (_ & e & E1)]);
      rewrite E1 in E; [|discriminate].
    injection E as _ <-. by exists f, pdf.
  - destruct (extract_with_pdfplumber_not_opened self pdf_path w Hno)
      as (w1 & e & E1 & _).
    rewrite E1 in E. discriminate.
Qed.

(** On every exit the handles released by the call are as many as the
    handles it acquired. *)
Lemma extract_with_pdfplumber_balanced (self : Env) (pdf_path : string)
    (w : World) :
  let w' := fst (extract_with_pdfplumber self pdf_path w) in
  (opened w' = opened w /\ released w' = released w) \/
  (opened w' = S (opened w) /\ released w' = S (released w)).
Proof.
  destruct (plumber_opened_or_not self pdf_path)
    as [(f & pdf & Ha & Hfs & Hv) | Hno].
  - destruct (extract_with_pdfplumber_opened self pdf_path f pdf w
                Ha Hfs Hv)
      as (w1 & Ho & Hr & _ & _ & _ & [(_ & ->) | (_ & e & ->)]);
      right; simpl; by split.
  - destruct (extract_with_pdfplumber_not_opened self pdf_path w Hno)
      as (w1 & e & -> & Hw).
    left. simpl. destruct Hw as (? & ? & _). by split.
Qed.

Lemma plumber_doc_records_length (pages : list Plumber.Page) :
  forall k, List.length (doc_records k pages) = List.length pages.
Proof.
  unfold doc_records.
  induction pages as [|p pages IH]; intros k; simpl; [reflexivity|].
  by rewrite IH.
Qed.

Lemma plumber_doc_records_numbers (pages : list Plumber.Page) :
  forall k,
    map page_number (doc_records k pages)
    = seq (k + 1) (List.length pages).
Proof.
  unfold doc_records.
  induction pages as [|p pages IH]; intros k; simpl; [reflexivity|].
  rewrite IH. reflexivity.
Qed.

Lemma plumber_unreadable_page (pages : list Plumber.Page) :
  forallb readable pages = false ->
  exists page, In page pages /\ readable page = false.
Proof.
  induction pages as [|p pages IH]; simpl; [discriminate|].
  destruct (readable p) eqn:R; simpl.
  - intros H. destruct (IH H) as (q & Hq & Rq). exists q. by split; [right|].
  - intros _. exists p. by split; [left|].
Qed.

End GeometryFacts.

(* ===================================================================== *)
(** ** The model on concrete inputs *)
(* ===================================================================== *)

Module Examples.
Import PyStr Segmenter.

Example strip_both_ends : strip "  A B C ?  " = "A B C ?".
Proof. reflexivity. Qed.

Example strip_blank_line : strip (String (ascii_of_nat 9) " ") = "".
Proof. reflexivity. Qed.

Example split_keeps_empty_fields :
  split newline ("a" ++ nl ++ nl ++ "b" ++ nl) = ["a"; ""; "b"; ""].
Proof. reflexivity. Qed.

Example trigger_any_case_any_position :
  is_trigger "Now SOLVE it" = true /\ is_trigger "Whatever" = true /\
  is_trigger "Continue" = false.
Proof. repeat split. Qed.

Example image_name_one_based : image_name 0 0 = "page_1_image_1.png".
Proof. reflexivity. Qed.

(** One line holding two keywords opens one question. *)
Example one_line_two_keywords :
  segment [page_of 1 ["Question: what is 1+1? It equals 2."] []]
  = [ {| q_question := "Question: what is 1+1? It equals 2.";
         q_images := ""; q_option_images := [] |} ].
Proof. reflexivity. Qed.

(** Text before the first trigger line of a page is dropped; every
    question of a page sees the same pool. *)
Example two_questions_share_the_pool :
  segment [page_of 1 ["Section 2"; "Find x."; "x > 0"; "";
                      "  Which one is larger?  "] ["a"; "b"; "c"]]
  = [ {| q_question := "Find x. x > 0"; q_images := "a";
         q_option_images := ["b"; "c"] |};
      {| q_question := "Which one is larger?"; q_images := "a";
         q_option_images := ["b"; "c"] |} ].
Proof. reflexivity. Qed.

(** The open question of a page is flushed at the end of that page. *)
Example no_question_spans_pages :
  segment [page_of 1 ["Find x."] ["a"]; page_of 2 ["x > 0"] ["b"]]
  = [ {| q_question := "Find x."; q_images := "a";
         q_option_images := [] |} ].
Proof. reflexivity. Qed.

(** The corrupt second image of page 1 is skipped; the third keeps its
    index in its file name. *)
Example paper_pymupdf_records :
  snd (extract_with_pymupdf sample_env "paper.pdf" world0)
  = Ok [ {| page_number := 1;
            text := "What is the next figure?";
            images := ["extracted_content/images/page_1_image_1.png";
                       "extracted_content/images/page_1_image_3.png"];
            image_metadata := None;
            image_count := 2 |};
         {| page_number := 2;
            text := "Answers overleaf.";
            images := [];
            image_metadata := None;
            image_count := 0 |} ].
Proof. vm_compute. reflexivity. Qed.

Example paper_pymupdf_world :
  let w := fst (extract_with_pymupdf sample_env "paper.pdf" world0) in
  opened w = 1 /\ released w = 1 /\
  saved w
  = [ {| sv_path := "extracted_content/images/page_1_image_1.png";
         sv_pixmap := {| Fitz.n := 4; Fitz.alpha := 1 |};
         sv_format := Fitz.PNG |};
      {| sv_path := "extracted_content/images/page_1_image_3.png";
         sv_pixmap := {| Fitz.n := 3; Fitz.alpha := 0 |};
         sv_format := Fitz.PNG |} ].
Proof. vm_compute. repeat split. Qed.

Example paper_pdfplumber_records :
  snd (extract_with_pdfplumber sample_env "paper.pdf" world0)
  = Ok [ {| page_number := 1;
            text := "What is the next figure?";
            images := [];
            image_metadata :=
              Some [ {| x0 := 10; y0 := 20; x1 := 110; y1 := 80;
                        width := 100; height := 60 |} ];
            image_count := 1 |};
         {| page_number := 2;
            text := "Answers overleaf.";
            images := [];
            image_metadata := Some [];
            image_count := 0 |} ].
Proof. vm_compute. reflexivity. Qed.

(** On the damaged document the geometry-only backend raises with its
    handle released. *)
Example damaged_pdfplumber_releases :
  exists w' e,
    extract_with_pdfplumber sample_env "damaged.pdf" world0
    = (w', Raise e) /\
    opened w' = 1 /\ released w' = 1 /\ open_handles w' = 0.
Proof. eexists _, _. split; [vm_compute; reflexivity|]. by repeat split. Qed.

Example paper_process_pdf :
  snd (process_pdf sample_env "paper.pdf" "PyMuPDF" world0)
  = Ok [ {| q_question := "What is the next figure?";
            q_images := "extracted_content/images/page_1_image_1.png";
            q_option_images :=
              ["extracted_content/images/page_1_image_3.png"] |} ].
Proof. vm_compute. reflexivity. Qed.

(** A save that raises after creating its file leaves the file behind;
    the record lists only the image that was saved, under its own
    index. *)
Example smudged_pymupdf_world :
  let out := extract_with_pymupdf press_env "smudged.pdf" world0 in
  map sv_path (saved (fst out)) = ["out/images/page_1_image_2.png"] /\
  leftovers (fst out) = ["out/images/page_1_image_1.png"] /\
  snd out
  = Ok [ {| page_number := 1;
            text := "Find the area.";
            images := ["out/images/page_1_image_2.png"];
            image_metadata := None;
            image_count := 1 |} ].
Proof. vm_compute. repeat split. Qed.

(** [str(Path(s))] and [str(Path(s) / name)]. *)
Example path_strings :
  map (fun s => PurePath.to_string (PurePath.of_string s))
      ["results"; "results/"; "./results"; ""; "."; "a//b/./c/";
       "/"; "//srv/out"; "///srv/out"]
  = ["results"; "results"; "results"; "."; "."; "a/b/c";
     "/"; "//srv/out"; "/srv/out"] /\
  map (fun s => path_join s "images") ["results"; "."; "/"; "a/b"]
  = ["results/images"; "images"; "/images"; "a/b/images"] /\
  path_join "results" "/tmp/x.json" = "/tmp/x.json".
Proof. vm_compute. repeat split. Qed.

Example path_parents :
  Cli.with_parents "a/b/c" = ["a/b/c"; "a/b"; "a"; "."] /\
  Cli.with_parents "/srv/out" = ["/srv/out"; "/srv"; "/"].
Proof. vm_compute. repeat split. Qed.

(** An output directory given with a trailing separator, or as the
    empty string. *)
Example main_output_spellings :
  let run d :=
    fst (Cli.main Cli.easy_host sample_env
           {| Cli.pdf_path := "paper.pdf"; Cli.method := "pdfplumber";
              Cli.output := d; Cli.verbose := false |} Cli.shell0) in
  Cli.made_dirs (run "results/") = ["results"; "results/images"] /\
  Cli.log_files (run "results/") = ["results/extraction.log"] /\
  map fst (json_files (Cli.world (run "results/")))
  = ["results/questions.json"; "results/raw_pages.json"] /\
  Cli.made_dirs (run "") = ["."; "images"] /\
  Cli.log_files (run "") = ["extraction.log"] /\
  map fst (json_files (Cli.world (run "")))
  = ["questions.json"; "raw_pages.json"].
Proof. vm_compute. repeat split. Qed.

(** An input path that names the output directory does not exist
    before the run, but does when [process_pdf] tests it: the run fails
    in the library, not with [FileNotFoundError]. *)
Example main_on_its_own_directory :
  let args := {| Cli.pdf_path := "results"; Cli.method := "pymupdf";
                 Cli.output := "results/"; Cli.verbose := false |} in
  let out := Cli.main Cli.easy_host sample_env args Cli.shell0 in
  os_path_exists sample_env "results" = false /\
  snd out = Ok 1 /\
  stdout (Cli.world (fst out))
  = ["Created output directories: results";
     "Error: cannot open document"] /\
  In (INFO, "Starting PDF processing: results") (log (Cli.world (fst out))).
Proof. vm_compute. repeat split. left. reflexivity. Qed.

End Examples.

(* ===================================================================== *)
(** ** Properties of the grouping of lines *)
(* ===================================================================== *)

Module GroupingFacts.
Import PyStr PyStrFacts Segmenter SegmenterFacts Grouping.

Lemma lstrip_head_kept_id (s : string) : head_kept s -> lstrip s = s.
Proof. destruct s as [|c s]; simpl; [reflexivity|]. by intros ->. Qed.

Lemma rstrip_idem (s : string) : rstrip (rstrip s) = rstrip s.
Proof.
  induction s as [|c s IH]; [reflexivity|]. simpl.
  destruct (rstrip s) as [|d r] eqn:R.
  - destruct (is_space c) eqn:E; [reflexivity|]. simpl. by rewrite E.
  - change (rstrip (String c (String d r)))
      with (match rstrip (String d r) with
            | "" => if is_space c then "" else String c ""
            | String a b => String c (String a b)
            end).
    by rewrite IH.
Qed.

Lemma strip_trimmed (s : string) : trimmed (strip s).
Proof. split; [apply strip_head_kept | apply rstrip_idem]. Qed.

Lemma trimmed_strip (s : string) : trimmed s -> strip s = s.
Proof. intros [Hh Hr]. unfold strip. by rewrite lstrip_head_kept_id. Qed.

Lemma rstrip_app (a b : string) :
  b <> "" -> rstrip b = b -> rstrip (a ++ b) = a ++ b.
Proof.
  intros Hb Hr. induction a as [|c a IH]; [by rewrite append_nil|].
  rewrite append_cons. simpl. rewrite IH.
  destruct (a ++ b) eqn:E; [|reflexivity].
  destruct a; [rewrite append_nil in E; congruence | discriminate].
Qed.

(** Appending one space and a trimmed, non-blank line to a trimmed,
    non-blank text gives a trimmed text. *)
Lemma trimmed_extend (cq line : string) :
  trimmed cq -> cq <> "" -> trimmed line -> line <> "" ->
  trimmed (cq ++ " " ++ line).
Proof.
  intros [Hh _] Hne [_ Hr] Hl. split; [by apply head_kept_app|].
  apply rstrip_app.
  - discriminate.
  - change (" " ++ line) with (String " " line). simpl. rewrite Hr.
    by destruct line.
Qed.

Lemma concat_extend (cq line : string) (rest : list string) :
  String.concat " " ((cq ++ " " ++ line) :: rest)
  = String.concat " " (cq :: line :: rest).
Proof.
  destruct rest as [|x rest]; [reflexivity|].
  change (String.concat " " ((cq ++ " " ++ line) :: x :: rest))
    with ((cq ++ " " ++ line) ++ " " ++ String.concat " " (x :: rest)).
  change (String.concat " " (cq :: line :: x :: rest))
    with (cq ++ " " ++ line ++ " " ++ String.concat " " (x :: rest)).
  by rewrite !append_assoc.
Qed.

Lemma question_of_extend (pool : list string) (cq line : string)
    (rest : list string) :
  question_of pool ((cq ++ " " ++ line) :: rest)
  = question_of pool (cq :: line :: rest).
Proof. unfold question_of. by rewrite concat_extend. Qed.

Lemma truthy_app (a b : string) : truthy a = true -> truthy (a ++ b) = true.
Proof. by destruct a. Qed.

Lemma pool_images (pool : list string) :
  match (match pool with [] => [] | _ => take 1 pool end) with
  | i :: _ => i
  | [] => ""
  end
  = match pool with i :: _ => i | [] => "" end.
Proof. by destruct pool. Qed.

Lemma pool_options (pool : list string) :
  (if (1 <? List.length pool)%nat then drop 1 pool else []) = drop 1 pool.
Proof. by destruct pool as [|a [|b pool]]. Qed.

(** The Question flushed for an open question that holds one group. *)
Lemma emit_tracked (pool : list string) (st : Locals) :
  locals_track pool st -> truthy (current_question st) = true ->
  emit st = question_of pool [current_question st].
Proof.
  intros H T. destruct (H T) as (Htr & Hq & Ho).
  unfold emit, question_of. rewrite Hq, Ho, pool_images, pool_options.
  by rewrite trimmed_strip.
Qed.

(** The line loop and the flush at the end of the page, from any state:
    the open question takes the lines before the next trigger line, and
    every later group gives one Question. *)
Lemma fold_line_step_groups (pool : list string) (raws : list string) :
  forall st,
    locals_track pool st ->
    flush (fold_left (line_step pool) raws st)
    = (questions st
       ++ (if truthy (current_question st)
           then [question_of pool
                   (current_question st
                    :: fst (groups (List.filter truthy (map strip raws))))]
           else [])
       ++ map (question_of pool)
              (snd (groups (List.filter truthy (map strip raws)))))%list.
Proof.
  induction raws as [|raw raws IH]; intros st Hst.
  - simpl. unfold flush.
    destruct (truthy (current_question st)) eqn:T.
    + by rewrite (emit_tracked pool st Hst T).
    + by rewrite app_nil_r.
  - simpl fold_left. simpl map. simpl List.filter.
    unfold line_step at 2.
    destruct (truthy (strip raw)) eqn:Tl; simpl negb; cbv iota.
    + simpl groups.
      destruct (groups (List.filter truthy (map strip raws)))
        as [lead gs] eqn:G.
      destruct (is_trigger (strip raw)) eqn:Tr.
      * rewrite IH.
        -- simpl. rewrite Tl. unfold flush.
           destruct (truthy (current_question st)) eqn:T.
           ++ rewrite (emit_tracked pool st Hst T), <- app_assoc.
              reflexivity.
           ++ reflexivity.
        -- intros _. simpl. split; [apply strip_trimmed | by split].
      * destruct (truthy (current_question st)) eqn:T.
        -- destruct (Hst T) as (Htr & Hq & Ho).
           rewrite IH.
           ++ simpl. rewrite truthy_app by exact T.
              by rewrite question_of_extend.
           ++ intros _. simpl. split; [|by split].
              apply trimmed_extend;
                [exact Htr | by apply truthy_true | apply strip_trimmed
                | by apply truthy_true].
        -- rewrite IH by exact Hst. rewrite T. reflexivity.
    + by rewrite IH.
Qed.

(** The lines before the first trigger line followed by the groups are
    the lines, in order; the groups are groups. *)
Lemma groups_partition (ls : list string) :
  ls = (fst (groups ls) ++ concat (snd (groups ls)))%list /\
  Forall (fun l => is_trigger l = false) (fst (groups ls)) /\
  Forall is_group (snd (groups ls)).
Proof.
  induction ls as [|l ls (E & Hlead & Hgs)]; simpl.
  - repeat split; constructor.
  - destruct (groups ls) as [lead gs]. simpl in *.
    destruct (is_trigger l) eqn:T; simpl.
    + split; [by rewrite E at 1|]. split; [constructor|].
      constructor; [|exact Hgs]. by exists l, lead.
    + split; [by rewrite E at 1|]. split; [by constructor | exact Hgs].
Qed.

Lemma groups_count (ls : list string) :
  List.length (snd (groups ls)) = List.length (List.filter is_trigger ls).
Proof.
  induction ls as [|l ls IH]; [reflexivity|]. simpl.
  destruct (groups ls) as [lead gs]. simpl in IH.
  destruct (is_trigger l); simpl; by rewrite IH.
Qed.

End GroupingFacts.

(* ===================================================================== *)
(** ** Properties of lines *)
(* ===================================================================== *)

Module LinesFacts.
Import PyStr PyStrFacts Segmenter Grouping GroupingFacts Lines.

Lemma has_char_app (c : ascii) (a b : string) :
  has_char c (a ++ b) = has_char c a || has_char c b.
Proof.
  induction a as [|d a IH]; [reflexivity|].
  rewrite append_cons. simpl. by rewrite IH, orb_assoc.
Qed.

Lemma has_char_lstrip (c : ascii) (s : string) :
  has_char c s = false -> has_char c (lstrip s) = false.
Proof.
  induction s as [|d s IH]; [reflexivity|]. simpl.
  intros [Hd Hs]%orb_false_iff.
  destruct (is_space d); [by apply IH|]. simpl. by rewrite Hd, Hs.
Qed.

Lemma has_char_rstrip (c : ascii) (s : string) :
  has_char c s = false -> has_char c (rstrip s) = false.
Proof.
  induction s as [|d s IH]; [reflexivity|]. simpl.
  intros [Hd Hs]%orb_false_iff. specialize (IH Hs).
  destruct (rstrip s) as [|e r].
  - destruct (is_space d); simpl; [reflexivity | by rewrite Hd].
  - simpl in *. by rewrite Hd, IH.
Qed.

Lemma has_char_strip (c : ascii) (s : string) :
  has_char c s = false -> has_char c (strip s) = false.
Proof. intros H. by apply has_char_rstrip, has_char_lstrip. Qed.

(** No field of [s.split(sep)] holds the separator. *)
Lemma split_fields (sep : ascii) (s : string) :
  Forall (fun l => has_char sep l = false) (split sep s).
Proof.
  induction s as [|c s IH]; simpl; [by repeat constructor|].
  destruct (Ascii.eqb c sep) eqn:E; [by constructor|].
  destruct (split sep s) as [|h t]; [by repeat constructor; simpl; rewrite E|].
  apply Forall_cons in IH as [Hh Ht].
  constructor; [simpl; by rewrite E, Hh | exact Ht].
Qed.

(** Every line the loop acts on is non-blank, trimmed and without line
    break. *)
Lemma visible_lines_spec (t : string) :
  Forall (fun l => l <> "" /\ trimmed l /\ has_char newline l = false)
         (visible_lines t).
Proof.
  unfold visible_lines. apply List.Forall_forall. intros l Hl.
  apply filter_In in Hl as [Hl Ht].
  apply in_map_iff in Hl as (raw & <- & Hraw).
  split; [by apply truthy_true|]. split; [apply strip_trimmed|].
  apply has_char_strip.
  pose proof (split_fields newline t) as Hf.
  rewrite List.Forall_forall in Hf. by apply Hf.
Qed.

(** Joining such lines with single spaces gives such a line. *)
Lemma concat_single_line (g : list string) :
  g <> [] ->
  Forall (fun l => l <> "" /\ trimmed l /\ has_char newline l = false) g ->
  String.concat " " g <> "" /\ trimmed (String.concat " " g) /\
  has_char newline (String.concat " " g) = false.
Proof.
  induction g as [|l g IH]; [congruence|]. intros _ Hg.
  apply Forall_cons in Hg as [(Hne & Htr & Hnl) Hg].
  destruct g as [|x g]; [by simpl|].
  destruct (IH ltac:(discriminate) Hg) as (Hne' & Htr' & Hnl').
  change (String.concat " " (l :: x :: g))
    with (l ++ " " ++ String.concat " " (x :: g)).
  split; [by destruct l|]. split.
  - by apply trimmed_extend.
  - rewrite !has_char_app, Hnl, Hnl'. reflexivity.
Qed.

Lemma groups_lines (ls : list string) (g : list string) :
  In g (snd (groups ls)) -> g <> [] /\ forall l, In l g -> In l ls.
Proof.
  destruct (groups_partition ls) as (E & _ & Hgs). intros Hg. split.
  - rewrite List.Forall_forall in Hgs.
    destruct (Hgs g Hg) as (t & body & -> & _). discriminate.
  - intros l Hl. rewrite E. apply in_or_app. right.
    apply in_concat. by exists g.
Qed.

End LinesFacts.

(* ===================================================================== *)
(** ** [str] and [Path] are inverse *)
(* ===================================================================== *)

Module PathlibFacts.
Import PyStr PyStrFacts Lines LinesFacts PurePath PathFacts.

Lemma split_app_sep (sep : ascii) (x rest : string) :
  has_char sep x = false ->
  split sep (x ++ String sep rest) = x :: split sep rest.
Proof.
  induction x as [|c x IH].
  - intros _. rewrite append_nil. simpl. by rewrite Ascii.eqb_refl.
  - rewrite append_cons. simpl.
    intros [Hc Hx]%orb_false_iff. by rewrite Hc, (IH Hx).
Qed.

Lemma split_concat (sep : ascii) (ps : list string) :
  ps <> [] ->
  List.Forall (fun x => has_char sep x = false) ps ->
  split sep (String.concat (String sep "") ps) = ps.
Proof.
  induction ps as [|x ps IH]; [done|]. intros _ H.
  apply List.Forall_cons_iff in H as [Hx Hps].
  destruct ps as [|y ps]; [by apply split_no_sep|].
  change (String.concat (String sep "") (x :: y :: ps))
    with (x ++ String sep "" ++ String.concat (String sep "") (y :: ps)).
  rewrite append_cons, append_nil, split_app_sep by exact Hx.
  by rewrite IH.
Qed.

(** The components of [Path(d)] hold no separator and are kept. *)
Lemma parts_of_string (d : string) :
  List.Forall (fun x => has_char slash x = false /\ kept x = true)
    (parts (of_string d)).
Proof.
  unfold of_string. simpl.
  apply List.Forall_forall. intros x Hx.
  apply filter_In in Hx as [Hx Hk]. split; [|exact Hk].
  pose proof (split_fields slash d) as H.
  rewrite List.Forall_forall in H. by apply H.
Qed.

Lemma anchor_of_cases (s : string) :
  anchor_of s = "" \/ anchor_of s = "/" \/ anchor_of s = "//".
Proof.
  destruct s as [|c1 [|c2 [|c3 r]]]; simpl;
    repeat match goal with
           | |- context [Ascii.eqb ?c slash] => destruct (Ascii.eqb c slash)
           end; auto.
Qed.

Lemma anchor_of_built (a body : string) :
  a = "" \/ a = "/" \/ a = "//" -> head_free body ->
  anchor_of (a ++ body) = a.
Proof.
  intros [-> | [-> | ->]] H.
  - rewrite append_nil.
    destruct body as [|c1 [|c2 [|c3 r]]]; simpl in *; by rewrite ?H.
  - change ("/" ++ body) with (String slash body).
    destruct body as [|c2 [|c3 r]]; simpl in *; by rewrite ?H.
  - change ("//" ++ body) with (String slash (String slash body)).
    destruct body as [|c3 r]; simpl in *; by rewrite ?H.
Qed.

Lemma parts_built (a body : string) :
  a = "" \/ a = "/" \/ a = "//" ->
  List.filter kept (split slash (a ++ body))
  = List.filter kept (split slash body).
Proof.
  intros [-> | [-> | ->]].
  - by rewrite append_nil.
  - change ("/" ++ body) with (String slash body). reflexivity.
  - change ("//" ++ body) with (String slash (String slash body)).
    reflexivity.
Qed.

Lemma filter_kept_id (ps : list string) :
  List.Forall (fun x => has_char slash x = false /\ kept x = true) ps ->
  List.filter kept ps = ps.
Proof.
  induction 1 as [|x ps [_ Hk] _ IH]; [reflexivity|].
  simpl. by rewrite Hk, IH.
Qed.

Lemma concat_head_free (ps : list string) :
  List.Forall (fun x => has_char slash x = false /\ kept x = true) ps ->
  head_free (String.concat "/" ps).
Proof.
  destruct 1 as [|x ps [Hs Hk] _]; [exact I|].
  destruct x as [|c x]; [discriminate|].
  simpl in Hs. apply orb_false_iff in Hs as [Hc _].
  destruct ps; exact Hc.
Qed.

(** [Path(str(p)) == p] for every path [p] made from a string. *)
Lemma of_string_to_string (d : string) :
  of_string (to_string (of_string d)) = of_string d.
Proof.
  pose proof (parts_of_string d) as Hps.
  pose proof (anchor_of_cases d) as Ha.
  assert (Hbody : of_string (anchor (of_string d)
                             ++ String.concat "/" (parts (of_string d)))
                  = of_string d).
  { unfold of_string at 1.
    rewrite anchor_of_built, parts_built
      by (exact Ha || by apply concat_head_free).
    destruct (parts (of_string d)) as [|x ps] eqn:E.
    - simpl. unfold of_string in E |- *. simpl in E. by rewrite E.
    - rewrite split_concat.
      + rewrite filter_kept_id by exact Hps.
        unfold of_string in E |- *. simpl in E. by rewrite E.
      + discriminate.
      + eapply List.Forall_impl; [|exact Hps]. by intros ? [? _]. }
  unfold to_string.
  destruct (anchor (of_string d)) as [|c a] eqn:Ea;
    destruct (parts (of_string d)) as [|x ps] eqn:Ep;
    exact Hbody.
Qed.

(** The strings the code builds from its [Path] objects. *)
Lemma path_join_to_string (d name : string) :
  path_join (to_string (of_string d)) name
  = to_string (div (of_string d) name).
Proof. unfold path_join. by rewrite of_string_to_string. Qed.

End PathlibFacts.

(* ===================================================================== *)
(** ** More on what the backends write and return *)
(* ===================================================================== *)

Module BackendFacts.
Import PyStr PyStrFacts Segmenter SegmenterFacts Grouping GroupingFacts.
Import WorldFacts Raster RasterFacts.

(** Every Question of a sequence of pages carries the pool of one of
    them. *)
Lemma segment_pools (pages : list PageRecord) :
  Forall (fun q =>
            exists page,
              In page pages /\
              q_images q = match images page with i :: _ => i | [] => "" end
              /\ q_option_images q = drop 1 (images page))
         (segment pages).
Proof.
  rewrite segment_concat.
  apply List.Forall_forall. intros q Hq.
  apply in_concat in Hq as (qs & Hqs & Hq).
  apply in_map_iff in Hqs as (page & <- & Hpage).
  unfold page_questions, page_step in Hq.
  rewrite fold_line_step_groups in Hq by (intros T; discriminate).
  simpl in Hq. apply in_map_iff in Hq as (g & <- & _).
  by exists page.
Qed.

(** The paths of the files written for some pages are the [images] of
    their records, page after page. *)
Lemma doc_slots_paths (self : Env) (pages : list Fitz.Page) :
  forall k,
    map sv_path (map (slot_save self) (doc_slots k pages))
    = concat (map images (doc_records self k pages)).
Proof.
  induction pages as [|page pages IH]; intros k; [reflexivity|].
  rewrite doc_slots_cons, !map_app, IH. simpl.
  f_equal. by rewrite map_map.
Qed.

(** The page loop stops at the first page that cannot be read, with the
    files of the pages before it written. *)
Lemma fitz_page_loop_stops (self : Env) (good : list Fitz.Page) :
  forall (pre : list Fitz.Page) (bad : Fitz.Page) (post : list Fitz.Page)
         (acc : list PageRecord) (w : World),
    forallb readable good = true -> readable bad = false ->
    exists w' e,
      for_each (seq (List.length pre) (List.length (good ++ bad :: post)))
        (fitz_page_body self (pre ++ good ++ bad :: post)) acc w
      = (w', Raise e) /\
      saves_only w w'
        (map (slot_save self) (doc_slots (List.length pre) good)).
Proof.
  induction good as [|g good IH]; intros pre bad post acc w Hgood Hbad.
  - simpl List.length. simpl seq. rewrite for_each_cons.
    assert (Hpage : (pre ++ [] ++ bad :: post)%list !! List.length pre
                    = Some bad) by (by apply list_lookup_middle).
    pose proof (fitz_page_body_spec self _ _ _ acc w Hpage) as Hbody.
    rewrite Hbad in Hbody. destruct Hbody as (e & ->).
    exists w, e. split; [reflexivity | apply saves_only_refl].
  - simpl in Hgood. apply andb_true_iff in Hgood as [Hg Hgood].
    simpl List.length. simpl seq. rewrite for_each_cons.
    assert (Hpage : (pre ++ (g :: good) ++ bad :: post)%list
                      !! List.length pre = Some g)
      by (by apply list_lookup_middle).
    pose proof (fitz_page_body_spec self _ _ _ acc w Hpage) as Hbody.
    rewrite Hg in Hbody. destruct Hbody as (w1 & -> & H1).
    specialize (IH (pre ++ [g])%list bad post
                   (acc ++ [page_record self (List.length pre) g])%list
                   w1 Hgood Hbad).
    rewrite length_app, Nat.add_1_r, <- app_assoc in IH. simpl in IH.
    destruct IH as (w2 & e & E2 & H2).
    exists w2, e. split; [exact E2|].
    rewrite doc_slots_cons, map_app.
    eapply saves_only_trans; [apply H1 | exact H2].
Qed.

(** The whole call on a document whose first unreadable page comes after
    the pages [good]. *)
Lemma extract_with_pymupdf_stops (self : Env) (pdf_path : string)
    (f : PdfFile) (good : list Fitz.Page) (bad : Fitz.Page)
    (post : list Fitz.Page) (w : World) :
  PYMUPDF_AVAILABLE self = true ->
  fs self !! pdf_path = Some f ->
  fitz_view f = Some (good ++ bad :: post)%list ->
  forallb readable good = true -> readable bad = false ->
  exists w' e,
    extract_with_pymupdf self pdf_path w = (w', Raise e) /\
    saved w' = (saved w ++ map (slot_save self) (doc_slots 0 good))%list /\
    opened w' = S (opened w) /\ released w' = released w /\
    json_files w' = json_files w.
Proof.
  intros Havail Hfs Hview Hgood Hbad.
  remember (extract_with_pymupdf self pdf_path w) as out eqn:Eout.
  unfold extract_with_pymupdf in Eout. rewrite Havail in Eout.
  change (negb true) with false in Eout. cbv iota in Eout.
  rewrite bind_unfold in Eout.
  destruct (logger_spec INFO
    ("Extracting content from " ++ pdf_path ++ " using PyMuPDF") w)
    as (w0 & E0 & H0).
  rewrite E0 in Eout.
  unfold try_except, fitz_open in Eout. rewrite Hfs, Hview in Eout.
  rewrite !bind_unfold in Eout.
  destruct (acquire_handle_spec w0) as (w1 & E1 & H1).
  rewrite E1 in Eout. cbv beta iota delta [ret] in Eout.
  rewrite bind_unfold in Eout.
  destruct (fitz_page_loop_stops self good [] bad post [] w1 Hgood Hbad)
    as (w2 & e & E2 & H2).
  simpl in E2, H2. rewrite E2 in Eout.
  rewrite bind_unfold in Eout.
  destruct (logger_spec ERROR
    ("Error extracting with PyMuPDF: " ++ str_exn e) w2)
    as (w3 & E3 & H3).
  rewrite E3 in Eout. cbv beta iota delta [raise] in Eout. subst out.
  exists w3, e. split; [reflexivity|].
  split; [world_chain|]. split; [world_chain|]. split; world_chain.
Qed.


Lemma extract_with_pdfplumber_frame (self : Env) (pdf_path : string)
    (w : World) :
  let w' := fst (extract_with_pdfplumber self pdf_path w) in
  open_handles w' = open_handles w /\ saved w' = saved w /\
  json_files w' = json_files w /\ stdout w' = stdout w.
Proof.
  unfold open_handles.
  destruct (GeometryFacts.plumber_opened_or_not self pdf_path)
    as [(f & pdf & Ha & Hfs & Hv) | Hno].
  - destruct (GeometryFacts.extract_with_pdfplumber_opened
                self pdf_path f pdf w Ha Hfs Hv)
      as (w' & Ho & Hr & Hs & Hj & Hst & [(_ & ->) | (_ & e & ->)]);
      simpl; rewrite Ho, Hr; by repeat split.
  - destruct (GeometryFacts.extract_with_pdfplumber_not_opened
                self pdf_path w Hno) as (w' & e & -> & Hw). simpl.
    destruct Hw as (-> & -> & Hs & ? & ?). rewrite app_nil_r in Hs.
    by repeat split.
Qed.

End BackendFacts.

(* ===================================================================== *)
(** ** Properties of the pipeline of [process_pdf] *)
(* ===================================================================== *)

Module PipelineFacts.
Import PyStr WorldFacts Raster RasterFacts BackendFacts Pipeline.

(** A call of the rasterizing backend that returns: the handle it
    acquired is released, and the files it wrote are those listed in the
    records. *)
Lemma extract_with_pymupdf_ok_world (self : Env) (pdf_path : string)
    (w w' : World) (recs : list PageRecord) :
  extract_with_pymupdf self pdf_path w = (w', Ok recs) ->
  opened w' = S (opened w) /\ released w' = S (released w) /\
  json_files w' = json_files w /\ stdout w' = stdout w /\
  exists new,
    saved w' = (saved w ++ new)%list /\
    map sv_path new = concat (map images recs).
Proof.
  intros E.
  destruct (extract_with_pymupdf_ok_inv self pdf_path w w' recs E)
    as (f & doc & Ha & Hfs & Hv & _ & ->).
  destruct (extract_with_pymupdf_opened self pdf_path f doc w Ha Hfs Hv)
    as (w1 & new & Hs & _ & Ho & Hj & Hst &
        [(_ & -> & Hr & E1) | (_ & _ & e & E1)]);
    rewrite E1 in E; [|discriminate].
  injection E as <-.
  repeat (split; [assumption|]).
  eexists. split; [exact Hs | apply doc_slots_paths].
Qed.

Lemma extract_with_pdfplumber_ok_world (self : Env) (pdf_path : string)
    (w w' : World) (recs : list PageRecord) :
  extract_with_pdfplumber self pdf_path w = (w', Ok recs) ->
  opened w' = S (opened w) /\ released w' = S (released w) /\
  json_files w' = json_files w /\ stdout w' = stdout w /\
  saved w' = saved w.
Proof.
  intros E.
  destruct (GeometryFacts.extract_with_pdfplumber_ok_inv
              self pdf_path w w' recs E)
    as (f & pdf & Ha & Hfs & Hv & _ & ->).
  destruct (GeometryFacts.extract_with_pdfplumber_opened
              self pdf_path f pdf w Ha Hfs Hv)
    as (w1 & Ho & Hr & Hs & Hj & Hst & [(_ & E1) | (_ & e & E1)]);
    rewrite E1 in E; [|discriminate].
  injection E as <-. by repeat split.
Qed.

(** Saving one JSON file: it is written, logged and announced, or the
    error is logged and raised again with nothing written. *)
Lemma save_json_output_spec (self : Env) (data : JsonData)
    (filename : string) (w : World) :
  exists w',
    opened w' = opened w /\ released w' = released w /\
    saved w' = saved w /\
    if json_writable self (path_join (output_dir self) filename) then
      save_json_output self data filename w = (w', Ok tt) /\
      json_files w'
      = (json_files w
         ++ [(path_join (output_dir self) filename, data)])%list /\
      stdout w'
      = (stdout w
         ++ [String.append "JSON output saved to: "
               (path_join (output_dir self) filename)])%list
    else
      save_json_output self data filename w
      = (w', Raise (Exn OSError "cannot write file")) /\
      json_files w' = json_files w /\ stdout w' = stdout w.
Proof.
  exists (fst (save_json_output self data filename w)).
  unfold save_json_output, try_except.
  destruct (json_writable self (path_join (output_dir self) filename));
    simpl; by repeat split.
Qed.

Lemma process_pdf_unfold (self : Env) (pdf_path method : string)
    (w : World) :
  os_path_exists self pdf_path = true ->
  process_pdf self pdf_path method w
  = (let* _ := logger INFO ("Starting PDF processing: " ++ pdf_path) in
     let* page_data := dispatch self pdf_path method in
     finish self page_data) w.
Proof. intros H. unfold process_pdf. by rewrite H. Qed.

(** The steps after extraction: both files are written, the one of the
    questions first, and the Questions returned; or the first file that
    cannot be written stops the call. *)
Lemma finish_spec (self : Env) (page_data : list PageRecord) (w : World) :
  exists w',
    opened w' = opened w /\ released w' = released w /\
    saved w' = saved w /\
    if json_writable self (questions_json self) then
      if json_writable self (raw_pages_json self) then
        finish self page_data w = (w', Ok (Segmenter.segment page_data)) /\
        json_files w'
        = (json_files w
           ++ [(questions_json self,
                JQuestions (Segmenter.segment page_data));
               (raw_pages_json self, JPages page_data)])%list
      else
        finish self page_data w
        = (w', Raise (Exn OSError "cannot write file")) /\
        json_files w'
        = (json_files w
           ++ [(questions_json self,
                JQuestions (Segmenter.segment page_data))])%list
    else
      finish self page_data w
      = (w', Raise (Exn OSError "cannot write file")) /\
      json_files w' = json_files w.
Proof.
  remember (finish self page_data w) as out eqn:Eout.
  unfold finish, parse_math_questions in Eout.
  rewrite !bind_unfold in Eout.
  destruct (logger_spec INFO
    ("Parsed "
     ++ PyStr.of_nat (List.length (Segmenter.segment page_data))
     ++ " questions from the PDF") w) as (w0 & E0 & H0).
  rewrite E0 in Eout. cbv beta iota delta [ret] in Eout.
  rewrite bind_unfold in Eout.
  destruct (save_json_output_spec self
              (JQuestions (Segmenter.segment page_data))
              "questions.json" w0) as (w1 & Ho1 & Hr1 & Hs1 & Hq).
  unfold questions_json, raw_pages_json.
  destruct (json_writable self
              (path_join (output_dir self) "questions.json")).
  - destruct Hq as (E1 & Hj1 & _). rewrite E1 in Eout.
    cbv beta iota in Eout. rewrite bind_unfold in Eout.
    destruct (save_json_output_spec self (JPages page_data)
                "raw_pages.json" w1) as (w2 & Ho2 & Hr2 & Hs2 & Hp).
    destruct (json_writable self
                (path_join (output_dir self) "raw_pages.json")).
    + destruct Hp as (E2 & Hj2 & _). rewrite E2 in Eout.
      cbv beta iota in Eout. subst out. exists w2.
      split; [world_chain|]. split; [world_chain|]. split; [world_chain|].
      split; [reflexivity|].
      destruct H0 as (_ & _ & _ & Hj0 & _).
      by rewrite Hj2, Hj1, Hj0, <- app_assoc.
    + destruct Hp as (E2 & Hj2 & _). rewrite E2 in Eout.
      subst out. exists w2.
      split; [world_chain|]. split; [world_chain|]. split; [world_chain|].
      split; [reflexivity|].
      destruct H0 as (_ & _ & _ & Hj0 & _).
      by rewrite Hj2, Hj1, Hj0.
  - destruct Hq as (E1 & Hj1 & _). rewrite E1 in Eout.
    subst out. exists w1.
    split; [world_chain|]. split; [world_chain|]. split; [world_chain|].
    split; [reflexivity|].
    destruct H0 as (_ & _ & _ & Hj0 & _).
    by rewrite Hj1, Hj0.
Qed.

(** A call of [process_pdf] that returns. *)
Lemma process_pdf_ok_inv
    (self : Env) (pdf_path method : string) (w w' : World)
    (qs : list Question) :
  process_pdf self pdf_path method w = (w', Ok qs) ->
  exists pages w0 w1,
    os_path_exists self pdf_path = true /\
    (lower method = "pymupdf" /\
     extract_with_pymupdf self pdf_path w0 = (w1, Ok pages)
     \/
     lower method = "pdfplumber" /\
     extract_with_pdfplumber self pdf_path w0 = (w1, Ok pages)) /\
    qs = Segmenter.segment pages /\
    json_files w'
    = (json_files w
       ++ [(path_join (output_dir self) "questions.json", JQuestions qs);
           (path_join (output_dir self) "raw_pages.json", JPages pages)])%list
    /\ open_handles w' = open_handles w.
Proof.
  intros E.
  destruct (os_path_exists self pdf_path) eqn:Hex;
    [|unfold process_pdf in E; rewrite Hex in E; discriminate].
  rewrite process_pdf_unfold in E by exact Hex.
  rewrite bind_unfold in E.
  destruct (logger_spec INFO
              ("Starting PDF processing: " ++ pdf_path) w)
    as (w0 & E0 & H0).
  rewrite E0, bind_unfold in E.
  destruct (dispatch self pdf_path method w0)
    as [w1 [pages|e]] eqn:Ed; [|discriminate].
  destruct (finish_spec self pages w1)
    as (w2 & Ho & Hr & _ & Hfin).
  destruct (json_writable self (questions_json self));
    [destruct (json_writable self (raw_pages_json self))|];
    destruct Hfin as (Ef & Hj); rewrite Ef in E; try discriminate.
  injection E as <- <-.
  assert (Hw : opened w1 = S (opened w0) /\ released w1 = S (released w0)
               /\ json_files w1 = json_files w0 /\
               (lower method = "pymupdf" /\
                extract_with_pymupdf self pdf_path w0 = (w1, Ok pages)
                \/
                lower method = "pdfplumber" /\
                extract_with_pdfplumber self pdf_path w0 = (w1, Ok pages))).
  { unfold dispatch in Ed.
    destruct (String.eqb_spec (lower method) "pymupdf") as [Hm|_].
    - destruct (extract_with_pymupdf_ok_world _ _ _ _ _ Ed)
        as (? & ? & ? & _). repeat split; try assumption. by left.
    - destruct (String.eqb_spec (lower method) "pdfplumber")
        as [Hm|_]; [|discriminate].
      destruct (extract_with_pdfplumber_ok_world _ _ _ _ _ Ed)
        as (? & ? & ? & _). repeat split; try assumption. by right. }
  destruct Hw as (Ho1 & Hr1 & Hj1 & Hback).
  exists pages, w0, w1.
  split; [reflexivity|]. split; [exact Hback|]. split; [reflexivity|].
  destruct H0 as (Ho0 & Hr0 & _ & Hj0 & _).
  split.
  - rewrite Hj, Hj1, Hj0. reflexivity.
  - unfold open_handles. rewrite Ho, Hr, Ho1, Hr1, Ho0, Hr0. reflexivity.
Qed.

End PipelineFacts.

(* ===================================================================== *)
(** ** Properties of the construction and of [main] *)
(* ===================================================================== *)

Module CliFacts.
Import Cli CliSteps.

Lemma sbind_unfold {A B} (m : SM A) (k : A -> SM B) (s : Shell) :
  sbind m k s = match m s with
                | (s', Ok a) => k a s'
                | (s', Raise e) => (s', Raise e)
                end.
Proof. reflexivity. Qed.

Lemma quiet_refl (s : Shell) : quiet s s.
Proof. by repeat split. Qed.

Lemma quiet_trans (s1 s2 s3 : Shell) :
  quiet s1 s2 -> quiet s2 s3 -> quiet s1 s3.
Proof.
  unfold quiet. intros (?&?&?&?&?&?&?&?) (?&?&?&?&?&?&?&?).
  repeat split; congruence.
Qed.

Lemma lift_print_spec (msg : string) (s : Shell) :
  exists s',
    lift (print msg) s = (s', Ok tt) /\ quiet s s' /\
    stdout (world s') = (stdout (world s) ++ [msg])%list.
Proof. eexists. split; [reflexivity|]. by repeat split. Qed.

(** The directories: both are made, the output directory first, or the
    call raises the wrapped [OSError]. *)
Lemma create_directories_spec (host : Host) (self : Env) (s : Shell) :
  if mkdir_ok host (output_dir self) && mkdir_ok host (images_dir self)
  then
    exists s',
      _create_directories host self s = (s', Ok tt) /\
      made_dirs s'
      = (made_dirs s ++ [output_dir self; images_dir self])%list /\
      log_files s' = log_files s /\
      opened (world s') = opened (world s) /\
      released (world s') = released (world s) /\
      saved (world s') = saved (world s) /\
      json_files (world s') = json_files (world s) /\
      leftovers (world s') = leftovers (world s)
  else
    exists s',
      _create_directories host self s
      = (s', Raise (Exn OSError
                      ("Failed to create directories: "
                       ++ "cannot create directory"))) /\
      log_files s' = log_files s /\ world s' = world s /\
      made_dirs s'
      = (made_dirs s
         ++ (if mkdir_ok host (output_dir self)
             then [output_dir self] else []))%list.
Proof.
  unfold _create_directories, stry, sbind, mkdir.
  destruct (mkdir_ok host (output_dir self)) eqn:H1;
    [destruct (mkdir_ok host (images_dir self)) eqn:H2|];
    simpl andb; cbv iota; rewrite ?H2.
  - eexists. split; [reflexivity|]. simpl.
    rewrite <- app_assoc. by repeat split.
  - eexists. split; [reflexivity|]. by repeat split.
  - eexists. split; [reflexivity|]. simpl. rewrite app_nil_r.
    by repeat split.
Qed.

Lemma images_dir_with_output_dir (amb : Env) (d : string) :
  images_dir (with_output_dir amb (dir_of d)) = images_of d.
Proof. apply PathlibFacts.path_join_to_string. Qed.

Lemma file_of_path_join (d name : string) :
  path_join (dir_of d) name = file_of d name.
Proof. apply PathlibFacts.path_join_to_string. Qed.

(** The constructor: directories, then the log file. *)
Lemma init_spec (host : Host) (amb : Env) (d : string) (s : Shell) :
  if can_set_up host d then
    exists s',
      __init__ host amb d s = (s', Ok (with_output_dir amb (dir_of d))) /\
      made_dirs s' = (made_dirs s ++ [dir_of d; images_of d])%list /\
      log_files s' = (log_files s ++ [log_of d])%list /\
      opened (world s') = opened (world s) /\
      released (world s') = released (world s) /\
      saved (world s') = saved (world s) /\
      json_files (world s') = json_files (world s) /\
      leftovers (world s') = leftovers (world s)
  else
    exists s' e,
      __init__ host amb d s = (s', Raise e) /\
      exn_class e = OSError /\
      opened (world s') = opened (world s) /\
      released (world s') = released (world s) /\
      saved (world s') = saved (world s) /\
      json_files (world s') = json_files (world s) /\
      (mkdir_ok host (dir_of d) && mkdir_ok host (images_of d) = false ->
       log_files s' = log_files s /\
       e = Exn OSError ("Failed to create directories: "
                        ++ "cannot create directory")).
Proof.
  unfold can_set_up, __init__. cbv zeta. fold (dir_of d).
  rewrite sbind_unfold.
  pose proof (create_directories_spec host (with_output_dir amb (dir_of d)) s)
    as Hc.
  rewrite images_dir_with_output_dir in Hc.
  change (output_dir (with_output_dir amb (dir_of d))) with (dir_of d) in Hc.
  destruct (mkdir_ok host (dir_of d) && mkdir_ok host (images_of d))
    eqn:Hm.
  - destruct Hc as (s1 & -> & Hd & Hl & Ho & Hr & Hs & Hj & Hlf).
    rewrite sbind_unfold. unfold _setup_logging, FileHandler.
    change (output_dir (with_output_dir amb (dir_of d))) with (dir_of d).
    rewrite file_of_path_join.
    change (file_of d "extraction.log") with (log_of d).
    destruct (log_file_ok host (log_of d)); simpl andb; cbv iota.
    + eexists. split; [reflexivity|]. simpl. rewrite Hl.
      by repeat split.
    + eexists _, _. split; [reflexivity|]. split; [reflexivity|].
      repeat (split; [assumption|]). discriminate.
  - simpl andb. cbv iota.
    destruct Hc as (s1 & -> & Hl & Hw & _).
    eexists _, _. split; [reflexivity|]. split; [reflexivity|].
    rewrite Hw. repeat (split; [reflexivity|]).
    intros _. by split.
Qed.

(** The four lines printed after a successful run. *)
Lemma main_report_spec (questions : list Question) (args : Args)
    (s : Shell) :
  exists s',
    (let+ _ := lift (print (nl ++ "Extraction completed successfully!")) in
     let+ _ := lift (print ("- Total questions found: "
                            ++ PyStr.of_nat (List.length questions))) in
     let+ _ := lift (print ("- Output directory: " ++ output args)) in
     let+ _ := lift (print ("- Method used: " ++ method args)) in
     sret 0) s = (s', Ok 0) /\ quiet s s'.
Proof. eexists. split; [reflexivity|]. by repeat split. Qed.

(** What a method finds at its path is what the file system holds at
    the file the path resolves to. *)
Lemma seen_lookup (host : Host) (fsys : gmap string PdfFile)
    (path : string) :
  seen host fsys path !! path = fsys !! resolve host path.
Proof.
  unfold seen. destruct (fsys !! resolve host path).
  - apply lookup_singleton_eq.
  - apply lookup_empty.
Qed.

Lemma os_path_exists_at_call (host : Host) (self : Env) (s : Shell)
    (path : string) :
  os_path_exists (at_call host self s path) path
  = match files host (fs self) (made_dirs s) (log_files s)
          !! resolve host path with
    | Some _ => true
    | None => false
    end.
Proof. unfold os_path_exists, at_call. simpl. by rewrite seen_lookup. Qed.

(** The [try] block of [main]: it gives 0 when the extractor can be set
    up and [process_pdf] returns, and raises otherwise. *)
Lemma main_try_spec (host : Host) (amb : Env) (args : Args) (s : Shell) :
  (exists s1 s' w2 qs,
     __init__ host amb (output args) s
     = (s1, Ok (with_output_dir amb (dir_of (output args)))) /\
     process_pdf
       (at_call host (with_output_dir amb (dir_of (output args))) s1
          (pdf_path args))
       (pdf_path args) (method args) (world s1) = (w2, Ok qs) /\
     main_try host amb args s = (s', Ok 0) /\
     quiet {| world := w2; made_dirs := made_dirs s1;
              log_files := log_files s1 |} s')
  \/ (exists s' e, main_try host amb args s = (s', Raise e)).
Proof.
  remember (main_try host amb args s) as out eqn:Eo.
  unfold main_try in Eo. rewrite sbind_unfold in Eo.
  pose proof (init_spec host amb (output args) s) as Hi.
  destruct (can_set_up host (output args)).
  - destruct Hi as (s1 & Ei & _). rewrite Ei in Eo.
    rewrite sbind_unfold in Eo. unfold call at 1, lift at 1 in Eo.
    destruct (process_pdf
                (at_call host (with_output_dir amb (dir_of (output args)))
                   s1 (pdf_path args))
                (pdf_path args) (method args) (world s1))
      as [w2 [qs|e]] eqn:Ep.
    + left.
      destruct (main_report_spec qs args
                  {| world := w2; made_dirs := made_dirs s1;
                     log_files := log_files s1 |}) as (s' & Er & Hq).
      rewrite Er in Eo. subst out.
      exists s1, s', w2, qs.
      split; [exact Ei|]. split; [exact Ep|].
      split; [reflexivity | exact Hq].
    + right. subst out. eexists _, _. reflexivity.
  - destruct Hi as (s1 & e & Ei & _). rewrite Ei in Eo.
    right. subst out. eexists _, _. reflexivity.
Qed.

Lemma main_unfold (host : Host) (amb : Env) (args : Args) (s : Shell) :
  main host amb args s
  = if library_missing amb args then
      (if String.eqb (method args) "pymupdf"
          && negb (PYMUPDF_AVAILABLE amb)
       then
         (let+ _ := lift (print
            "Error: PyMuPDF is not installed. Install with: pip install PyMuPDF")
          in sret 1) s
       else
         (let+ _ := lift (print
            "Error: pdfplumber is not installed. Install with: pip install pdfplumber")
          in sret 1) s)
    else
      (let+ _ :=
         (if negb (PILLOW_AVAILABLE host)
          then lift (print
            "Warning: Pillow is not installed. Image processing may be limited.")
          else sret tt) in
       stry (main_try host amb args) main_except) s.
Proof.
  unfold main, library_missing.
  destruct (String.eqb (method args) "pymupdf"
            && negb (PYMUPDF_AVAILABLE amb)); [reflexivity|].
  destruct (String.eqb (method args) "pdfplumber"
            && negb (PDFPLUMBER_AVAILABLE amb)); reflexivity.
Qed.

(** The warning about Pillow changes nothing but the output. *)
Lemma pillow_warning_spec (host : Host) (s : Shell) :
  exists s0,
    (if negb (PILLOW_AVAILABLE host)
     then lift (print
       "Warning: Pillow is not installed. Image processing may be limited.")
     else sret tt) s = (s0, Ok tt) /\ quiet s s0.
Proof.
  destruct (PILLOW_AVAILABLE host); simpl negb; cbv iota.
  - exists s. split; [reflexivity | apply quiet_refl].
  - eexists. split; [reflexivity|]. by repeat split.
Qed.

End CliFacts.

(* ===================================================================== *)
(** ** Claims about the segmenter *)
(* ===================================================================== *)

Import PyStr Segmenter.

(** C2 (as stated, refuted): on the page with lines "Find the pattern."
    and "Continue: A B C ?" and image pool [img1, img2] the segmenter
    does not emit the two Questions of the scenario. *)
Lemma pattern_page_not_two_questions :
  segment [pattern_page "img1" "img2"]
  <> [ {| q_question := "Find the pattern."; q_images := "img1";
          q_option_images := ["img2"] |};
       {| q_question := "Continue: A B C ?"; q_images := "img1";
          q_option_images := ["img2"] |} ].
Proof. vm_compute. discriminate. Qed.

(** C2 (amended): on that page the segmenter emits exactly one Question.
    Only the first line holds a trigger keyword ("find"); the second line
    holds none and is appended to the open question after one space. The
    Question draws element 0 of the pool as its image and the elements
    from index 1 onward as its option images. *)
Theorem pattern_page_one_question (img1 img2 : string) :
  is_trigger "Find the pattern." = true /\
  is_trigger "Continue: A B C ?" = false /\
  segment [pattern_page img1 img2]
  = [ {| q_question := "Find the pattern. Continue: A B C ?";
         q_images := img1;
         q_option_images := [img2] |} ].
Proof. repeat split; reflexivity. Qed.

(** C7: a page none of whose lines holds one of the six trigger keywords
    (case-insensitive substring match) yields zero Questions: it adds
    nothing to the Questions of the pages around it. *)
Theorem keyword_free_page_yields_nothing (page : PageRecord) :
  (forall line, In line (split newline (text page)) -> no_keyword line) ->
  page_questions page = [] /\
  (forall qs, page_step qs page = qs) /\
  (forall before after,
     segment (before ++ page :: after) = segment (before ++ after)).
Proof.
  intros H.
  assert (E : page_questions page = []).
  { unfold page_questions, page_step.
    rewrite SegmenterFacts.fold_line_step_idle; [reflexivity|].
    intros raw Hraw. apply SegmenterFacts.no_keyword_not_trigger, H, Hraw. }
  split; [exact E|]. split.
  - intros qs. rewrite SegmenterFacts.page_step_app, E. apply app_nil_r.
  - intros before after.
    rewrite !SegmenterFacts.segment_app.
    change (page :: after) with ([page] ++ after)%list.
    rewrite SegmenterFacts.segment_app.
    rewrite (SegmenterFacts.segment_concat [page]). simpl.
    rewrite E. reflexivity.
Qed.

Lemma keyword_free_page_yields_nothing_witness :
  (forall line, In line (split newline (text prose_page)) ->
     no_keyword line) /\
  page_questions prose_page = [].
Proof.
  assert (H : forall line, In line (split newline (text prose_page)) ->
                no_keyword line).
  { intros line Hl k Hk Hocc. apply PyStrFacts.contains_spec in Hocc.
    vm_compute in Hl.
    destruct Hl as [<-|[<-|[]]];
      repeat (destruct Hk as [<-|Hk]; [vm_compute in Hocc; discriminate|]);
      destruct Hk. }
  split; [exact H|].
  exact (proj1 (keyword_free_page_yields_nothing prose_page H)).
Defined.

(** C10: for every input sequence of PageRecords, every Question the
    segmenter emits has a non-empty question text. *)
Theorem emitted_question_text_nonempty (pages : list PageRecord) :
  Forall (fun q => q_question q <> "") (segment pages).
Proof.
  rewrite SegmenterFacts.segment_concat.
  induction pages as [|p pages IH]; simpl; [constructor|].
  apply Forall_app. split; [|exact IH].
  apply SegmenterFacts.page_questions_nonempty.
Qed.

(* ===================================================================== *)
(** ** Claims about segmentation as a method of the extractor *)
(* ===================================================================== *)

(** C9: segmentation is deterministic. The Questions returned by
    [parse_math_questions] are a function of the page sequence alone:
    they do not depend on the state of the world in which the call is
    made (two calls on the same sequence return the same Questions,
    whatever was logged, written or opened before each), and a second
    call made right after the first returns what the first returned. The
    call never raises. *)
Theorem parse_math_questions_deterministic
    (w w' : World) (page_data : list PageRecord) :
  snd (parse_math_questions page_data w)
  = Ok (Segmenter.segment page_data) /\
  snd (parse_math_questions page_data w')
  = snd (parse_math_questions page_data w) /\
  snd (parse_math_questions page_data
         (fst (parse_math_questions page_data w)))
  = snd (parse_math_questions page_data w).
Proof. repeat split. Qed.

(* ===================================================================== *)
(** ** Claims about extraction *)
(* ===================================================================== *)

(** C1 (as stated, refuted): the geometry-only backend returns, for a
    page that shows one image, a record whose [image_count] is 1 while
    its [images] field is empty. *)
Lemma pdfplumber_count_is_not_images_length :
  exists w' recs r,
    extract_with_pdfplumber sample_env "paper.pdf" world0 = (w', Ok recs) /\
    In r recs /\
    image_count r <> List.length (images r).
Proof.
  eexists _, _, _. split; [vm_compute; reflexivity|].
  split; [left; reflexivity|]. simpl. discriminate.
Qed.

(** C1 (amended): every PageRecord returned by the rasterizing backend
    has [image_count] equal to the length of its [images] field (and no
    [image_metadata] key); every PageRecord returned by the geometry-only
    backend has an empty [images] field and [image_count] equal to the
    length of its [image_metadata] field. *)
Theorem image_count_by_backend
    (self : Env) (pdf_path : string) (w w' : World)
    (recs : list PageRecord) :
  (extract_with_pymupdf self pdf_path w = (w', Ok recs) ->
   Forall (fun r => image_count r = List.length (images r) /\
                    image_metadata r = None) recs) /\
  (extract_with_pdfplumber self pdf_path w = (w', Ok recs) ->
   Forall (fun r => images r = [] /\
                    exists boxes, image_metadata r = Some boxes /\
                                  image_count r = List.length boxes) recs).
Proof.
  split; intros E.
  - apply RasterFacts.extract_with_pymupdf_ok_inv in E
      as (f & doc & _ & _ & _ & _ & ->).
    apply List.Forall_forall. intros r Hr.
    apply in_map_iff in Hr as (it & <- & _). by split.
  - apply GeometryFacts.extract_with_pdfplumber_ok_inv in E
      as (f & pdf & _ & _ & _ & _ & ->).
    apply List.Forall_forall. intros r Hr.
    apply in_map_iff in Hr as (it & <- & _).
    split; [reflexivity|]. eexists. split; [reflexivity|].
    simpl. by rewrite length_map.
Qed.

Lemma image_count_by_backend_witness :
  Forall (fun r => image_count r = List.length (images r) /\
                   image_metadata r = None)
    (Raster.doc_records sample_env 0
       [fitz_page " What is the next figure? "
          [good_image cmyk_alpha; corrupt_image; good_image rgb];
        fitz_page "Answers overleaf." []]) /\
  Forall (fun r => images r = [] /\
                   exists boxes, image_metadata r = Some boxes /\
                                 image_count r = List.length boxes)
    (Geometry.doc_records 0
       [plumber_page " What is the next figure? "
          [box [("x0", 10); ("y0", 20); ("x1", 110); ("y1", 80);
                ("width", 100); ("height", 60)]%Z];
        plumber_page "Answers overleaf." []]).
Proof.
  split.
  - refine (proj1 (image_count_by_backend sample_env "paper.pdf" world0
                     (fst (extract_with_pymupdf sample_env "paper.pdf" world0))
                     _) _).
    vm_compute. reflexivity.
  - refine (proj2 (image_count_by_backend sample_env "paper.pdf" world0
                     (fst (extract_with_pdfplumber sample_env "paper.pdf"
                             world0))
                     _) _).
    vm_compute. reflexivity.
Defined.

(** C3 (the code departs from it): on a document that opens and whose
    page cannot be read, [extract_with_pymupdf] lets the error propagate
    with the handle it acquired still open. *)
Theorem pymupdf_page_failure_leaves_handle_open :
  exists w' e,
    extract_with_pymupdf sample_env "damaged.pdf" world0 = (w', Raise e) /\
    opened w' = 1 /\ released w' = 0 /\ open_handles w' = 1.
Proof. eexists _, _. split; [vm_compute; reflexivity|]. by repeat split. Qed.

(** C4 (as stated, refuted): with a path that does not exist, an
    unrecognized variant does not fail with the variant error: the check
    of the path comes first. *)
Lemma missing_file_hides_bad_variant :
  exists w' e,
    process_pdf sample_env "missing.pdf" "xml" world0 = (w', Raise e) /\
    exn_class e = FileNotFoundError /\
    exn_class e <> ValueError.
Proof.
  eexists _, _. split; [vm_compute; reflexivity|].
  split; [reflexivity | discriminate].
Qed.

(** C4 (amended): for every path that does not exist, [process_pdf]
    fails with FileNotFoundError whatever the variant, and the world is
    untouched; for every existing path and every variant string whose
    lower-cased form is neither "pymupdf" nor "pdfplumber", it fails with
    ValueError, and no document handle is opened and no file written. *)
Theorem process_pdf_rejects_bad_input
    (self : Env) (pdf_path method : string) (w : World) :
  (os_path_exists self pdf_path = false ->
   process_pdf self pdf_path method w
   = (w, Raise (Exn FileNotFoundError
                  ("PDF file not found: " ++ pdf_path)))) /\
  (os_path_exists self pdf_path = true ->
   PyStr.lower method <> "pymupdf" ->
   PyStr.lower method <> "pdfplumber" ->
   exists w',
     process_pdf self pdf_path method w
     = (w', Raise (Exn ValueError
                     ("Unknown extraction method: " ++ method))) /\
     opened w' = opened w /\ released w' = released w /\
     saved w' = saved w /\ json_files w' = json_files w).
Proof.
  split.
  - intros H. unfold process_pdf. by rewrite H.
  - intros H Hm Hp. apply String.eqb_neq in Hm, Hp.
    remember (process_pdf self pdf_path method w) as out eqn:Eout.
    unfold process_pdf in Eout. rewrite H in Eout.
    change (negb true) with false in Eout. cbv iota in Eout.
    rewrite WorldFacts.bind_unfold in Eout.
    destruct (WorldFacts.logger_spec INFO
                ("Starting PDF processing: " ++ pdf_path) w)
      as (w0 & E0 & H0).
    rewrite E0, WorldFacts.bind_unfold, Hm, Hp in Eout.
    cbv beta iota delta [raise] in Eout. subst out.
    exists w0. split; [reflexivity|].
    destruct H0 as (? & ? & Hs & ? & _). rewrite app_nil_r in Hs.
    by repeat split.
Qed.

Lemma process_pdf_rejects_bad_input_witness :
  process_pdf sample_env "missing.pdf" "xml" world0
  = (world0, Raise (Exn FileNotFoundError
                      ("PDF file not found: " ++ "missing.pdf"))) /\
  exists w',
    process_pdf sample_env "paper.pdf" "xml" world0
    = (w', Raise (Exn ValueError ("Unknown extraction method: " ++ "xml")))
    /\ opened w' = opened world0 /\ released w' = released world0 /\
    saved w' = saved world0 /\ json_files w' = json_files world0.
Proof.
  split.
  - apply (proj1 (process_pdf_rejects_bad_input
                    sample_env "missing.pdf" "xml" world0)).
    vm_compute. reflexivity.
  - apply (proj2 (process_pdf_rejects_bad_input
                    sample_env "paper.pdf" "xml" world0)).
    + vm_compute. reflexivity.
    + vm_compute. discriminate.
    + vm_compute. discriminate.
Defined.

(** C6: for every document that opens, either backend returns exactly
    one PageRecord per page of the document, numbered 1, 2, ...,
    pageCount in order. The call returns unless a page-level call of the
    library raises on some page, in which case the error propagates and
    no records are returned. *)
Theorem page_records_cover_document
    (self : Env) (pdf_path : string) (f : PdfFile) (w : World) :
  fs self !! pdf_path = Some f ->
  (forall doc,
     PYMUPDF_AVAILABLE self = true -> fitz_view f = Some doc ->
     match snd (extract_with_pymupdf self pdf_path w) with
     | Ok recs =>
         List.length recs = List.length doc /\
         map page_number recs = seq 1 (List.length doc)
     | Raise _ =>
         exists page, In page doc /\ Raster.readable page = false
     end) /\
  (forall pdf,
     PDFPLUMBER_AVAILABLE self = true -> plumber_view f = Some pdf ->
     match snd (extract_with_pdfplumber self pdf_path w) with
     | Ok recs =>
         List.length recs = List.length pdf /\
         map page_number recs = seq 1 (List.length pdf)
     | Raise _ =>
         exists page, In page pdf /\ Geometry.readable page = false
     end).
Proof.
  intros Hfs. split.
  - intros doc Ha Hv.
    destruct (RasterFacts.extract_with_pymupdf_opened
                self pdf_path f doc w Ha Hfs Hv)
      as (w' & new & _ & _ & _ & _ & _ &
          [(_ & _ & _ & ->) | (Hall & _ & e & ->)]); simpl.
    + split; [apply RasterFacts.fitz_doc_records_length|].
      apply (RasterFacts.fitz_doc_records_numbers self doc 0).
    + by apply RasterFacts.fitz_unreadable_page.
  - intros pdf Ha Hv.
    destruct (GeometryFacts.extract_with_pdfplumber_opened
                self pdf_path f pdf w Ha Hfs Hv)
      as (w' & _ & _ & _ & _ & _ & [(_ & ->) | (Hall & e & ->)]); simpl.
    + split; [apply GeometryFacts.plumber_doc_records_length|].
      apply (GeometryFacts.plumber_doc_records_numbers pdf 0).
    + by apply GeometryFacts.plumber_unreadable_page.
Qed.

Lemma page_records_cover_document_witness :
  fs sample_env !! "paper.pdf" = Some paper_file /\
  match snd (extract_with_pymupdf sample_env "paper.pdf" world0) with
  | Ok recs => List.length recs = 2 /\ map page_number recs = [1; 2]
  | Raise _ => False
  end /\
  match snd (extract_with_pdfplumber sample_env "paper.pdf" world0) with
  | Ok recs => List.length recs = 2 /\ map page_number recs = [1; 2]
  | Raise _ => False
  end.
Proof.
  assert (Hfs : fs sample_env !! "paper.pdf" = Some paper_file)
    by (vm_compute; reflexivity).
  pose proof (page_records_cover_document
                sample_env "paper.pdf" paper_file world0 Hfs) as [Hf Hp].
  split; [exact Hfs|]. split.
  - specialize (Hf _ eq_refl eq_refl).
    destruct (snd (extract_with_pymupdf sample_env "paper.pdf" world0))
      eqn:E; [exact Hf|].
    vm_compute in E. discriminate.
  - specialize (Hp _ eq_refl eq_refl).
    destruct (snd (extract_with_pdfplumber sample_env "paper.pdf" world0))
      eqn:E; [exact Hp|].
    vm_compute in E. discriminate.
Defined.



(** C8: in the rasterizing variant every embedded image that is
    decoded, converted and saved, on a page the run goes through, gets
    its file: it is named page_N_image_M.png for the image of 1-based
    index M on the page of 1-based number N, it is encoded as PNG, and
    it holds the decoded pixmap, converted to three-channel RGB when its
    channel count minus alpha-presence exceeds 3. Conversely every file
    written is such a file (so at most three colour channels reach the
    encoder). A save that raises may leave its file behind; such a file
    bears the name of its own image. The name determines N and M, and
    the files created by one run, written or left behind, have pairwise
    distinct paths. *)
Theorem saved_images_are_png_with_distinct_names
    (self : Env) (pdf_path : string) (w : World) :
  exists new left,
    saved (fst (extract_with_pymupdf self pdf_path w))
    = (saved w ++ new)%list /\
    leftovers (fst (extract_with_pymupdf self pdf_path w))
    = (leftovers w ++ left)%list /\
    (forall f doc page_num page imgs img_index img pix,
       PYMUPDF_AVAILABLE self = true ->
       fs self !! pdf_path = Some f ->
       fitz_view f = Some doc ->
       forallb Raster.readable (take (S page_num) doc) = true ->
       doc !! page_num = Some page ->
       Fitz.get_images page = Some imgs ->
       imgs !! img_index = Some img ->
       Fitz.pixmap img = Some pix ->
       ((Fitz.n pix - Fitz.alpha pix >? 3)%Z = true ->
        Fitz.to_rgb_ok img = true) ->
       Fitz.save_ok img = true ->
       In {| sv_path :=
               path_join (images_dir self)
                 ("page_" ++ PyStr.of_nat (page_num + 1) ++ "_image_"
                  ++ PyStr.of_nat (img_index + 1) ++ ".png");
             sv_pixmap :=
               (if (Fitz.n pix - Fitz.alpha pix >? 3)%Z
                then Fitz.to_csRGB pix else pix);
             sv_format := Fitz.PNG |} new) /\
    Forall (fun sv =>
              sv_format sv = Fitz.PNG /\
              (Fitz.n (sv_pixmap sv) - Fitz.alpha (sv_pixmap sv) <= 3)%Z /\
              exists f doc,
                fs self !! pdf_path = Some f /\ fitz_view f = Some doc /\
                Raster.written_for self doc sv) new /\
    Forall (fun p =>
              exists f doc,
                fs self !! pdf_path = Some f /\ fitz_view f = Some doc /\
                Raster.left_for self doc p) left /\
    NoDup (map sv_path new ++ left) /\
    (forall N M N' M',
       image_name N M = image_name N' M' -> N = N' /\ M = M').
Proof.
  destruct (RasterFacts.fitz_opened_or_not self pdf_path)
    as [(f & doc & Ha & Hfs & Hv) | Hno].
  - destruct (RasterFacts.extract_with_pymupdf_run
                self pdf_path f doc w Ha Hfs Hv) as [Hs Hl].
    exists (map (Raster.slot_save self)
              (Raster.doc_slots 0 (Raster.reached doc))),
           (map (Raster.key_path self)
              (Raster.doc_lefts 0 (Raster.reached doc))).
    split; [exact Hs|]. split; [exact Hl|].
    split; [|split; [|split; [|split]]].
    + intros f' doc' page_num page imgs img_index img pix
        _ Hfs' Hv' Hr Hp Hi Hj Hpix Hc Hsv.
      rewrite Hfs in Hfs'. injection Hfs' as <-.
      rewrite Hv in Hv'. injection Hv' as <-.
      apply (RasterFacts.reached_lookup doc page_num page Hp) in Hr.
      pose proof (RasterFacts.materialized_intro img pix Hpix Hc Hsv)
        as Hm.
      assert (Hj' : Raster.page_images page !! img_index = Some img).
      { unfold Raster.page_images. by rewrite Hi. }
      pose proof (RasterFacts.doc_slots_intro (Raster.reached doc) 0
                    page_num page img_index img _ Hr Hj' Hm) as Hin.
      apply list_elem_of_In in Hin.
      apply (in_map (Raster.slot_save self)) in Hin. exact Hin.
    + apply List.Forall_forall. intros sv Hsv.
      apply in_map_iff in Hsv as (s & <- & Hs').
      assert (Hw : Raster.written_for self doc (Raster.slot_save self s)).
      { apply RasterFacts.doc_slot_written_for.
        eapply elem_of_sublist; [|apply RasterFacts.doc_slots_reached].
        by apply list_elem_of_In. }
      split; [reflexivity|]. split; [|by exists f, doc].
      destruct Hw as (_ & _ & _ & _ & _ & pix & _ & _ & _ & _ & _ & -> & _).
      apply RasterFacts.written_channels.
    + apply List.Forall_forall. intros p Hp.
      apply in_map_iff in Hp as (key & <- & Hk).
      exists f, doc. split; [exact Hfs|]. split; [exact Hv|].
      apply RasterFacts.doc_left_for.
      eapply elem_of_sublist; [|apply RasterFacts.doc_lefts_reached].
      by apply list_elem_of_In.
    + apply RasterFacts.created_paths_NoDup.
    + apply RasterFacts.image_name_inj.
  - destruct (RasterFacts.extract_with_pymupdf_not_opened
                self pdf_path w Hno) as (w' & e & E & Hw).
    pose proof (RasterFacts.extract_with_pymupdf_not_opened_leftovers
                  self pdf_path w Hno) as Hl.
    rewrite E in Hl |- *. simpl fst in *.
    exists [], []. rewrite !app_nil_r.
    split; [destruct Hw as (_ & _ & Hs & _); by rewrite Hs, app_nil_r|].
    split; [exact Hl|].
    split; [|split; [constructor|split; [constructor|split;
      [constructor | apply RasterFacts.image_name_inj]]]].
    intros f doc page_num page imgs img_index img pix Ha Hfs Hv.
    destruct Hno as [Hno|Hno]; [congruence|].
    rewrite Hfs in Hno. simpl in Hno. congruence.
Qed.

Lemma saved_images_are_png_with_distinct_names_witness :
  exists new left,
    saved (fst (extract_with_pymupdf press_env "smudged.pdf" world0))
    = ([] ++ new)%list /\
    leftovers (fst (extract_with_pymupdf press_env "smudged.pdf" world0))
    = ([] ++ left)%list /\
    In {| sv_path := "out/images/page_1_image_2.png";
          sv_pixmap := {| Fitz.n := 4; Fitz.alpha := 1 |};
          sv_format := Fitz.PNG |} new /\
    NoDup (map sv_path new ++ left).
Proof.
  destruct (saved_images_are_png_with_distinct_names
              press_env "smudged.pdf" world0)
    as (new & left & Hs & Hl & Hall & _ & _ & Hnd & _).
  exists new, left. split; [exact Hs|]. split; [exact Hl|].
  split; [|exact Hnd].
  apply (Hall smudged_file
           [fitz_page "Find the area."
              [unsaved_image; good_image cmyk_alpha]]
           0 (fitz_page "Find the area."
                [unsaved_image; good_image cmyk_alpha])
           [unsaved_image; good_image cmyk_alpha]
           1 (good_image cmyk_alpha) cmyk_alpha);
    reflexivity.
Defined.

(* ===================================================================== *)
(** ** Further properties of segmentation *)
(* ===================================================================== *)

(** X1: the Questions of a page are its lines grouped at the trigger
    lines. The stripped, non-blank lines of the page are some lines
    without trigger keyword followed by groups, each made of a trigger
    line and the lines up to the next trigger line; the page gives one
    Question per group, in order, whose text is the lines of the group
    joined by single spaces; the lines before the first trigger line are
    dropped. *)
Theorem page_questions_are_line_groups (page : PageRecord) :
  exists lead gs,
    Grouping.visible_lines (text page) = (lead ++ concat gs)%list /\
    Forall (fun l => is_trigger l = false) lead /\
    Forall Grouping.is_group gs /\
    page_questions page = map (Grouping.question_of (images page)) gs.
Proof.
  exists (fst (Grouping.groups (Grouping.visible_lines (text page)))),
         (snd (Grouping.groups (Grouping.visible_lines (text page)))).
  destruct (GroupingFacts.groups_partition
              (Grouping.visible_lines (text page))) as (E & Hl & Hg).
  split; [exact E|]. split; [exact Hl|]. split; [exact Hg|].
  unfold page_questions, page_step.
  rewrite GroupingFacts.fold_line_step_groups; [reflexivity|].
  intros T. discriminate.
Qed.

(** X2: pages are segmented independently and in order: the Questions of
    a sequence of pages are the Questions of each page, concatenated, so
    segmenting two sequences one after the other is segmenting their
    concatenation. *)
Theorem segment_is_per_page (before after : list PageRecord) :
  segment (before ++ after) = (segment before ++ segment after)%list /\
  segment before = concat (map page_questions before).
Proof.
  split; [apply SegmenterFacts.segment_app|].
  apply SegmenterFacts.segment_concat.
Qed.

(** X3: a page gives as many Questions as it has trigger lines. *)
Theorem question_count_is_trigger_count (page : PageRecord) :
  List.length (page_questions page)
  = List.length
      (List.filter is_trigger (Grouping.visible_lines (text page))).
Proof.
  unfold page_questions, page_step.
  rewrite GroupingFacts.fold_line_step_groups by (intros T; discriminate).
  simpl. by rewrite length_map, GroupingFacts.groups_count.
Qed.

(** X4: every Question carries the image pool of its own page. The
    Questions of a sequence of pages are the Questions of each page in
    turn, and each Question of a page has element 0 of the [images] of
    that page as its image (the empty string when the page has none)
    and the elements of that page from index 1 onward as its option
    images. *)
Theorem questions_carry_their_page_pool (pages : list PageRecord) :
  segment pages = concat (map page_questions pages) /\
  forall page,
    Forall (fun q =>
              q_images q = match images page with i :: _ => i | [] => "" end
              /\ q_option_images q = drop 1 (images page))
           (page_questions page).
Proof.
  split; [apply SegmenterFacts.segment_concat|].
  intros page. apply List.Forall_forall. intros q Hq.
  unfold page_questions, page_step in Hq.
  rewrite GroupingFacts.fold_line_step_groups in Hq
    by (intros T; discriminate).
  simpl in Hq. apply in_map_iff in Hq as (g & <- & _).
  by split.
Qed.

(** X5: the text of every Question is one trimmed line: it holds no
    line break, and [strip] leaves it as it is. *)
Theorem question_text_is_single_line (pages : list PageRecord) :
  Forall (fun q => Lines.single_line (q_question q)) (segment pages).
Proof.
  rewrite SegmenterFacts.segment_concat.
  apply List.Forall_forall. intros q Hq.
  apply in_concat in Hq as (qs & Hqs & Hq).
  apply in_map_iff in Hqs as (page & <- & _).
  unfold page_questions, page_step in Hq.
  rewrite GroupingFacts.fold_line_step_groups in Hq
    by (intros T; discriminate).
  simpl in Hq. apply in_map_iff in Hq as (g & <- & Hg).
  apply LinesFacts.groups_lines in Hg as [Hne Hsub].
  destruct (LinesFacts.concat_single_line g Hne) as (_ & Htr & Hnl).
  { apply List.Forall_forall. intros l Hl.
    pose proof (LinesFacts.visible_lines_spec (text page)) as Hv.
    rewrite List.Forall_forall in Hv. by apply Hv, Hsub. }
  split; [exact Hnl | by apply GroupingFacts.trimmed_strip].
Qed.

(* ===================================================================== *)
(** ** Further properties of extraction *)
(* ===================================================================== *)

(** X6: the [text] of every PageRecord returned by either backend is
    trimmed: [strip] leaves it as it is. *)
Theorem returned_text_is_trimmed
    (self : Env) (pdf_path : string) (w w' : World)
    (recs : list PageRecord) :
  extract_with_pymupdf self pdf_path w = (w', Ok recs) \/
  extract_with_pdfplumber self pdf_path w = (w', Ok recs) ->
  Forall (fun r => strip (text r) = text r) recs.
Proof.
  intros [E|E].
  - apply RasterFacts.extract_with_pymupdf_ok_inv in E
      as (f & doc & _ & _ & _ & _ & ->).
    apply List.Forall_forall. intros r Hr.
    apply in_map_iff in Hr as (it & <- & _). simpl.
    apply GroupingFacts.trimmed_strip, GroupingFacts.strip_trimmed.
  - apply GeometryFacts.extract_with_pdfplumber_ok_inv in E
      as (f & pdf & _ & _ & _ & _ & ->).
    apply List.Forall_forall. intros r Hr.
    apply in_map_iff in Hr as (it & <- & _). simpl.
    apply GroupingFacts.trimmed_strip, GroupingFacts.strip_trimmed.
Qed.

Lemma returned_text_is_trimmed_witness :
  Forall (fun r => strip (text r) = text r)
    (Raster.doc_records sample_env 0
       [fitz_page " What is the next figure? "
          [good_image cmyk_alpha; corrupt_image; good_image rgb];
        fitz_page "Answers overleaf." []]).
Proof.
  refine (returned_text_is_trimmed sample_env "paper.pdf" world0
            (fst (extract_with_pymupdf sample_env "paper.pdf" world0))
            _ (or_introl _)).
  vm_compute. reflexivity.
Defined.

(** X7: the Questions segmented from the pages of the geometry-only
    backend never carry an image: their image is the empty string and
    their option images are empty. *)
Theorem pdfplumber_questions_have_no_images
    (self : Env) (pdf_path : string) (w w' : World)
    (recs : list PageRecord) :
  extract_with_pdfplumber self pdf_path w = (w', Ok recs) ->
  Forall (fun q => q_images q = "" /\ q_option_images q = [])
         (segment recs).
Proof.
  intros E.
  apply GeometryFacts.extract_with_pdfplumber_ok_inv in E
    as (f & pdf & _ & _ & _ & _ & ->).
  eapply Forall_impl; [apply BackendFacts.segment_pools|].
  intros q (page & Hpage & Hi & Ho).
  apply in_map_iff in Hpage as (it & <- & _). simpl in Hi, Ho.
  by split.
Qed.

Lemma pdfplumber_questions_have_no_images_witness :
  Forall (fun q => q_images q = "" /\ q_option_images q = [])
    (segment
       (Geometry.doc_records 0
          [plumber_page " What is the next figure? "
             [box [("x0", 10); ("y0", 20); ("x1", 110); ("y1", 80);
                   ("width", 100); ("height", 60)]%Z];
           plumber_page "Answers overleaf." []])).
Proof.
  refine (pdfplumber_questions_have_no_images sample_env "paper.pdf" world0
            (fst (extract_with_pdfplumber sample_env "paper.pdf" world0))
            _ _).
  vm_compute. reflexivity.
Defined.

(** X8: whatever happens, a call of the geometry-only backend leaves no
    document handle open and creates no file: it changes nothing of the
    world but the log. *)
Theorem pdfplumber_leaves_no_trace
    (self : Env) (pdf_path : string) (w : World) :
  let w' := fst (extract_with_pdfplumber self pdf_path w) in
  open_handles w' = open_handles w /\ saved w' = saved w /\
  json_files w' = json_files w /\ stdout w' = stdout w /\
  leftovers w' = leftovers w.
Proof.
  pose proof (BackendFacts.extract_with_pdfplumber_frame self pdf_path w)
    as (Ho & Hs & Hj & Hst).
  repeat (split; [assumption|]).
  apply GeometryFacts.extract_with_pdfplumber_leftovers.
Qed.

(** X9: when the rasterizing backend returns, the image paths listed in
    the returned records, page after page, are exactly the paths of the
    image files written during the call, in the order they were
    written. The only other files the call creates are those left behind
    by saves that raised: each bears the name of an image of the
    document whose save failed and is listed in no record. The handle
    acquired is released. *)
Theorem pymupdf_records_list_written_files
    (self : Env) (pdf_path : string) (w w' : World)
    (recs : list PageRecord) :
  extract_with_pymupdf self pdf_path w = (w', Ok recs) ->
  exists new left,
    saved w' = (saved w ++ new)%list /\
    map sv_path new = concat (map images recs) /\
    leftovers w' = (leftovers w ++ left)%list /\
    Forall (fun p =>
              ~ In p (concat (map images recs)) /\
              exists f doc,
                fs self !! pdf_path = Some f /\ fitz_view f = Some doc /\
                Raster.left_for self doc p) left /\
    open_handles w' = open_handles w.
Proof.
  intros E.
  destruct (RasterFacts.extract_with_pymupdf_ok_inv
              self pdf_path w w' recs E)
    as (f & doc & Ha & Hfs & Hv & Hall & ->).
  destruct (RasterFacts.extract_with_pymupdf_run
              self pdf_path f doc w Ha Hfs Hv) as [Hs Hl].
  rewrite E, (RasterFacts.reached_all doc Hall) in Hs, Hl.
  simpl fst in Hs, Hl.
  exists (map (Raster.slot_save self) (Raster.doc_slots 0 doc)),
         (map (Raster.key_path self) (Raster.doc_lefts 0 doc)).
  split; [exact Hs|].
  split; [apply BackendFacts.doc_slots_paths|].
  split; [exact Hl|]. split.
  - apply List.Forall_forall. intros p Hp. split.
    + rewrite <- BackendFacts.doc_slots_paths. intros Hin.
      pose proof (RasterFacts.created_paths_NoDup self doc) as Hnd.
      apply NoDup_app in Hnd as (_ & Hdis & _).
      apply (Hdis p); by apply list_elem_of_In.
    + apply in_map_iff in Hp as (key & <- & Hk).
      exists f, doc. split; [exact Hfs|]. split; [exact Hv|].
      apply RasterFacts.doc_left_for. by apply list_elem_of_In.
  - apply PipelineFacts.extract_with_pymupdf_ok_world in E
      as (Ho & Hr & _).
    unfold open_handles. rewrite Ho, Hr. reflexivity.
Qed.

Lemma pymupdf_records_list_written_files_witness :
  exists new left,
    saved (fst (extract_with_pymupdf press_env "smudged.pdf" world0))
    = (saved world0 ++ new)%list /\
    map sv_path new = concat (map images
      (Raster.doc_records press_env 0
         [fitz_page "Find the area."
            [unsaved_image; good_image cmyk_alpha]])) /\
    leftovers (fst (extract_with_pymupdf press_env "smudged.pdf" world0))
    = (leftovers world0 ++ left)%list /\
    Forall (fun p =>
              ~ In p (concat (map images
                  (Raster.doc_records press_env 0
                     [fitz_page "Find the area."
                        [unsaved_image; good_image cmyk_alpha]]))) /\
              exists f doc,
                fs press_env !! "smudged.pdf" = Some f /\
                fitz_view f = Some doc /\
                Raster.left_for press_env doc p) left /\
    open_handles (fst (extract_with_pymupdf press_env "smudged.pdf" world0))
    = open_handles world0.
Proof.
  apply (pymupdf_records_list_written_files press_env "smudged.pdf" world0).
  vm_compute. reflexivity.
Defined.

(** X10: the rasterizing backend does not undo what it created. When
    the first page that cannot be read comes after the pages [good], the
    call raises; the image files of the pages [good] (those their
    records would have listed) stay written, the only other files are
    those left behind by saves that raised on these pages, and no JSON
    file is touched. *)
Theorem pymupdf_keeps_files_of_earlier_pages
    (self : Env) (pdf_path : string) (f : PdfFile)
    (good : list Fitz.Page) (bad : Fitz.Page) (post : list Fitz.Page)
    (w : World) :
  PYMUPDF_AVAILABLE self = true ->
  fs self !! pdf_path = Some f ->
  fitz_view f = Some (good ++ bad :: post)%list ->
  forallb Raster.readable good = true ->
  Raster.readable bad = false ->
  exists w' e new left,
    extract_with_pymupdf self pdf_path w = (w', Raise e) /\
    saved w' = (saved w ++ new)%list /\
    map sv_path new
    = concat (map images (Raster.doc_records self 0 good)) /\
    leftovers w' = (leftovers w ++ left)%list /\
    Forall (Raster.left_for self good) left /\
    json_files w' = json_files w.
Proof.
  intros Ha Hfs Hv Hgood Hbad.
  destruct (BackendFacts.extract_with_pymupdf_stops
              self pdf_path f good bad post w Ha Hfs Hv Hgood Hbad)
    as (w' & e & E & Hs & _ & _ & Hj).
  destruct (RasterFacts.extract_with_pymupdf_run
              self pdf_path f _ w Ha Hfs Hv) as [_ Hl].
  rewrite E, (RasterFacts.reached_stops good bad post Hgood Hbad) in Hl.
  simpl fst in Hl.
  exists w', e, (map (Raster.slot_save self) (Raster.doc_slots 0 good)),
    (map (Raster.key_path self) (Raster.doc_lefts 0 good)).
  split; [exact E|]. split; [exact Hs|].
  split; [apply BackendFacts.doc_slots_paths|].
  split; [exact Hl|]. split; [|exact Hj].
  apply List.Forall_forall. intros p Hp.
  apply in_map_iff in Hp as (key & <- & Hk).
  apply RasterFacts.doc_left_for. by apply list_elem_of_In.
Qed.

Lemma pymupdf_keeps_files_of_earlier_pages_witness :
  exists w' e new left,
    extract_with_pymupdf torn_env "torn.pdf" world0 = (w', Raise e) /\
    saved w' = (saved world0 ++ new)%list /\
    map sv_path new
    = concat (map images (Raster.doc_records torn_env 0 torn_doc_good)) /\
    leftovers w' = (leftovers world0 ++ left)%list /\
    Forall (Raster.left_for torn_env torn_doc_good) left /\
    json_files w' = json_files world0.
Proof.
  apply (pymupdf_keeps_files_of_earlier_pages
           torn_env "torn.pdf" torn_file torn_doc_good damaged_page []).
  - reflexivity.
  - vm_compute. reflexivity.
  - reflexivity.
  - reflexivity.
  - reflexivity.
Defined.

(* ===================================================================== *)
(** ** Further properties of [process_pdf] *)
(* ===================================================================== *)



(** X12: the method string is taken without regard to case: two method
    strings with the same lower-cased form that names a backend give the
    same run. *)
Theorem process_pdf_method_case_insensitive
    (self : Env) (pdf_path method method' : string) (w : World) :
  PyStr.lower method = PyStr.lower method' ->
  Pipeline.recognized method ->
  process_pdf self pdf_path method w = process_pdf self pdf_path method' w.
Proof.
  intros Hl Hrec. unfold process_pdf. rewrite <- Hl.
  destruct (negb (os_path_exists self pdf_path)); [reflexivity|].
  destruct Hrec as [-> | ->]; reflexivity.
Qed.

Lemma process_pdf_method_case_insensitive_witness :
  process_pdf sample_env "paper.pdf" "PDFPlumber" world0
  = process_pdf sample_env "paper.pdf" "pdfplumber" world0.
Proof.
  apply process_pdf_method_case_insensitive.
  - reflexivity.
  - right. reflexivity.
Defined.



(* ===================================================================== *)
(** ** Further properties: construction of the extractor and [main] *)
(* ===================================================================== *)


(** X15: [main] never lets an exception escape: whatever the machine,
    the arguments and the document, it returns the exit code 0 or 1. *)
Theorem main_always_returns
    (host : Cli.Host) (amb : Env) (args : Cli.Args) (s : Cli.Shell) :
  exists s' code,
    Cli.main host amb args s = (s', Ok code) /\ (code = 0 \/ code = 1).
Proof.
  rewrite CliFacts.main_unfold.
  destruct (CliSteps.library_missing amb args).
  - destruct (String.eqb (Cli.method args) "pymupdf"
              && negb (PYMUPDF_AVAILABLE amb));
      eexists _, 1; (split; [reflexivity | by right]).
  - rewrite CliFacts.sbind_unfold.
    destruct (CliFacts.pillow_warning_spec host s) as (s0 & -> & _).
    unfold Cli.stry.
    destruct (CliFacts.main_try_spec host amb args s0)
      as [(s1 & s' & w2 & qs & _ & _ & -> & _) | (s' & e & ->)].
    + exists s', 0. split; [reflexivity | by left].
    + eexists _, 1. split; [reflexivity | by right].
Qed.

(** X16: exit code 0 means the whole run went through: the library of
    the method was importable; the output directory and its images
    subdirectory were made and the log file opened; the input path named
    a file when [process_pdf] tested it, that is after these were
    created; questions.json and raw_pages.json were written, in this
    order, in the directory of [Path(args.output)], the first holding
    the segmentation of the pages held by the second; and no document
    handle is left open. *)
Theorem main_success_outputs
    (host : Cli.Host) (amb : Env) (args : Cli.Args) (s s' : Cli.Shell) :
  Cli.main host amb args s = (s', Ok 0) ->
  let P := PurePath.of_string (Cli.output args) in
  CliSteps.library_missing amb args = false /\
  CliSteps.exists_after_set_up host amb (Cli.output args) s
    (Cli.pdf_path args) = true /\
  Cli.made_dirs s'
  = (Cli.made_dirs s
     ++ [PurePath.to_string P;
         PurePath.to_string (PurePath.div P "images")])%list /\
  Cli.log_files s'
  = (Cli.log_files s
     ++ [PurePath.to_string (PurePath.div P "extraction.log")])%list /\
  (exists pages,
     json_files (Cli.world s')
     = (json_files (Cli.world s)
        ++ [(PurePath.to_string (PurePath.div P "questions.json"),
             JQuestions (segment pages));
            (PurePath.to_string (PurePath.div P "raw_pages.json"),
             JPages pages)])%list) /\
  open_handles (Cli.world s') = open_handles (Cli.world s).
Proof.
  intros E. cbv zeta. rewrite CliFacts.main_unfold in E.
  destruct (CliSteps.library_missing amb args).
  { destruct (String.eqb (Cli.method args) "pymupdf"
              && negb (PYMUPDF_AVAILABLE amb)); discriminate. }
  split; [reflexivity|].
  rewrite CliFacts.sbind_unfold in E.
  destruct (CliFacts.pillow_warning_spec host s) as (s0 & E0 & Hq0).
  rewrite E0 in E. unfold Cli.stry in E.
  destruct (CliFacts.main_try_spec host amb args s0)
    as [(s1 & s2 & w2 & qs & Ei & Ep & Et & Hq2) | (s2 & e & Et)];
    rewrite Et in E; [|discriminate].
  injection E as <-.
  pose proof (CliFacts.init_spec host amb (Cli.output args) s0) as Hi.
  destruct (CliSteps.can_set_up host (Cli.output args)).
  2:{ destruct Hi as (sx & e & Ex & _). rewrite Ex in Ei. discriminate. }
  destruct Hi as (sx & Ex & Hd & Hl & Ho & Hr & _ & Hj & _).
  rewrite Ex in Ei. injection Ei as ->.
  destruct (PipelineFacts.process_pdf_ok_inv _ _ _ _ _ _ Ep)
    as (pages & wa & wb & Hex & _ & -> & Hjp & Hh).
  rewrite CliFacts.os_path_exists_at_call in Hex.
  simpl output_dir in Hjp. rewrite !CliFacts.file_of_path_join in Hjp.
  destruct Hq0 as (Hd0 & Hl0 & Ho0 & Hr0 & _ & Hj0 & _).
  destruct Hq2 as (Hd2 & Hl2 & Ho2 & Hr2 & _ & Hj2 & _).
  simpl in Hd2, Hl2, Ho2, Hr2, Hj2.
  rewrite Hd, Hl, Hd0, Hl0 in Hex.
  split; [exact Hex|].
  split; [by rewrite Hd2, Hd, Hd0|].
  split; [by rewrite Hl2, Hl, Hl0|].
  split.
  - exists pages. rewrite Hj2, Hjp, Hj, Hj0. reflexivity.
  - unfold open_handles in *. rewrite Ho2, Hr2, Hh, Ho, Hr, Ho0, Hr0.
    reflexivity.
Qed.

Lemma main_success_outputs_witness :
  CliSteps.library_missing sample_env (Cli.paper_args "pymupdf") = false /\
  CliSteps.exists_after_set_up Cli.easy_host sample_env "results"
    Cli.shell0 "paper.pdf" = true /\
  Cli.made_dirs
    (fst (Cli.main Cli.easy_host sample_env (Cli.paper_args "pymupdf")
            Cli.shell0))
  = ["results"; "results/images"] /\
  Cli.log_files
    (fst (Cli.main Cli.easy_host sample_env (Cli.paper_args "pymupdf")
            Cli.shell0))
  = ["results/extraction.log"] /\
  (exists pages,
     json_files
       (Cli.world
          (fst (Cli.main Cli.easy_host sample_env
                  (Cli.paper_args "pymupdf") Cli.shell0)))
     = [("results/questions.json", JQuestions (segment pages));
        ("results/raw_pages.json", JPages pages)]) /\
  open_handles
    (Cli.world
       (fst (Cli.main Cli.easy_host sample_env (Cli.paper_args "pymupdf")
               Cli.shell0)))
  = 0.
Proof.
  apply (main_success_outputs Cli.easy_host sample_env
           (Cli.paper_args "pymupdf") Cli.shell0).
  vm_compute. reflexivity.
Defined.

(** X17: when the library of the chosen method cannot be imported,
    [main] returns 1 at once: it prints one line and makes no directory,
    opens no log file and no document, and writes no file. *)
Theorem main_without_library
    (host : Cli.Host) (amb : Env) (args : Cli.Args) (s : Cli.Shell) :
  CliSteps.library_missing amb args = true ->
  exists s' line,
    Cli.main host amb args s = (s', Ok 1) /\
    CliSteps.quiet s s' /\
    stdout (Cli.world s') = (stdout (Cli.world s) ++ [line])%list.
Proof.
  intros H. rewrite CliFacts.main_unfold, H.
  destruct (String.eqb (Cli.method args) "pymupdf"
            && negb (PYMUPDF_AVAILABLE amb));
    eexists _, _; (split; [reflexivity|]); by repeat split.
Qed.

Lemma main_without_library_witness :
  exists s' line,
    Cli.main Cli.easy_host bare_env (Cli.paper_args "pymupdf") Cli.shell0
    = (s', Ok 1) /\
    CliSteps.quiet Cli.shell0 s' /\
    stdout (Cli.world s') = (stdout (Cli.world Cli.shell0) ++ [line])%list.
Proof.
  apply (main_without_library Cli.easy_host bare_env
           (Cli.paper_args "pymupdf") Cli.shell0).
  reflexivity.
Defined.

(** X18: a missing input file is found out only after the extractor has
    been constructed. When the library is importable, the directories
    and the log file can be created, and the input path names no file
    once they are created, [main] returns 1 with the message of
    [FileNotFoundError] as its last line, having made the output
    directories and opened the log file, written no JSON file and opened
    no document. *)
Theorem main_missing_file
    (host : Cli.Host) (amb : Env) (args : Cli.Args) (s : Cli.Shell) :
  CliSteps.library_missing amb args = false ->
  CliSteps.can_set_up host (Cli.output args) = true ->
  CliSteps.exists_after_set_up host amb (Cli.output args) s
    (Cli.pdf_path args) = false ->
  let P := PurePath.of_string (Cli.output args) in
  exists s' printed,
    Cli.main host amb args s = (s', Ok 1) /\
    stdout (Cli.world s')
    = (printed
       ++ [String.append "Error: PDF file not found: "
             (Cli.pdf_path args)])%list /\
    Cli.made_dirs s'
    = (Cli.made_dirs s
       ++ [PurePath.to_string P;
           PurePath.to_string (PurePath.div P "images")])%list /\
    Cli.log_files s'
    = (Cli.log_files s
       ++ [PurePath.to_string (PurePath.div P "extraction.log")])%list /\
    json_files (Cli.world s') = json_files (Cli.world s) /\
    opened (Cli.world s') = opened (Cli.world s).
Proof.
  intros Hlib Hset Hex. cbv zeta.
  remember (Cli.main host amb args s) as out eqn:Eo.
  rewrite CliFacts.main_unfold, Hlib, CliFacts.sbind_unfold in Eo.
  destruct (CliFacts.pillow_warning_spec host s) as (s0 & E0 & Hq0).
  rewrite E0 in Eo. unfold Cli.stry, CliSteps.main_try in Eo.
  rewrite CliFacts.sbind_unfold in Eo.
  pose proof (CliFacts.init_spec host amb (Cli.output args) s0) as Hi.
  rewrite Hset in Hi.
  destruct Hi as (s1 & Ei & Hd & Hl & Ho & _ & _ & Hj & _).
  rewrite Ei, CliFacts.sbind_unfold in Eo.
  unfold Cli.call at 1, Cli.lift at 1 in Eo.
  destruct Hq0 as (Hd0 & Hl0 & Ho0 & _ & _ & Hj0 & _).
  assert (Ep : process_pdf
                 (Cli.at_call host
                    (Cli.with_output_dir amb
                       (CliSteps.dir_of (Cli.output args)))
                    s1 (Cli.pdf_path args))
                 (Cli.pdf_path args) (Cli.method args) (Cli.world s1)
               = (Cli.world s1,
                  Raise (Exn FileNotFoundError
                           ("PDF file not found: " ++ Cli.pdf_path args)))).
  { assert (Hx : os_path_exists
                   (Cli.at_call host
                      (Cli.with_output_dir amb
                         (CliSteps.dir_of (Cli.output args)))
                      s1 (Cli.pdf_path args))
                   (Cli.pdf_path args) = false).
    { rewrite CliFacts.os_path_exists_at_call, Hd, Hl, Hd0, Hl0.
      exact Hex. }
    unfold process_pdf. by rewrite Hx. }
  rewrite Ep in Eo. unfold CliSteps.main_except in Eo.
  rewrite CliFacts.sbind_unfold in Eo.
  destruct (CliFacts.lift_print_spec
              ("Error: " ++ str_exn
                 (Exn FileNotFoundError
                    ("PDF file not found: " ++ Cli.pdf_path args)))
              {| Cli.world := Cli.world s1;
                 Cli.made_dirs := Cli.made_dirs s1;
                 Cli.log_files := Cli.log_files s1 |})
    as (s2 & E2 & Hq2 & Hout).
  rewrite E2 in Eo. subst out. exists s2. eexists.
  split; [reflexivity|].
  split; [exact Hout|].
  destruct Hq2 as (Hd2 & Hl2 & Ho2 & _ & _ & Hj2 & _).
  simpl in Hd2, Hl2, Ho2, Hj2.
  split; [by rewrite Hd2, Hd, Hd0|].
  split; [by rewrite Hl2, Hl, Hl0|].
  split; [by rewrite Hj2, Hj, Hj0 | by rewrite Ho2, Ho, Ho0].
Qed.

Lemma main_missing_file_witness :
  exists s' printed,
    Cli.main Cli.easy_host sample_env
      {| Cli.pdf_path := "missing.pdf"; Cli.method := "pymupdf";
         Cli.output := "results/"; Cli.verbose := false |} Cli.shell0
    = (s', Ok 1) /\
    stdout (Cli.world s')
    = (printed ++ ["Error: PDF file not found: missing.pdf"])%list /\
    Cli.made_dirs s' = ["results"; "results/images"] /\
    Cli.log_files s' = ["results/extraction.log"] /\
    json_files (Cli.world s') = [] /\
    opened (Cli.world s') = 0.
Proof.
  apply (main_missing_file Cli.easy_host sample_env
           {| Cli.pdf_path := "missing.pdf"; Cli.method := "pymupdf";
              Cli.output := "results/"; Cli.verbose := false |} Cli.shell0).
  - reflexivity.
  - reflexivity.
  - vm_compute. reflexivity.
Defined.

(* ===================================================================== *)
(** ** Further properties: what the records and the trigger test say *)
(* ===================================================================== *)

(** X19: the records mirror the document page by page. With the
    rasterizing backend the text of a record is the stripped text of its
    page. With the geometry-only backend it is the stripped text of its
    page, the empty string when the library gives no text ([None]), and
    [image_metadata] holds one box per image of the page, in the order
    of the page, read with [img.get(key, 0)]. *)
Theorem records_mirror_pages
    (self : Env) (pdf_path : string) (f : PdfFile) (w : World) :
  fs self !! pdf_path = Some f ->
  (forall doc w' recs,
     fitz_view f = Some doc ->
     extract_with_pymupdf self pdf_path w = (w', Ok recs) ->
     Forall2 (fun page r =>
                exists t, Fitz.get_text page = Some t /\
                          text r = strip t)
             doc recs) /\
  (forall pdf w' recs,
     plumber_view f = Some pdf ->
     extract_with_pdfplumber self pdf_path w = (w', Ok recs) ->
     Forall2 (fun page r =>
                exists boxes,
                  Plumber.images page = Some boxes /\
                  image_metadata r = Some (map image_info boxes) /\
                  text r
                  = strip (match Plumber.extract_text page with
                           | Some (Some t) => t
                           | _ => ""
                           end))
             pdf recs).
Proof.
  intros Hfs. split.
  - intros doc w' recs Hv E.
    apply RasterFacts.extract_with_pymupdf_ok_inv in E
      as (f' & doc' & _ & Hfs' & Hv' & Hall & ->).
    assert (doc' = doc) as -> by congruence.
    clear Hv Hv' Hfs Hfs'. unfold Raster.doc_records.
    generalize 0 as k.
    induction doc as [|page doc IH]; intros k; simpl; constructor.
    + simpl in Hall. apply andb_true_iff in Hall as [Hp _].
      unfold Raster.readable in Hp.
      destruct (Fitz.get_text page) as [t|] eqn:Ht;
        [|by rewrite andb_false_r in Hp].
      exists t. split; [reflexivity|].
      unfold Raster.page_record. simpl. by rewrite Ht.
    + simpl in Hall. apply andb_true_iff in Hall as [_ Hall].
      by apply IH.
  - intros pdf w' recs Hv E.
    apply GeometryFacts.extract_with_pdfplumber_ok_inv in E
      as (f' & pdf' & _ & Hfs' & Hv' & Hall & ->).
    assert (pdf' = pdf) as -> by congruence.
    clear Hv Hv' Hfs Hfs'. unfold Geometry.doc_records.
    generalize 0 as k.
    induction pdf as [|page pdf IH]; intros k; simpl; constructor.
    + simpl in Hall. apply andb_true_iff in Hall as [Hp _].
      unfold Geometry.readable in Hp.
      destruct (Plumber.images page) as [boxes|] eqn:Hb;
        [|by rewrite andb_false_r in Hp].
      exists boxes. split; [reflexivity|].
      unfold Geometry.page_record, Geometry.page_boxes, Geometry.page_text.
      simpl. by rewrite Hb.
    + simpl in Hall. apply andb_true_iff in Hall as [_ Hall].
      by apply IH.
Qed.

Lemma records_mirror_pages_witness :
  Forall2 (fun page r =>
             exists t, Fitz.get_text page = Some t /\ text r = strip t)
    [fitz_page " What is the next figure? "
       [good_image cmyk_alpha; corrupt_image; good_image rgb];
     fitz_page "Answers overleaf." []]
    (Raster.doc_records sample_env 0
       [fitz_page " What is the next figure? "
          [good_image cmyk_alpha; corrupt_image; good_image rgb];
        fitz_page "Answers overleaf." []]).
Proof.
  assert (Hfs : fs sample_env !! "paper.pdf" = Some paper_file)
    by (vm_compute; reflexivity).
  refine (proj1 (records_mirror_pages sample_env "paper.pdf" paper_file
                   world0 Hfs) _
            (fst (extract_with_pymupdf sample_env "paper.pdf" world0))
            _ eq_refl _).
  vm_compute. reflexivity.
Defined.

(** X21: blank lines and the white space around lines do not matter:
    two pages with the same image pool whose texts have the same
    stripped non-blank lines give the same Questions. *)
Theorem layout_does_not_matter (page page' : PageRecord) :
  Grouping.visible_lines (text page)
  = Grouping.visible_lines (text page') ->
  images page = images page' ->
  page_questions page = page_questions page'.
Proof.
  intros Hl Hi. unfold page_questions, page_step.
  rewrite !GroupingFacts.fold_line_step_groups
    by (intros T; discriminate).
  simpl. unfold Grouping.visible_lines in Hl. by rewrite Hl, Hi.
Qed.

Lemma layout_does_not_matter_witness :
  page_questions
    (page_of 1 ["  Find x."; ""; "   x > 0   "; "  "] ["a"; "b"])
  = page_questions (page_of 7 ["Find x."; "x > 0"] ["a"; "b"]).
Proof.
  apply layout_does_not_matter; reflexivity.
Defined.
